(** * Identity verification and session tokens of the Fuzion server

    A shallow embedding of the authentication slice of
    [src/controllers/user.controller.js] together with the [User] schema
    and its methods ([models/user.model.js]).  Every request handler is a
    function from the request, the environment of the request (clock,
    random source, mail transport) and the database to a result and a new
    database.  A handler that throws keeps the writes it made before the
    throw, exactly as the JavaScript does.

    Conventions.
    - JavaScript strings are [string]s whose characters are read as code
      units below 256; numbers are restricted to integers ([Z]); request
      fields range over JSON scalars.  The value of [Math.random()] is a
      rational that is a binary64, and its product is rounded as binary64
      rounds it.
    - The libraries the controller calls ([jsonwebtoken], [bcrypt],
      [mongoose]) are modelled symbolically: a signed token is its claims
      together with the key that signed it, a digest is the marked
      plaintext, a collection is the list of its documents in natural
      order.  The store answers every call, except in the handlers
      marked [_over], whose calls to the store may fail.
    - [utils/jwt.js], [utils/sendEmail.js] and the [Registration] schema
      are not among the sources; what stands for them is marked where it
      is defined. *)

From Stdlib Require Import ZArith QArith Qround String Ascii List Bool Lia Lqa.
From Stdlib Require Import DecimalString.
Import ListNotations.

Close Scope Q_scope.
Local Open Scope string_scope.
Local Open Scope Z_scope.

(** ** JavaScript values and the string primitives the controller uses *)

Module Js.

Inductive JsVal : Type :=
| JUndefined
| JNull
| JBool (b : bool)
| JNum (n : Z)
| JStr (s : string).

(** [ToBoolean]: what [if (v)] and [!v] look at. *)
Definition truthy (v : JsVal) : bool :=
  match v with
  | JUndefined | JNull => false
  | JBool b => b
  | JNum n => negb (n =? 0)
  | JStr s => negb (String.eqb s "")
  end.

(** [a === b]. *)
Definition strict_eq (a b : JsVal) : bool :=
  match a, b with
  | JUndefined, JUndefined => true
  | JNull, JNull => true
  | JBool x, JBool y => Bool.eqb x y
  | JNum x, JNum y => x =? y
  | JStr x, JStr y => String.eqb x y
  | _, _ => false
  end.

(** [ToString], as [String(v)] and [RegExp.prototype.test] apply it. *)
Definition ToString (v : JsVal) : string :=
  match v with
  | JUndefined => "undefined"
  | JNull => "null"
  | JBool true => "true"
  | JBool false => "false"
  | JNum n => NilZero.string_of_int (Z.to_int n)
  | JStr s => s
  end.

(** White space and line terminators among the code units below 256:
    TAB, LF, VT, FF, CR, SP and NBSP. *)
Definition isWhiteSpace (c : ascii) : bool :=
  let n := N_of_ascii c in
  (((9 <=? n) && (n <=? 13)) || (n =? 32) || (n =? 160))%N.

Fixpoint trimStart (s : string) : string :=
  match s with
  | EmptyString => EmptyString
  | String c r => if isWhiteSpace c then trimStart r else s
  end.

Fixpoint trimEnd (s : string) : string :=
  match s with
  | EmptyString => EmptyString
  | String c r =>
      match trimEnd r with
      | EmptyString => if isWhiteSpace c then EmptyString else String c EmptyString
      | r' => String c r'
      end
  end.

(** [String.prototype.trim]. *)
Definition trim (s : string) : string := trimEnd (trimStart s).

Definition lowerChar (c : ascii) : ascii :=
  let n := N_of_ascii c in
  if (((65 <=? n) && (n <=? 90))
      || ((192 <=? n) && (n <=? 222) && negb (n =? 215)))%N
  then ascii_of_N (n + 32) else c.

(** [String.prototype.toLowerCase]. *)
Fixpoint toLowerCase (s : string) : string :=
  match s with
  | EmptyString => EmptyString
  | String c r => String (lowerChar c) (toLowerCase r)
  end.

(** [Math.floor] on the rationals that stand for doubles. *)
Definition Math_floor (q : Q) : Z := Qfloor q.

(** Round to the nearest integer, ties to the even one. *)
Definition roundTiesToEven (q : Q) : Z :=
  let f := Qfloor q in
  match (q - inject_Z f ?= 1 # 2)%Q with
  | Lt => f
  | Gt => f + 1
  | Eq => if Z.even f then f else f + 1
  end.

(** The Number nearest to a rational [q >= 0], ties to even.  The
    binary64 values are the multiples [m * 2^(s - 1074)] with
    [0 <= m < 2^53]; [s] is zero in the subnormal range and otherwise
    leaves [q] with 53 bits before the point.  Overflow to [Infinity] is
    left out: the controller multiplies a number below one by 900000. *)
Definition binary64_round_pos (q : Q) : Q :=
  let n := (q * inject_Z (2 ^ 1074))%Q in
  let s := Z.max 0 (Z.log2 (Qfloor n) - 52) in
  (inject_Z (roundTiesToEven (n / inject_Z (2 ^ s)) * 2 ^ s)
   / inject_Z (2 ^ 1074))%Q.

Definition binary64_round (q : Q) : Q :=
  if Qle_bool 0 q then binary64_round_pos q else (- binary64_round_pos (- q))%Q.

(** A rational that is a Number. *)
Definition binary64 (q : Q) : Prop := (binary64_round q == q)%Q.

(** [a * b] on Numbers: the exact product, rounded once. *)
Definition Number_mul (a b : Q) : Q := binary64_round (a * b).

End Js.
Export Js.

(** ** Regular expressions

    The two patterns of the controller are anchored at both ends and use
    only classes, concatenation and [+]; [test] decides a full match by
    derivatives. *)

Module RegExp.

Inductive re : Type :=
| Never
| Empty
| Class (p : ascii -> bool)
| Seq (a b : re)
| Alt (a b : re)
| Star (a : re).

Definition Plus (a : re) : re := Seq a (Star a).
Definition Chr (c : ascii) : re := Class (Ascii.eqb c).

Fixpoint nullable (r : re) : bool :=
  match r with
  | Never => false
  | Empty => true
  | Class _ => false
  | Seq a b => nullable a && nullable b
  | Alt a b => nullable a || nullable b
  | Star _ => true
  end.

Fixpoint deriv (c : ascii) (r : re) : re :=
  match r with
  | Never | Empty => Never
  | Class p => if p c then Empty else Never
  | Seq a b =>
      if nullable a then Alt (Seq (deriv c a) b) (deriv c b)
      else Seq (deriv c a) b
  | Alt a b => Alt (deriv c a) (deriv c b)
  | Star a => Seq (deriv c a) (Star a)
  end.

Fixpoint matches (r : re) (s : string) : bool :=
  match s with
  | EmptyString => nullable r
  | String c s' => matches (deriv c r) s'
  end.

(** [/^r$/.test(v)]: the argument is converted with [ToString] first. *)
Definition test (r : re) (v : JsVal) : bool := matches r (ToString v).

End RegExp.

(** [/^[^\s@]+@[^\s@]+\.[^\s@]+$/] *)
Definition emailPattern : RegExp.re :=
  let other := RegExp.Class (fun c => negb (isWhiteSpace c || Ascii.eqb c "@")) in
  RegExp.Seq (RegExp.Plus other)
    (RegExp.Seq (RegExp.Chr "@")
       (RegExp.Seq (RegExp.Plus other)
          (RegExp.Seq (RegExp.Chr ".") (RegExp.Plus other)))).

(** [/^[a-zA-Z0-9-_]+$/] *)
Definition usernamePattern : RegExp.re :=
  RegExp.Plus (RegExp.Class (fun c =>
    let n := N_of_ascii c in
    (((97 <=? n) && (n <=? 122)) || ((65 <=? n) && (n <=? 90))
     || ((48 <=? n) && (n <=? 57)) || (n =? 45) || (n =? 95))%N)).

(** ** Failures

    Everything a handler can throw.  [ApiError] is the controller's own
    error; the others are the errors of the runtime and of the libraries. *)

Inductive Failure : Type :=
| ApiError (statusCode : Z) (message : string)
| TypeError (message : string)
| JsonWebTokenError (message : string)
| TokenExpiredError (message : string)
| MongoServerError (code : Z) (message : string)
| ValidationError (message : string)
| DocumentNotFoundError (message : string)
| Error (message : string).

(** [error.message] *)
Definition message_of (e : Failure) : string :=
  match e with
  | ApiError _ m | TypeError m | JsonWebTokenError m | TokenExpiredError m
  | MongoServerError _ m | ValidationError m | DocumentNotFoundError m
  | Error m => m
  end.

(** The status the error middleware of [app.js] answers with:
    [err.statusCode || 500]. *)
Definition statusCode_of (e : Failure) : Z :=
  match e with
  | ApiError c _ => if c =? 0 then 500 else c
  | _ => 500
  end.

Inductive Result (A : Type) : Type :=
| Ok (a : A)
| Throw (e : Failure).
Arguments Ok {A} a.
Arguments Throw {A} e.

(** ** Signed tokens ([jsonwebtoken])

    A token is the claims it carries, the key that signed it and its two
    time stamps in seconds.  Two tokens are the same text exactly when
    they agree on all of these.  [Malformed] stands for any other string a
    client may present. *)

Module Jwt.

Inductive Payload : Type :=
| PData (data : JsVal)
| PAccess (_id : nat) (email username fullName : string)
| PRefresh (_id : nat).

Inductive Token : Type :=
| Signed (payload : Payload) (secret : string) (iat exp : Z)
| Malformed (text : string).

(** [jwt.sign(payload, secret, { expiresIn })] at clock [now] (in ms);
    [expiresIn] is the lifetime in seconds. *)
Definition sign (payload : Payload) (secret : string) (expiresIn now : Z) : Token :=
  let iat := now / 1000 in
  Signed payload secret iat (iat + expiresIn).

(** [jwt.verify(token, secret)] at clock [now]: the signature is checked
    first, then the expiry. *)
Definition verify (token : Token) (secret : string) (now : Z) : Result Payload :=
  match token with
  | Malformed _ => Throw (JsonWebTokenError "jwt malformed")
  | Signed payload key _ exp =>
      if String.eqb key secret then
        if exp <=? now / 1000 then Throw (TokenExpiredError "jwt expired")
        else Ok payload
      else Throw (JsonWebTokenError "invalid signature")
  end.

Definition payload_eqb (p q : Payload) : bool :=
  match p, q with
  | PData a, PData b => strict_eq a b
  | PAccess i e u f, PAccess j e' u' f' =>
      Nat.eqb i j && String.eqb e e' && String.eqb u u' && String.eqb f f'
  | PRefresh i, PRefresh j => Nat.eqb i j
  | _, _ => false
  end.

(** [a === b] on token strings. *)
Definition eqb (a b : Token) : bool :=
  match a, b with
  | Signed p k i x, Signed q k' i' x' =>
      payload_eqb p q && String.eqb k k' && (i =? i') && (x =? x')
  | Malformed s, Malformed s' => String.eqb s s'
  | _, _ => false
  end.

(** A token is a string: only the empty one is falsy. *)
Definition truthy (t : Token) : bool :=
  match t with
  | Signed _ _ _ _ => true
  | Malformed s => negb (String.eqb s "")
  end.

(** [decoded.data] *)
Definition data (p : Payload) : JsVal :=
  match p with
  | PData d => d
  | _ => JUndefined
  end.

(** [decoded?._id] *)
Definition _id (p : Payload) : option nat :=
  match p with
  | PData _ => None
  | PAccess i _ _ _ => Some i
  | PRefresh i => Some i
  end.

End Jwt.

(** [a || b] where both operands are token strings or undefined. *)
Definition or_token (a b : option Jwt.Token) : option Jwt.Token :=
  match a with
  | Some t => if Jwt.truthy t then a else b
  | None => b
  end.

(** [!t] for a token string or undefined: the token when it is truthy. *)
Definition present (t : option Jwt.Token) : option Jwt.Token :=
  match t with
  | Some t' => if Jwt.truthy t' then Some t' else None
  | None => None
  end.

(** ** Password digests ([bcrypt]) *)

Module Bcrypt.

(** [bcrypt.hash(data, 10)]: the digest is the marked plaintext. *)
Definition hash (data : string) : string := "$2b$10$" ++ data.

(** [bcrypt.compare(data, encrypted)] rejects anything but a string. *)
Definition compare (data : JsVal) (encrypted : string) : Result bool :=
  match data with
  | JStr s => Ok (String.eqb encrypted (hash s))
  | _ => Throw (Error "data and hash must be strings")
  end.

End Bcrypt.

(** ** Configuration ([process.env])

    The lifetimes are in seconds, as [jsonwebtoken] reads them. *)

Record ProcessEnv : Type := {
  ACCESS_TOKEN_SECRET : string;
  ACCESS_TOKEN_EXPIRY : Z;
  REFRESH_TOKEN_SECRET : string;
  REFRESH_TOKEN_EXPIRY : Z;
  (* the two settings read by utils/jwt.js *)
  JWT_SECRET : string;
  JWT_EXPIRY : Z
}.

(** Modelled from the spec: [utils/jwt.js] is not part of the available
    source.  The controller calls [generateToken(email)] with the payload
    alone at every issuing step, so the helper has one signing secret and
    one lifetime; per section 4.1 it issues "a signed token embedding
    payload and an expiry", read back by the controller as
    [decoded.data]. *)
Definition generateToken (env : ProcessEnv) (now : Z) (data : JsVal) : Jwt.Token :=
  Jwt.sign (Jwt.PData data) (JWT_SECRET env) (JWT_EXPIRY env) now.

(** Modelled from the spec: [utils/jwt.js] is not part of the available
    source.  The controller calls [verifyToken(token)] with the token
    alone at every confirming step; per section 4.1 it "fails with
    Invalid if signature or structure is wrong, Expired if past ttl". *)
Definition verifyToken (env : ProcessEnv) (now : Z) (token : Jwt.Token) : Result Jwt.Payload :=
  Jwt.verify token (JWT_SECRET env) now.

(** ** Documents *)

(** The value of a schema path: missing ([undefined]), [null], or set. *)
Inductive Stored (A : Type) : Type :=
| Absent
| Null
| Val (a : A).
Arguments Absent {A}.
Arguments Null {A}.
Arguments Val {A} a.

(** The stored number or date as the JavaScript value it reads as. *)
Definition toJs (v : Stored Z) : JsVal :=
  match v with
  | Absent => JUndefined
  | Null => JNull
  | Val n => JNum n
  end.

(** [d < n] for a stored date [d] and a number [n]: [null] converts to 0
    and [undefined] to NaN, which compares false. *)
Definition date_lt (d : Stored Z) (n : Z) : bool :=
  match d with
  | Absent => false
  | Null => 0 <? n
  | Val t => t <? n
  end.

(** [userSchema] of [models/user.model.js].  The [createdAt]/[updatedAt]
    stamps kept by [timestamps: true] are left out: no handler reads
    them. *)
Module userSchema.

Record doc : Type := {
  _id : nat;
  username : string;
  email : string;
  fullName : string;
  bio : Stored string;
  avatar : string;
  coverImage : string;
  watchHistory : list nat;
  password : string;
  refreshToken : Stored Jwt.Token;
  forgotPasswordOTP : Stored Z;
  forgotPasswordOtpExpiry : Stored Z;
  updateEmailOTP : Stored Z;
  updateEmailOTPExpiry : Stored Z
}.

(** The setters of a path declared [lowercase: true, trim: true]. *)
Definition lowercase_trim (s : string) : string := trim (toLowerCase s).

(** What [.select("-password -refreshToken")] keeps. *)
Record selected : Type := {
  sel_id : nat;
  sel_username : string;
  sel_email : string;
  sel_fullName : string;
  sel_bio : Stored string;
  sel_avatar : string;
  sel_coverImage : string;
  sel_watchHistory : list nat;
  sel_forgotPasswordOTP : Stored Z;
  sel_forgotPasswordOtpExpiry : Stored Z;
  sel_updateEmailOTP : Stored Z;
  sel_updateEmailOTPExpiry : Stored Z
}.

Definition select (u : doc) : selected :=
  {| sel_id := _id u; sel_username := username u; sel_email := email u;
     sel_fullName := fullName u; sel_bio := bio u; sel_avatar := avatar u;
     sel_coverImage := coverImage u; sel_watchHistory := watchHistory u;
     sel_forgotPasswordOTP := forgotPasswordOTP u;
     sel_forgotPasswordOtpExpiry := forgotPasswordOtpExpiry u;
     sel_updateEmailOTP := updateEmailOTP u;
     sel_updateEmailOTPExpiry := updateEmailOTPExpiry u |}.

End userSchema.

Module registrationSchema.

(** Modelled from the spec: [models/registration.model.js] is not part of
    the available source.  Per section 3 a PendingRegistration is a
    "transient record keyed by email, holding a registration OTP"; the
    controller writes the two paths [email] and [verificationOTP]. *)
Record doc : Type := {
  _id : nat;
  email : string;
  verificationOTP : Stored Z
}.

End registrationSchema.

(** The database: the two collections, each in natural order. *)
Record Db : Type := {
  users : list userSchema.doc;
  registrations : list registrationSchema.doc
}.

(** ** Handlers as state transformers that may throw *)

Definition M (A : Type) : Type := Db -> Result A * Db.

Definition ret {A : Type} (a : A) : M A := fun db => (Ok a, db).

Definition throw {A : Type} (e : Failure) : M A := fun db => (Throw e, db).

Definition bind {A B : Type} (m : M A) (k : A -> M B) : M B :=
  fun db =>
    match m db with
    | (Ok a, db') => k a db'
    | (Throw e, db') => (Throw e, db')
    end.

(** [try { m } catch (error) { h error }] *)
Definition try_catch {A : Type} (m : M A) (h : Failure -> M A) : M A :=
  fun db =>
    match m db with
    | (Ok a, db') => (Ok a, db')
    | (Throw e, db') => h e db'
    end.

Definition lift {A : Type} (r : Result A) : M A := fun db => (r, db).

(** [if (c) { throw e }] *)
Definition throw_if (c : bool) (e : Failure) : M unit :=
  if c then throw e else ret tt.

Declare Scope handler_scope.
Delimit Scope handler_scope with handler.
Notation "x <- m ;; k" := (bind m (fun x => k))
  (at level 61, m at next level, right associativity) : handler_scope.
Notation "m ;; k" := (bind m (fun _ => k))
  (at level 61, right associativity) : handler_scope.
Local Open Scope handler_scope.

(** ** The [User] model ([mongoose.model("User", userSchema)]) *)

(** How Mongoose treats a key of an update whose value is [undefined]:
    release 5 writes [null], release 6 and later drop the key
    ([omitUndefined] is then always on).  The release is fixed by
    [package.json], which is not part of the available source. *)
Record Mongoose : Type := {
  omitUndefined : bool
}.

(** The releases from 6 on, current since 2021: an [undefined] in an
    update is always dropped. *)
Definition release_6 : Mongoose := {| omitUndefined := true |}.

Module User.

Import userSchema.

Definition set_email (v : string) (u : doc) : doc :=
  {| _id := _id u; username := username u; email := v; fullName := fullName u;
     bio := bio u; avatar := avatar u; coverImage := coverImage u;
     watchHistory := watchHistory u; password := password u;
     refreshToken := refreshToken u;
     forgotPasswordOTP := forgotPasswordOTP u;
     forgotPasswordOtpExpiry := forgotPasswordOtpExpiry u;
     updateEmailOTP := updateEmailOTP u;
     updateEmailOTPExpiry := updateEmailOTPExpiry u |}.

Definition set_password (v : string) (u : doc) : doc :=
  {| _id := _id u; username := username u; email := email u; fullName := fullName u;
     bio := bio u; avatar := avatar u; coverImage := coverImage u;
     watchHistory := watchHistory u; password := v;
     refreshToken := refreshToken u;
     forgotPasswordOTP := forgotPasswordOTP u;
     forgotPasswordOtpExpiry := forgotPasswordOtpExpiry u;
     updateEmailOTP := updateEmailOTP u;
     updateEmailOTPExpiry := updateEmailOTPExpiry u |}.

Definition set_refreshToken (v : Stored Jwt.Token) (u : doc) : doc :=
  {| _id := _id u; username := username u; email := email u; fullName := fullName u;
     bio := bio u; avatar := avatar u; coverImage := coverImage u;
     watchHistory := watchHistory u; password := password u;
     refreshToken := v;
     forgotPasswordOTP := forgotPasswordOTP u;
     forgotPasswordOtpExpiry := forgotPasswordOtpExpiry u;
     updateEmailOTP := updateEmailOTP u;
     updateEmailOTPExpiry := updateEmailOTPExpiry u |}.

(** [user.forgotPasswordOTP = o; user.forgotPasswordOtpExpiry = x] *)
Definition set_forgotPassword (o x : Stored Z) (u : doc) : doc :=
  {| _id := _id u; username := username u; email := email u; fullName := fullName u;
     bio := bio u; avatar := avatar u; coverImage := coverImage u;
     watchHistory := watchHistory u; password := password u;
     refreshToken := refreshToken u;
     forgotPasswordOTP := o;
     forgotPasswordOtpExpiry := x;
     updateEmailOTP := updateEmailOTP u;
     updateEmailOTPExpiry := updateEmailOTPExpiry u |}.

(** [user.updateEmailOTP = o; user.updateEmailOTPExpiry = x] *)
Definition set_updateEmail (o x : Stored Z) (u : doc) : doc :=
  {| _id := _id u; username := username u; email := email u; fullName := fullName u;
     bio := bio u; avatar := avatar u; coverImage := coverImage u;
     watchHistory := watchHistory u; password := password u;
     refreshToken := refreshToken u;
     forgotPasswordOTP := forgotPasswordOTP u;
     forgotPasswordOtpExpiry := forgotPasswordOtpExpiry u;
     updateEmailOTP := o;
     updateEmailOTPExpiry := x |}.

(** The cast of a value to a [String] path. *)
Definition castString (v : JsVal) : Stored string :=
  match v with
  | JUndefined => Absent
  | JNull => Null
  | _ => Val (ToString v)
  end.

(** The cast of a query value for a [lowercase, trim] path: the setters
    run on query values too; [null] and [undefined] match no document,
    since both paths are required. *)
Definition castForQuery (v : JsVal) : option string :=
  match castString v with
  | Val s => Some (lowercase_trim s)
  | _ => None
  end.

Inductive Filter : Type :=
| ByEmail (v : JsVal)
| ByUsername (v : JsVal)
| Or (a b : Filter).

Fixpoint matchesFilter (f : Filter) (u : doc) : bool :=
  match f with
  | ByEmail v =>
      match castForQuery v with
      | Some q => String.eqb (email u) q
      | None => false
      end
  | ByUsername v =>
      match castForQuery v with
      | Some q => String.eqb (username u) q
      | None => false
      end
  | Or a b => matchesFilter a u || matchesFilter b u
  end.

Definition hasId (i : nat) (u : doc) : bool := Nat.eqb (_id u) i.

Definition findOne (f : Filter) : M (option doc) :=
  fun db => (Ok (find (matchesFilter f) (users db)), db).

(** [findById(undefined)] finds nothing. *)
Definition findById (id : option nat) : M (option doc) :=
  fun db =>
    (Ok match id with
        | Some i => find (hasId i) (users db)
        | None => None
        end, db).

Fixpoint replaceFirst (i : nat) (f : doc -> doc) (l : list doc) : list doc :=
  match l with
  | [] => []
  | v :: r => if hasId i v then f v :: r else v :: replaceFirst i f r
  end.

Definition E11000 : Failure :=
  MongoServerError 11000 "E11000 duplicate key error collection: users".

(** [user.save({ validateBeforeSave: false })] for a document loaded from
    the collection and then assigned to.  Only the modified paths are
    written: the [pre("save")] hook hashes the password when it was
    modified, and the unique indexes on [email] and [username] are
    checked for the paths that changed.  The result is the document as
    it is in memory afterwards. *)
Definition save (u : doc) : M doc :=
  fun db =>
    match find (hasId (_id u)) (users db) with
    | None => (Throw (DocumentNotFoundError "No document found for query"), db)
    | Some old =>
        let u' :=
          if String.eqb (password u) (password old) then u
          else set_password (Bcrypt.hash (password u)) u in
        let dupEmail :=
          negb (String.eqb (email u) (email old))
          && existsb (fun v => String.eqb (email v) (email u)) (users db) in
        let dupUsername :=
          negb (String.eqb (username u) (username old))
          && existsb (fun v => String.eqb (username v) (username u)) (users db) in
        if dupEmail || dupUsername then (Throw E11000, db)
        else (Ok u', {| users := replaceFirst (_id u) (fun _ => u') (users db);
                        registrations := registrations db |})
    end.

(** A fresh [ObjectId]. *)
Definition freshId (l : list doc) : nat := S (fold_right Nat.max O (map _id l)).

Definition defaultBio : string :=
  "Welcome to my profile! Excited to connect and share with everyone.".

(** The [required] validator of a [String] path. *)
Definition isRequired (v : Stored string) : bool :=
  match v with
  | Val s => negb (String.eqb s "")
  | _ => false
  end.

Definition valOr (d : string) (v : Stored string) : string :=
  match v with
  | Val s => s
  | _ => d
  end.

(** [User.create({ fullName, bio, avatar, coverImage, email, password,
    username })]: casts and setters, validation, the [pre("save")] hook,
    then the insert under the unique indexes. *)
Definition create (fullName' bio' : JsVal) (avatar' coverImage' : string)
    (email' password' : JsVal) (username' : string) : M doc :=
  fun db =>
    let fn := match castString fullName' with Val s => Val (trim s) | x => x end in
    let em := match castString email' with Val s => Val (lowercase_trim s) | x => x end in
    let un := Val (lowercase_trim username') in
    let pw := castString password' in
    let bi := match castString bio' with Absent => Val defaultBio | x => x end in
    if negb (isRequired fn && isRequired em && isRequired un && isRequired pw)
    then (Throw (ValidationError "User validation failed"), db)
    else
      let u :=
        {| _id := freshId (users db);
           username := valOr "" un; email := valOr "" em; fullName := valOr "" fn;
           bio := bi; avatar := avatar'; coverImage := coverImage';
           watchHistory := [];
           password := Bcrypt.hash (valOr "" pw);
           refreshToken := Absent;
           forgotPasswordOTP := Absent; forgotPasswordOtpExpiry := Absent;
           updateEmailOTP := Absent; updateEmailOTPExpiry := Absent |} in
      if existsb (fun v => String.eqb (email v) (email u)
                           || String.eqb (username v) (username u)) (users db)
      then (Throw E11000, db)
      else (Ok u, {| users := (users db ++ [u])%list; registrations := registrations db |}).

(** [User.findByIdAndUpdate(id, { $set: { refreshToken: v } }, { new: true })]. *)
Definition findByIdAndUpdate_set_refreshToken (mg : Mongoose) (id : nat)
    (v : Stored Jwt.Token) : M (option doc) :=
  fun db =>
    let written :=
      match v with
      | Absent => if omitUndefined mg then None else Some Null
      | _ => Some v
      end in
    let users' :=
      match written with
      | Some w => replaceFirst id (set_refreshToken w) (users db)
      | None => users db
      end in
    (Ok (find (hasId id) users'),
     {| users := users'; registrations := registrations db |}).

(** [userSchema.methods.isPasswordCorrect] *)
Definition isPasswordCorrect (u : doc) (password' : JsVal) : M bool :=
  lift (Bcrypt.compare password' (password u)).

(** [userSchema.methods.generateAccessToken] *)
Definition generateAccessToken (env : ProcessEnv) (now : Z) (u : doc) : Jwt.Token :=
  Jwt.sign (Jwt.PAccess (_id u) (email u) (username u) (fullName u))
    (ACCESS_TOKEN_SECRET env) (ACCESS_TOKEN_EXPIRY env) now.

(** [userSchema.methods.generateRefreshToken] *)
Definition generateRefreshToken (env : ProcessEnv) (now : Z) (u : doc) : Jwt.Token :=
  Jwt.sign (Jwt.PRefresh (_id u))
    (REFRESH_TOKEN_SECRET env) (REFRESH_TOKEN_EXPIRY env) now.

End User.

(** ** The [Registration] model *)

Module Registration.

Import registrationSchema.

(** Modelled from the spec: the schema of [Registration] is not part of
    the available source.  Step 2 of registration "fails Invalid if the
    decoded email has no PendingRegistration with a matching OTP"; the
    scenario of section 8 submits the code as the string of its digits,
    so a string matches the number it spells.  A missing or [null] value
    matches a missing or [null] path, as in MongoDB. *)
Definition otpMatches (q : JsVal) (stored : Stored Z) : bool :=
  match q, stored with
  | JNum n, Val m => n =? m
  | JStr s, Val m => String.eqb s (ToString (JNum m))
  | (JUndefined | JNull), (Absent | Null) => true
  | _, _ => false
  end.

Definition emailMatches (q : JsVal) (d : doc) : bool :=
  match q with
  | JUndefined | JNull => false
  | _ => String.eqb (email d) (ToString q)
  end.

(** [Registration.findOne({ email, verificationOTP })] *)
Definition findOne (email' verificationOTP' : JsVal) : M (option doc) :=
  fun db =>
    (Ok (find (fun d => emailMatches email' d
                        && otpMatches verificationOTP' (verificationOTP d))
           (registrations db)), db).

Fixpoint removeFirst (p : doc -> bool) (l : list doc) : list doc :=
  match l with
  | [] => []
  | d :: r => if p d then r else d :: removeFirst p r
  end.

(** [Registration.findOneAndDelete({ email })] *)
Definition findOneAndDelete (email' : JsVal) : M (option doc) :=
  fun db =>
    (Ok (find (emailMatches email') (registrations db)),
     {| users := users db;
        registrations := removeFirst (emailMatches email') (registrations db) |}).

Definition freshId (l : list doc) : nat := S (fold_right Nat.max O (map _id l)).

(** [Registration.create({ email })] *)
Definition create (email' : JsVal) : M (option doc) :=
  fun db =>
    let d := {| _id := freshId (registrations db); email := ToString email';
                verificationOTP := Absent |} in
    (Ok (Some d), {| users := users db; registrations := (registrations db ++ [d])%list |}).

Fixpoint replaceFirst (d : doc) (l : list doc) : list doc :=
  match l with
  | [] => []
  | v :: r => if Nat.eqb (_id v) (_id d) then d :: r else v :: replaceFirst d r
  end.

(** [registration.verificationOTP = otp; registration.save(...)] *)
Definition save_verificationOTP (d : doc) (otp : Z) : M unit :=
  fun db =>
    let d' := {| _id := _id d; email := email d; verificationOTP := Val otp |} in
    (Ok tt, {| users := users db; registrations := replaceFirst d' (registrations db) |}).

End Registration.

(** ** Requests, the environment of a request, responses *)

Record Request : Type := {
  body : list (string * JsVal);
  (* req.body.refreshToken *)
  body_refreshToken : option Jwt.Token;
  cookies : list (string * Jwt.Token);
  (* req.headers.authorization?.split(' ')[1] *)
  authorization : option Jwt.Token;
  (* req.headers.updateemailtoken *)
  updateemailtoken : option Jwt.Token;
  (* req.user._id, set by the verifyJWT middleware on the secured routes *)
  user : nat
}.

(** [req.body.name] *)
Fixpoint lookup {A : Type} (name : string) (l : list (string * A)) : option A :=
  match l with
  | [] => None
  | (k, v) :: r => if String.eqb k name then Some v else lookup name r
  end.

Definition field (req : Request) (name : string) : JsVal :=
  match lookup name (body req) with
  | Some v => v
  | None => JUndefined
  end.

(** [req.cookies.name] *)
Definition cookie (req : Request) (name : string) : option Jwt.Token :=
  lookup name (cookies req).

(** What a request finds around it: the clock ([Date.now()], in ms), the
    next value of [Math.random()], and whether the mail transport works
    (the message of its error when it does not). *)
Record Env : Type := {
  Date_now : Z;
  Math_random : Q;
  mail : option string
}.

Inductive Data : Type :=
| DEmpty
| DNull
| DToken (token : Jwt.Token)
| DUpdateEmailToken (updateEmailToken : Jwt.Token)
| DVerified (email : JsVal) (token : Jwt.Token)
| DSelected (user : userSchema.selected)
| DLogin (user : option userSchema.selected) (accessToken refreshToken : Jwt.Token)
| DTokens (accessToken refreshToken : Jwt.Token)
| DUser (user : userSchema.doc)
| DForgot (email : string) (token : Jwt.Token).

(** [res.status(s).cookie(..).clearCookie(..).json(new ApiResponse(_, data, message))] *)
Record Response : Type := {
  status : Z;
  cookie_set : list (string * Jwt.Token);
  cookie_cleared : list string;
  data : Data;
  message : string
}.

Definition isSome {A : Type} (o : option A) : bool :=
  match o with
  | Some _ => true
  | None => false
  end.

(** [v.trim()] *)
Definition method_trim (v : JsVal) : Result string :=
  match v with
  | JStr s => Ok (trim s)
  | JUndefined | JNull =>
      Throw (TypeError "Cannot read properties of undefined (reading 'trim')")
  | _ => Throw (TypeError "trim is not a function")
  end.

(** [v.toLowerCase()] *)
Definition method_toLowerCase (v : JsVal) : Result string :=
  match v with
  | JStr s => Ok (toLowerCase s)
  | JUndefined | JNull =>
      Throw (TypeError "Cannot read properties of undefined (reading 'toLowerCase')")
  | _ => Throw (TypeError "toLowerCase is not a function")
  end.

(** [!v || !v.trim()] *)
Definition missing_or_blank (v : JsVal) : Result bool :=
  if negb (truthy v) then Ok true
  else match method_trim v with
       | Ok t => Ok (negb (truthy (JStr t)))
       | Throw e => Throw e
       end.

(** [v?.trim()] *)
Definition optional_trim (v : JsVal) : Result JsVal :=
  match v with
  | JUndefined | JNull => Ok JUndefined
  | _ => match method_trim v with
         | Ok t => Ok (JStr t)
         | Throw e => Throw e
         end
  end.

(** [fields.some((field) => field?.trim() === "")] *)
Fixpoint some_blank (fields : list JsVal) : Result bool :=
  match fields with
  | [] => Ok false
  | f :: rest =>
      match optional_trim f with
      | Throw e => Throw e
      | Ok t => if strict_eq t (JStr "") then Ok true else some_blank rest
      end
  end.

(** [Math.floor(Math.random() * 900000) + 100000] *)
Definition randomOTP (w : Env) : Z :=
  Math_floor (Number_mul (Math_random w) (inject_Z 900000)) + 100000.

(** Modelled from the spec: [utils/sendEmail.js] is not part of the
    available source.  Per section 6 the mail sender either delivers or
    fails, and "its failure must abort the step"; both
    [sendVerificationMail] and [sendForgotPasswordMail] are this call. *)
Definition sendMail (w : Env) : M unit :=
  match mail w with
  | None => ret tt
  | Some m => throw (Error m)
  end.

(** ** [user.controller.js] *)

(** [generateAccessAndRefreshTokens] *)
Definition generateAccessAndRefreshTokens (env : ProcessEnv) (w : Env)
    (userId : nat) : M (Jwt.Token * Jwt.Token) :=
  try_catch
    (user <- User.findById (Some userId) ;;
     match user with
     | None => throw (ApiError 404 "User not found")
     | Some user =>
         let accessToken := User.generateAccessToken env (Date_now w) user in
         let refreshToken := User.generateRefreshToken env (Date_now w) user in
         _ <- User.save (User.set_refreshToken (Val refreshToken) user) ;;
         ret (accessToken, refreshToken)
     end)
    (fun _ => throw (ApiError 500
       "Something went wrong while generating access and refresh tokens")).

(** The opening lines shared by the five steps that take a proof token:
<<
    if (!incomingToken) { throw new ApiError(400, 'Token is required'); }
    const decoded = verifyToken(incomingToken);
    const email = decoded.data;
    if (!email) { throw new ApiError(400, "Something went wrong ...") }
>> *)
Definition decodeEmail (env : ProcessEnv) (w : Env)
    (incomingToken : option Jwt.Token) : M JsVal :=
  match present incomingToken with
  | None => throw (ApiError 400 "Token is required")
  | Some token =>
      decoded <- lift (verifyToken env (Date_now w) token) ;;
      let email := Jwt.data decoded in
      throw_if (negb (truthy email))
        (ApiError 400 "Something went wrong while decoding the email.") ;;
      ret email
  end.

Definition emailRegistration (env : ProcessEnv) (w : Env) (req : Request) : M Response :=
  let email := field req "email" in
  blank <- lift (missing_or_blank email) ;;
  throw_if blank (ApiError 400 "Email is required.") ;;
  throw_if (negb (RegExp.test emailPattern email))
    (ApiError 400 "Invalid email address format.") ;;
  existedUser <- User.findOne (User.ByEmail email) ;;
  throw_if (isSome existedUser)
    (ApiError 409 "This email is already linked to an user.") ;;
  _ <- try_catch (Registration.findOneAndDelete email)
         (fun _ => throw (ApiError 400
            "Something went wrong while deleting the previous registration with the same email.")) ;;
  registration <- Registration.create email ;;
  match registration with
  | None => throw (ApiError 500 "Something went wrong while registering.")
  | Some registration =>
      let verificationOTP := randomOTP w in
      try_catch (Registration.save_verificationOTP registration verificationOTP)
        (fun error => throw (ApiError 500
           ("Error while saving registration: " ++ message_of error)%string)) ;;
      try_catch (sendMail w)
        (fun error => throw (ApiError 500
           ("Error while sending verification email: " ++ message_of error)%string)) ;;
      let token := generateToken env (Date_now w) email in
      ret {| status := 200;
             cookie_set := [("emailToken", token)];
             cookie_cleared := [];
             data := DToken token;
             message := "OTP sent successfuly. Please verify your email." |}
  end.

Definition verifyEmail (env : ProcessEnv) (w : Env) (req : Request) : M Response :=
  let verificationOTP := field req "verificationOTP" in
  let incomingToken := or_token (cookie req "emailToken") (authorization req) in
  email <- decodeEmail env w incomingToken ;;
  registration <- Registration.findOne email verificationOTP ;;
  throw_if (negb (isSome registration)) (ApiError 400 "Invalid or expired OTP.") ;;
  _ <- try_catch (Registration.findOneAndDelete email)
         (fun _ => throw (ApiError 500
            "Something went wrong while deleting the old registration.")) ;;
  let token := generateToken env (Date_now w) email in
  ret {| status := 200;
         cookie_set := [("verifiedEmailToken", token)];
         cookie_cleared := ["emailToken"];
         data := DVerified email token;
         message := "Email verification successful." |}.

Definition registerUser (env : ProcessEnv) (w : Env) (req : Request) : M Response :=
  let incomingToken := or_token (cookie req "verifiedEmailToken") (authorization req) in
  email <- decodeEmail env w incomingToken ;;
  let fullName := field req "fullName" in
  let username := field req "username" in
  let password := field req "password" in
  let bio := match field req "bio" with
             | JUndefined => JStr User.defaultBio
             | b => b
             end in
  blank <- lift (some_blank [fullName; username; password]) ;;
  throw_if blank (ApiError 400 "All fields are required!") ;;
  throw_if (negb (RegExp.test usernamePattern username))
    (ApiError 400
       "Invalid username: only letters, numbers, hyphens, and underscores are allowed.") ;;
  existedUserWithEmail <- User.findOne (User.ByEmail email) ;;
  throw_if (isSome existedUserWithEmail)
    (ApiError 409 "User with email already exists") ;;
  existedUserWithUsername <- User.findOne (User.ByEmail email) ;;
  throw_if (isSome existedUserWithUsername)
    (ApiError 409 "User with username already exists") ;;
  lowered <- lift (method_toLowerCase username) ;;
  user <- User.create fullName bio "" "" email password lowered ;;
  createdUser <- User.findById (Some (userSchema._id user)) ;;
  match createdUser with
  | None => throw (ApiError 500 "Something went wrong while registering the user!")
  | Some createdUser =>
      ret {| status := 201;
             cookie_set := [];
             cookie_cleared := ["verifiedEmailToken"];
             data := DSelected (userSchema.select createdUser);
             message := "User registered successfully!" |}
  end.

Definition loginUser (env : ProcessEnv) (w : Env) (req : Request) : M Response :=
  let usernameOrEmail := field req "usernameOrEmail" in
  let password := field req "password" in
  throw_if (negb (truthy usernameOrEmail))
    (ApiError 400 "email or username is required!") ;;
  throw_if (negb (truthy password)) (ApiError 400 "password is required!") ;;
  user <- User.findOne (User.Or (User.ByEmail usernameOrEmail)
                                (User.ByUsername usernameOrEmail)) ;;
  match user with
  | None => throw (ApiError 404 "User not found, please check username or password!")
  | Some user =>
      isPasswordValid <- User.isPasswordCorrect user password ;;
      throw_if (negb isPasswordValid) (ApiError 404 "Password is incorrect!") ;;
      tokens <- generateAccessAndRefreshTokens env w (userSchema._id user) ;;
      loggedInUser <- User.findById (Some (userSchema._id user)) ;;
      ret {| status := 200;
             cookie_set := [("accessToken", fst tokens); ("refreshToken", snd tokens)];
             cookie_cleared := [];
             data := DLogin (option_map userSchema.select loggedInUser)
                       (fst tokens) (snd tokens);
             message := "User logged in successfully." |}
  end.

Definition logoutUser (mg : Mongoose) (req : Request) : M Response :=
  _ <- User.findByIdAndUpdate_set_refreshToken mg (user req) Absent ;;
  ret {| status := 200;
         cookie_set := [];
         cookie_cleared := ["accessToken"; "refreshToken"];
         data := DEmpty;
         message := "User logged out successfully!" |}.

(** [incomingRefreshToken !== user?.refreshToken] *)
Definition differs (incoming : Jwt.Token) (stored : Stored Jwt.Token) : bool :=
  match stored with
  | Val t => negb (Jwt.eqb incoming t)
  | _ => true
  end.

(** [error.message || d] *)
Definition message_or (error : Failure) (d : string) : string :=
  if truthy (JStr (message_of error)) then message_of error else d.

Definition refreshAccessToken (env : ProcessEnv) (w : Env) (req : Request) : M Response :=
  try_catch
    (let incomingRefreshToken :=
       or_token (body_refreshToken req) (cookie req "refreshToken") in
     match present incomingRefreshToken with
     | None => throw (ApiError 401 "Unauthorized request!")
     | Some incomingRefreshToken =>
         decodedToken <- lift (Jwt.verify incomingRefreshToken
                                 (REFRESH_TOKEN_SECRET env) (Date_now w)) ;;
         user <- User.findById (Jwt._id decodedToken) ;;
         match user with
         | None => throw (ApiError 401 "Invalid Refresh Token!")
         | Some user =>
             throw_if (differs incomingRefreshToken (userSchema.refreshToken user))
               (ApiError 401 "Refresh Token is expired or used.") ;;
             tokens <- generateAccessAndRefreshTokens env w (userSchema._id user) ;;
             ret {| status := 200;
                    cookie_set := [("accessToken", fst tokens);
                                   ("refreshToken", snd tokens)];
                    cookie_cleared := [];
                    data := DTokens (fst tokens) (snd tokens);
                    message := "Access token refreshed successfully" |}
         end
     end)
    (fun error => throw (ApiError 401 (message_or error "Invalid Refresh token1"))).

Definition updateEmail (env : ProcessEnv) (w : Env) (req : Request) : M Response :=
  let newEmail := field req "newEmail" in
  let password := field req "password" in
  throw_if (negb (truthy (JStr (trim (ToString newEmail))))
            || negb (truthy (JStr (trim (ToString password)))))
    (ApiError 400 "Email and password is required.") ;;
  throw_if (negb (RegExp.test emailPattern newEmail))
    (ApiError 400 "Invalid email address format.") ;;
  existedUser <- User.findOne (User.ByEmail newEmail) ;;
  throw_if (isSome existedUser)
    (ApiError 409 "This email is already linked to an user.") ;;
  user <- User.findById (Some (user req)) ;;
  match user with
  | None =>
      throw (TypeError "Cannot read properties of null (reading 'isPasswordCorrect')")
  | Some user =>
      isPasswordValid <- User.isPasswordCorrect user password ;;
      throw_if (negb isPasswordValid) (ApiError 400 "Incorrect password.") ;;
      throw_if (strict_eq newEmail (JStr (userSchema.email user)))
        (ApiError 400 "The new email cannot be the same as the current email.") ;;
      let updateEmailOTP := randomOTP w in
      let otpExpiry := Date_now w + 20 * 60 * 1000 in
      _ <- try_catch
             (User.save (User.set_updateEmail (Val updateEmailOTP) (Val otpExpiry) user))
             (fun error => throw (ApiError 500
                ("Error while saving user : " ++ message_of error)%string)) ;;
      try_catch (sendMail w)
        (fun error => throw (ApiError 500
           ("Error while sending mail verification OTP: " ++ message_of error)%string)) ;;
      let updateEmailToken := generateToken env (Date_now w) newEmail in
      ret {| status := 200;
             cookie_set := [("updateEmailToken", updateEmailToken)];
             cookie_cleared := [];
             data := DUpdateEmailToken updateEmailToken;
             message := "Verification OTP sent successfully to new email." |}
  end.

(** [user.email = newEmail]: the assignment casts and runs the setters. *)
Definition assign_email (newEmail : JsVal) (u : userSchema.doc) : userSchema.doc :=
  match User.castString newEmail with
  | Val s => User.set_email (userSchema.lowercase_trim s) u
  | _ => u
  end.

Definition verifyUpdateEmailOTP (env : ProcessEnv) (w : Env) (req : Request) : M Response :=
  let updateEmailOTP := field req "updateEmailOTP" in
  let updateEmailToken :=
    or_token (cookie req "updateEmailToken") (updateemailtoken req) in
  newEmail <- decodeEmail env w updateEmailToken ;;
  user <- User.findById (Some (user req)) ;;
  match user with
  | None => throw (ApiError 400 "Unauthorized request.")
  | Some user =>
      throw_if (negb (strict_eq (toJs (userSchema.updateEmailOTP user)) updateEmailOTP))
        (ApiError 400 "Invalid OTP.") ;;
      throw_if (date_lt (userSchema.updateEmailOTPExpiry user) (Date_now w))
        (ApiError 400 "OTP has expired.") ;;
      let assigned := User.set_updateEmail Null Null (assign_email newEmail user) in
      user <- try_catch (User.save assigned)
                (fun error =>
                   _ <- User.save assigned ;;
                   throw (ApiError 500
                     ("Error while saving user : " ++ message_of error)%string)) ;;
      user <- try_catch (User.save user)
                (fun error => throw (ApiError 500
                   ("Error while saving user : " ++ message_of error)%string)) ;;
      ret {| status := 200;
             cookie_set := [];
             cookie_cleared := ["updateEmailToken"];
             data := DUser user;
             message := "Email updated successfully." |}
  end.

Definition sendForgotPasswordOTP (env : ProcessEnv) (w : Env) (req : Request) : M Response :=
  let usernameOrEmail := field req "usernameOrEmail" in
  blank <- lift (missing_or_blank usernameOrEmail) ;;
  throw_if blank (ApiError 400 "Email or username is required.") ;;
  user <- User.findOne (User.Or (User.ByEmail usernameOrEmail)
                                (User.ByUsername usernameOrEmail)) ;;
  match user with
  | None => throw (ApiError 404 "User not found.")
  | Some user =>
      let forgotPasswordOTP := randomOTP w in
      let otpExpiry := Date_now w + 15 * 60 * 1000 in
      user <- try_catch
                (User.save (User.set_forgotPassword (Val forgotPasswordOTP)
                              (Val otpExpiry) user))
                (fun error => throw (ApiError 500
                   ("Error while saving user : " ++ message_of error)%string)) ;;
      try_catch (sendMail w)
        (fun error => throw (ApiError 500
           ("Error while sending forgot password email: " ++ message_of error)%string)) ;;
      let token := generateToken env (Date_now w) (JStr (userSchema.email user)) in
      ret {| status := 200;
             cookie_set := [("forgotPassToken", token)];
             cookie_cleared := [];
             data := DForgot (userSchema.email user) token;
             message := "Forgot password OTP sent successfully." |}
  end.

Definition verifyForgotPasswordOTP (env : ProcessEnv) (w : Env) (req : Request) : M Response :=
  let forgotPasswordOTP := field req "forgotPasswordOTP" in
  let incomingToken := or_token (cookie req "forgotPassToken") (authorization req) in
  email <- decodeEmail env w incomingToken ;;
  user <- User.findOne (User.ByEmail email) ;;
  match user with
  | None => throw (ApiError 400 "Session expired.")
  | Some user =>
      throw_if (negb (strict_eq (toJs (userSchema.forgotPasswordOTP user))
                        forgotPasswordOTP))
        (ApiError 400 "Invalid OTP.") ;;
      throw_if (date_lt (userSchema.forgotPasswordOtpExpiry user) (Date_now w))
        (ApiError 400 "OTP has expired.") ;;
      user <- try_catch (User.save (User.set_forgotPassword Null Null user))
                (fun error => throw (ApiError 500
                   ("Error while saving user: " ++ message_of error)%string)) ;;
      let token := generateToken env (Date_now w) (JStr (userSchema.email user)) in
      ret {| status := 200;
             cookie_set := [("verifiedToken", token)];
             cookie_cleared := ["forgotPassToken"];
             data := DToken token;
             message := "Forgot password OTP verified successfully." |}
  end.

Definition forgotPassword (env : ProcessEnv) (w : Env) (req : Request) : M Response :=
  let newPassword := field req "newPassword" in
  let incomingToken := or_token (cookie req "verifiedToken") (authorization req) in
  email <- decodeEmail env w incomingToken ;;
  blank <- lift (missing_or_blank newPassword) ;;
  throw_if blank (ApiError 400 "Password is required.") ;;
  user <- User.findOne (User.ByEmail email) ;;
  match user with
  | None => throw (ApiError 400 "Forgot password token is invalid or expired.")
  | Some user =>
      _ <- try_catch (User.save (User.set_password (ToString newPassword) user))
             (fun error => throw (ApiError 500
                ("Error while saving user: " ++ message_of error)%string)) ;;
      ret {| status := 200;
             cookie_set := [];
             cookie_cleared := ["verifiedToken"];
             data := DNull;
             message := "Password updated successfully." |}
  end.

(** ** Well-formedness of the database *)

(** [_id] is the primary key of the [users] collection. *)
Definition ids_unique (db : Db) : Prop :=
  NoDup (map userSchema._id (users db)).

(** At most one PendingRegistration per email (section 3). *)
Definition one_registration_per_email (db : Db) : Prop :=
  NoDup (map registrationSchema.email (registrations db)).

(** ** Notions used in the statements *)

(** A field of the request body that was left out, or is a string with
    something other than white space in it. *)
Definition omitted_or_filled (v : JsVal) : Prop :=
  v = JUndefined \/ exists s, v = JStr s /\ trim s <> "".

(** The registration [emailRegistration] leaves behind for an email. *)
Definition pending (w : Env) (email : JsVal) (db : Db) : registrationSchema.doc :=
  {| registrationSchema._id :=
       Registration.freshId
         (Registration.removeFirst (Registration.emailMatches email) (registrations db));
     registrationSchema.email := ToString email;
     registrationSchema.verificationOTP := Val (randomOTP w) |}.
(** ** A small deployment, used by the examples below *)

Module Sample.

Definition env : ProcessEnv :=
  {| ACCESS_TOKEN_SECRET := "access-secret";
     ACCESS_TOKEN_EXPIRY := 86400;
     REFRESH_TOKEN_SECRET := "refresh-secret";
     REFRESH_TOKEN_EXPIRY := 864000;
     JWT_SECRET := "jwt-secret";
     JWT_EXPIRY := 1200 |}.

Definition now : Z := 1700000000000.

(** The clock reads [now], the next OTP is 123456, the mail goes out. *)
Definition world : Env :=
  {| Date_now := now; Math_random := (27329 # 1048576)%Q; mail := None |}.

(** The same, with the mail transport down. *)
Definition world_mail_down : Env :=
  {| Date_now := now; Math_random := (27329 # 1048576)%Q;
     mail := Some "connect ECONNREFUSED" |}.

(** Nineteen minutes later. *)
Definition world_later : Env :=
  {| Date_now := now + 19 * 60 * 1000; Math_random := (27329 # 1048576)%Q;
     mail := None |}.

Definition request (fields : list (string * JsVal))
    (jar : list (string * Jwt.Token)) : Request :=
  {| body := fields; body_refreshToken := None; cookies := jar;
     authorization := None; updateemailtoken := None; user := 1%nat |}.

Definition empty : Db := {| users := []; registrations := [] |}.

Definition alice : userSchema.doc :=
  {| userSchema._id := 1%nat;
     userSchema.username := "alice";
     userSchema.email := "a@x.com";
     userSchema.fullName := "Alice A";
     userSchema.bio := Val User.defaultBio;
     userSchema.avatar := "";
     userSchema.coverImage := "";
     userSchema.watchHistory := [];
     userSchema.password := Bcrypt.hash "secret1";
     userSchema.refreshToken := Absent;
     userSchema.forgotPasswordOTP := Absent;
     userSchema.forgotPasswordOtpExpiry := Absent;
     userSchema.updateEmailOTP := Absent;
     userSchema.updateEmailOTPExpiry := Absent |}.

Definition only_alice : Db := {| users := [alice]; registrations := [] |}.

(** The proof token every workflow step issues for an email at [now]. *)
Definition token_for (email : string) : Jwt.Token :=
  generateToken env now (JStr email).

(** Alice as [login] leaves her: with a refresh token stored. *)
Definition alice_refresh : Jwt.Token := User.generateRefreshToken env now alice.

Definition alice_logged_in : Db :=
  {| users := [User.set_refreshToken (Val alice_refresh) alice];
     registrations := [] |}.

(** Alice with a forgot-password OTP that ran out a second ago. *)
Definition alice_otp_expired : Db :=
  {| users := [User.set_forgotPassword (Val 123456) (Val (now - 1000)) alice];
     registrations := [] |}.

(** Alice with a forgot-password OTP and an email-change OTP, both live. *)
Definition alice_otp_live : Db :=
  {| users := [User.set_updateEmail (Val 123456) (Val (now + 60000))
                 (User.set_forgotPassword (Val 123456) (Val (now + 60000)) alice)];
     registrations := [] |}.

(** A pending registration of [b@x.com] next to Alice. *)
Definition pending_b : Db :=
  {| users := [alice];
     registrations := [ {| registrationSchema._id := 1%nat;
                           registrationSchema.email := "b@x.com";
                           registrationSchema.verificationOTP := Val 123456 |} ] |}.

End Sample.

(** Requests used by the examples. *)
Module Requests.

Import Sample.

Definition register_email_b : Request :=
  request [("email", JStr "b@x.com")] [].

(** [registerUser] presented with the token [emailRegistration] returned. *)
Definition register_bob_with_first_token : Request :=
  request [("fullName", JStr "Bob B"); ("username", JStr "bob");
           ("password", JStr "secret2")]
          [("verifiedEmailToken", token_for "b@x.com")].

(** A registration under Alice's username, for an unused email. *)
Definition register_as_alice : Request :=
  request [("fullName", JStr "Mallory"); ("username", JStr "alice");
           ("password", JStr "secret3")]
          [("verifiedEmailToken", token_for "b@x.com")].

Definition register_blank_name : Request :=
  request [("fullName", JStr "   "); ("username", JStr "bob");
           ("password", JStr "secret2")]
          [("verifiedEmailToken", token_for "b@x.com")].

Definition register_without_username : Request :=
  request [("fullName", JStr "Bob B"); ("password", JStr "secret2")]
          [("verifiedEmailToken", token_for "b@x.com")].

Definition login_wrong_password : Request :=
  request [("usernameOrEmail", JStr "alice"); ("password", JStr "wrong")] [].

Definition login_unknown : Request :=
  request [("usernameOrEmail", JStr "nobody"); ("password", JStr "secret1")] [].

Definition forgot_alice : Request :=
  request [("usernameOrEmail", JStr "alice")] [].

Definition reset_otp_number : Request :=
  request [("forgotPasswordOTP", JNum 123456)]
          [("forgotPassToken", token_for "a@x.com")].

Definition reset_otp_string : Request :=
  request [("forgotPasswordOTP", JStr "123456")]
          [("forgotPassToken", token_for "a@x.com")].

Definition change_otp_number : Request :=
  request [("updateEmailOTP", JNum 123456)]
          [("updateEmailToken", token_for "c@x.com")].

Definition change_otp_string : Request :=
  request [("updateEmailOTP", JStr "123456")]
          [("updateEmailToken", token_for "c@x.com")].

Definition verify_b : Request :=
  request [("verificationOTP", JNum 123456)]
          [("emailToken", token_for "b@x.com")].

Definition refresh_with (t : Jwt.Token) : Request :=
  request [] [("refreshToken", t)].

(** A refresh token of Alice issued a minute before the stored one. *)
Definition alice_older_refresh : Jwt.Token :=
  User.generateRefreshToken env (now - 60000) alice.

End Requests.

(** ** The account handlers of [user.controller.js] *)

Definition set_fullName (v : string) (u : userSchema.doc) : userSchema.doc :=
  {| userSchema._id := userSchema._id u;
     userSchema.username := userSchema.username u;
     userSchema.email := userSchema.email u;
     userSchema.fullName := v;
     userSchema.bio := userSchema.bio u;
     userSchema.avatar := userSchema.avatar u;
     userSchema.coverImage := userSchema.coverImage u;
     userSchema.watchHistory := userSchema.watchHistory u;
     userSchema.password := userSchema.password u;
     userSchema.refreshToken := userSchema.refreshToken u;
     userSchema.forgotPasswordOTP := userSchema.forgotPasswordOTP u;
     userSchema.forgotPasswordOtpExpiry := userSchema.forgotPasswordOtpExpiry u;
     userSchema.updateEmailOTP := userSchema.updateEmailOTP u;
     userSchema.updateEmailOTPExpiry := userSchema.updateEmailOTPExpiry u |}.

Definition set_bio (v : Stored string) (u : userSchema.doc) : userSchema.doc :=
  {| userSchema._id := userSchema._id u;
     userSchema.username := userSchema.username u;
     userSchema.email := userSchema.email u;
     userSchema.fullName := userSchema.fullName u;
     userSchema.bio := v;
     userSchema.avatar := userSchema.avatar u;
     userSchema.coverImage := userSchema.coverImage u;
     userSchema.watchHistory := userSchema.watchHistory u;
     userSchema.password := userSchema.password u;
     userSchema.refreshToken := userSchema.refreshToken u;
     userSchema.forgotPasswordOTP := userSchema.forgotPasswordOTP u;
     userSchema.forgotPasswordOtpExpiry := userSchema.forgotPasswordOtpExpiry u;
     userSchema.updateEmailOTP := userSchema.updateEmailOTP u;
     userSchema.updateEmailOTPExpiry := userSchema.updateEmailOTPExpiry u |}.

Definition set_username (v : string) (u : userSchema.doc) : userSchema.doc :=
  {| userSchema._id := userSchema._id u;
     userSchema.username := v;
     userSchema.email := userSchema.email u;
     userSchema.fullName := userSchema.fullName u;
     userSchema.bio := userSchema.bio u;
     userSchema.avatar := userSchema.avatar u;
     userSchema.coverImage := userSchema.coverImage u;
     userSchema.watchHistory := userSchema.watchHistory u;
     userSchema.password := userSchema.password u;
     userSchema.refreshToken := userSchema.refreshToken u;
     userSchema.forgotPasswordOTP := userSchema.forgotPasswordOTP u;
     userSchema.forgotPasswordOtpExpiry := userSchema.forgotPasswordOtpExpiry u;
     userSchema.updateEmailOTP := userSchema.updateEmailOTP u;
     userSchema.updateEmailOTPExpiry := userSchema.updateEmailOTPExpiry u |}.

Definition set_avatar (v : string) (u : userSchema.doc) : userSchema.doc :=
  {| userSchema._id := userSchema._id u;
     userSchema.username := userSchema.username u;
     userSchema.email := userSchema.email u;
     userSchema.fullName := userSchema.fullName u;
     userSchema.bio := userSchema.bio u;
     userSchema.avatar := v;
     userSchema.coverImage := userSchema.coverImage u;
     userSchema.watchHistory := userSchema.watchHistory u;
     userSchema.password := userSchema.password u;
     userSchema.refreshToken := userSchema.refreshToken u;
     userSchema.forgotPasswordOTP := userSchema.forgotPasswordOTP u;
     userSchema.forgotPasswordOtpExpiry := userSchema.forgotPasswordOtpExpiry u;
     userSchema.updateEmailOTP := userSchema.updateEmailOTP u;
     userSchema.updateEmailOTPExpiry := userSchema.updateEmailOTPExpiry u |}.

Definition set_coverImage (v : string) (u : userSchema.doc) : userSchema.doc :=
  {| userSchema._id := userSchema._id u;
     userSchema.username := userSchema.username u;
     userSchema.email := userSchema.email u;
     userSchema.fullName := userSchema.fullName u;
     userSchema.bio := userSchema.bio u;
     userSchema.avatar := userSchema.avatar u;
     userSchema.coverImage := v;
     userSchema.watchHistory := userSchema.watchHistory u;
     userSchema.password := userSchema.password u;
     userSchema.refreshToken := userSchema.refreshToken u;
     userSchema.forgotPasswordOTP := userSchema.forgotPasswordOTP u;
     userSchema.forgotPasswordOtpExpiry := userSchema.forgotPasswordOtpExpiry u;
     userSchema.updateEmailOTP := userSchema.updateEmailOTP u;
     userSchema.updateEmailOTPExpiry := userSchema.updateEmailOTPExpiry u |}.

(** [user.password = v; await user.save({ validateBeforeSave: false })]:
    the assignment casts [v] to a string; with [undefined] or [null] the
    path is emptied and the [pre("save")] hook, which sees it modified,
    passes the error of [bcrypt.hash] on. *)
Definition save_password (v : JsVal) (u : userSchema.doc) : M userSchema.doc :=
  match User.castString v with
  | Val s => User.save (User.set_password s u)
  | _ => throw (Error "data and salt arguments required")
  end.

Definition changeCurrentPassword (req : Request) : M Response :=
  let oldPassword := field req "oldPassword" in
  let newPassword := field req "newPassword" in
  let confirmNewPassword := field req "confirmNewPassword" in
  throw_if (negb (strict_eq newPassword confirmNewPassword))
    (ApiError 400 "New password and confirmation password do not match.") ;;
  user <- User.findById (Some (user req)) ;;
  match user with
  | None =>
      throw (TypeError "Cannot read properties of null (reading 'isPasswordCorrect')")
  | Some user =>
      isPasswordValid <- User.isPasswordCorrect user oldPassword ;;
      throw_if (negb isPasswordValid) (ApiError 400 "Invalid old password.") ;;
      _ <- save_password newPassword user ;;
      ret {| status := 200;
             cookie_set := [];
             cookie_cleared := [];
             data := DEmpty;
             message := "Password changed successfully." |}
  end.

(** [v !== s] for a request field [v] and a stored string path. *)
Definition differs_from (v : JsVal) (s : Stored string) : bool :=
  negb (strict_eq v match s with
                    | Absent => JUndefined
                    | Null => JNull
                    | Val x => JStr x
                    end).

Definition updateAccountDetails (req : Request) : M Response :=
  let fullName := field req "fullName" in
  let bio := field req "bio" in
  let username := field req "username" in
  throw_if (negb (truthy (JStr (trim (ToString fullName))))
            || negb (truthy (JStr (trim (ToString username)))))
    (ApiError 400 "Full name and username are required.") ;;
  user <- User.findById (Some (user req)) ;;
  match user with
  | None =>
      throw (TypeError
               (if truthy fullName
                then "Cannot read properties of null (reading 'fullName')"
                else if truthy bio
                then "Cannot read properties of null (reading 'bio')"
                else if truthy username
                then "Cannot read properties of null (reading 'username')"
                else "Cannot read properties of null (reading 'save')"))
  | Some user =>
      user <- (if truthy fullName
                  && differs_from fullName (Val (userSchema.fullName user))
               then t <- lift (method_trim fullName) ;;
                    ret (set_fullName (trim t) user)
               else ret user) ;;
      user <- (if truthy bio && differs_from bio (userSchema.bio user)
               then t <- lift (method_trim bio) ;;
                    ret (set_bio (Val t) user)
               else ret user) ;;
      user <- (if truthy username
                  && differs_from username (Val (userSchema.username user))
               then isUsernameExist <- User.findOne (User.ByUsername username) ;;
                    throw_if (isSome isUsernameExist)
                      (ApiError 400 "Sorry! This username is not available.") ;;
                    ret (set_username
                           (userSchema.lowercase_trim (ToString username)) user)
               else ret user) ;;
      user <- User.save user ;;
      ret {| status := 200;
             cookie_set := [];
             cookie_cleared := [];
             data := DSelected (userSchema.select user);
             message := "Account updated successfully." |}
  end.

(** [removeUserAvatar].  The call to the asset host
    ([deleteFromCloudinary]) is best effort: its errors are swallowed and
    it writes nothing to the database, so it leaves no trace here. *)
Definition removeUserAvatar (req : Request) : M Response :=
  user <- User.findById (Some (user req)) ;;
  match user with
  | None => throw (TypeError "Cannot read properties of null (reading 'avatar')")
  | Some user =>
      user <- User.save (set_avatar "" user) ;;
      ret {| status := 200;
             cookie_set := [];
             cookie_cleared := [];
             data := DSelected (userSchema.select user);
             message := "Avatar removed successfully!" |}
  end.

(** [removeUserCoverImage], with the same best-effort call. *)
Definition removeUserCoverImage (req : Request) : M Response :=
  user <- User.findById (Some (user req)) ;;
  match user with
  | None => throw (TypeError "Cannot read properties of null (reading 'coverImage')")
  | Some user =>
      user <- User.save (set_coverImage "" user) ;;
      ret {| status := 200;
             cookie_set := [];
             cookie_cleared := [];
             data := DSelected (userSchema.select user);
             message := "Cover image removed successfully!" |}
  end.

(** ** Store calls that fail

    The handlers above are written over a store that answers every call.
    Here are four of them once more, word for word, with the calls to
    the store allowed to fail: the [k]-th call of a handler, counted in
    the order of its text, fails with message [m] when the faults of the
    request say [Some m] at [k].  A call that fails throws the error of
    the driver and has written nothing. *)
Definition Faults : Type := nat -> option string.

(** The store of the handlers above. *)
Definition reliable : Faults := fun _ => None.

Definition attempt {A : Type} (fault : option string) (m : M A) : M A :=
  match fault with
  | None => m
  | Some msg => throw (Error msg)
  end.

(** [emailRegistration]; calls: [User.findOne], [Registration.findOneAndDelete],
    [Registration.create], [registration.save]. *)
Definition emailRegistration_over (f : Faults) (env : ProcessEnv) (w : Env)
    (req : Request) : M Response :=
  let email := field req "email" in
  blank <- lift (missing_or_blank email) ;;
  throw_if blank (ApiError 400 "Email is required.") ;;
  throw_if (negb (RegExp.test emailPattern email))
    (ApiError 400 "Invalid email address format.") ;;
  existedUser <- attempt (f 0%nat) (User.findOne (User.ByEmail email)) ;;
  throw_if (isSome existedUser)
    (ApiError 409 "This email is already linked to an user.") ;;
  _ <- try_catch (attempt (f 1%nat) (Registration.findOneAndDelete email))
         (fun _ => throw (ApiError 400
            "Something went wrong while deleting the previous registration with the same email.")) ;;
  registration <- attempt (f 2%nat) (Registration.create email) ;;
  match registration with
  | None => throw (ApiError 500 "Something went wrong while registering.")
  | Some registration =>
      let verificationOTP := randomOTP w in
      try_catch (attempt (f 3%nat)
                   (Registration.save_verificationOTP registration verificationOTP))
        (fun error => throw (ApiError 500
           ("Error while saving registration: " ++ message_of error)%string)) ;;
      try_catch (sendMail w)
        (fun error => throw (ApiError 500
           ("Error while sending verification email: " ++ message_of error)%string)) ;;
      let token := generateToken env (Date_now w) email in
      ret {| status := 200;
             cookie_set := [("emailToken", token)];
             cookie_cleared := [];
             data := DToken token;
             message := "OTP sent successfuly. Please verify your email." |}
  end.

(** [verifyEmail]; calls: [Registration.findOne],
    [Registration.findOneAndDelete]. *)
Definition verifyEmail_over (f : Faults) (env : ProcessEnv) (w : Env)
    (req : Request) : M Response :=
  let verificationOTP := field req "verificationOTP" in
  let incomingToken := or_token (cookie req "emailToken") (authorization req) in
  email <- decodeEmail env w incomingToken ;;
  registration <- attempt (f 0%nat) (Registration.findOne email verificationOTP) ;;
  throw_if (negb (isSome registration)) (ApiError 400 "Invalid or expired OTP.") ;;
  _ <- try_catch (attempt (f 1%nat) (Registration.findOneAndDelete email))
         (fun _ => throw (ApiError 500
            "Something went wrong while deleting the old registration.")) ;;
  let token := generateToken env (Date_now w) email in
  ret {| status := 200;
         cookie_set := [("verifiedEmailToken", token)];
         cookie_cleared := ["emailToken"];
         data := DVerified email token;
         message := "Email verification successful." |}.

(** [verifyUpdateEmailOTP]; calls: [User.findById], the [save] of the
    first [try], the [save] of its [catch], the [save] of the second
    [try]. *)
Definition verifyUpdateEmailOTP_over (f : Faults) (env : ProcessEnv) (w : Env)
    (req : Request) : M Response :=
  let updateEmailOTP := field req "updateEmailOTP" in
  let updateEmailToken :=
    or_token (cookie req "updateEmailToken") (updateemailtoken req) in
  newEmail <- decodeEmail env w updateEmailToken ;;
  user <- attempt (f 0%nat) (User.findById (Some (user req))) ;;
  match user with
  | None => throw (ApiError 400 "Unauthorized request.")
  | Some user =>
      throw_if (negb (strict_eq (toJs (userSchema.updateEmailOTP user)) updateEmailOTP))
        (ApiError 400 "Invalid OTP.") ;;
      throw_if (date_lt (userSchema.updateEmailOTPExpiry user) (Date_now w))
        (ApiError 400 "OTP has expired.") ;;
      let assigned := User.set_updateEmail Null Null (assign_email newEmail user) in
      user <- try_catch (attempt (f 1%nat) (User.save assigned))
                (fun error =>
                   _ <- attempt (f 2%nat) (User.save assigned) ;;
                   throw (ApiError 500
                     ("Error while saving user : " ++ message_of error)%string)) ;;
      user <- try_catch (attempt (f 3%nat) (User.save user))
                (fun error => throw (ApiError 500
                   ("Error while saving user : " ++ message_of error)%string)) ;;
      ret {| status := 200;
             cookie_set := [];
             cookie_cleared := ["updateEmailToken"];
             data := DUser user;
             message := "Email updated successfully." |}
  end.

(** [verifyForgotPasswordOTP]; calls: [User.findOne], [user.save]. *)
Definition verifyForgotPasswordOTP_over (f : Faults) (env : ProcessEnv) (w : Env)
    (req : Request) : M Response :=
  let forgotPasswordOTP := field req "forgotPasswordOTP" in
  let incomingToken := or_token (cookie req "forgotPassToken") (authorization req) in
  email <- decodeEmail env w incomingToken ;;
  user <- attempt (f 0%nat) (User.findOne (User.ByEmail email)) ;;
  match user with
  | None => throw (ApiError 400 "Session expired.")
  | Some user =>
      throw_if (negb (strict_eq (toJs (userSchema.forgotPasswordOTP user))
                        forgotPasswordOTP))
        (ApiError 400 "Invalid OTP.") ;;
      throw_if (date_lt (userSchema.forgotPasswordOtpExpiry user) (Date_now w))
        (ApiError 400 "OTP has expired.") ;;
      user <- try_catch (attempt (f 1%nat)
                           (User.save (User.set_forgotPassword Null Null user)))
                (fun error => throw (ApiError 500
                   ("Error while saving user: " ++ message_of error)%string)) ;;
      let token := generateToken env (Date_now w) (JStr (userSchema.email user)) in
      ret {| status := 200;
             cookie_set := [("verifiedToken", token)];
             cookie_cleared := ["forgotPassToken"];
             data := DToken token;
             message := "Forgot password OTP verified successfully." |}
  end.




(** ** Further notions used in the statements *)

(** The unique indexes of the [users] collection. *)
Definition emails_unique (db : Db) : Prop :=
  NoDup (map userSchema.email (users db)).

Definition usernames_unique (db : Db) : Prop :=
  NoDup (map userSchema.username (users db)).

(** The value [Math.random()] may return. *)
Definition unit_interval (q : Q) : Prop := (0 <= q)%Q /\ (q < 1)%Q.

(** The database [emailRegistration] leaves once it has rewritten the
    registration of the email. *)
Definition registered (w : Env) (email : JsVal) (db : Db) : Db :=
  {| users := users db;
     registrations :=
       (Registration.removeFirst (Registration.emailMatches email) (registrations db)
        ++ [pending w email db])%list |}.

(** The database after the refresh token [r] was stored on the first
    user with [_id] [i]. *)
Definition signed_in (i : nat) (r : Jwt.Token) (db : Db) : Db :=
  {| users := User.replaceFirst i (User.set_refreshToken (Val r)) (users db);
     registrations := registrations db |}.

(** The document [user.save()] writes after [user.password = p]: the
    [pre("save")] hook hashes [p] unless it is the stored value. *)
Definition with_password (p : string) (u : userSchema.doc) : userSchema.doc :=
  if String.eqb p (userSchema.password u) then User.set_password p u
  else User.set_password (Bcrypt.hash p) (User.set_password p u).

(** A request field that is a string of white space only. *)
Definition blank_string (v : JsVal) : Prop :=
  exists s, v = JStr s /\ trim s = "".

(** The three unique keys of the [users] collection together. *)
Definition keys_unique (db : Db) : Prop :=
  ids_unique db /\ emails_unique db /\ usernames_unique db.

(** A computation that leaves the keys unique, whatever it answers. *)
Definition keeps_keys {A : Type} (m : M A) : Prop :=
  forall db, keys_unique db -> keys_unique (snd (m db)).

(** The handlers of the controller embedded in this file. *)
Definition handlers (mg : Mongoose) (env : ProcessEnv) (w : Env) (req : Request)
    : list (M Response) :=
  [ emailRegistration env w req; verifyEmail env w req; registerUser env w req;
    loginUser env w req; logoutUser mg req; refreshAccessToken env w req;
    changeCurrentPassword req; updateAccountDetails req;
    updateEmail env w req; verifyUpdateEmailOTP env w req;
    removeUserAvatar req; removeUserCoverImage req;
    sendForgotPasswordOTP env w req; verifyForgotPasswordOTP env w req;
    forgotPassword env w req ].

(** Data and requests used by the examples of the further properties. *)
Module Accounts.

Import Sample.

Definition bob : userSchema.doc :=
  {| userSchema._id := 2%nat;
     userSchema.username := "bob";
     userSchema.email := "b@x.com";
     userSchema.fullName := "Bob B";
     userSchema.bio := Val User.defaultBio;
     userSchema.avatar := "https://res.cloudinary.com/fuzion/bob.png";
     userSchema.coverImage := "";
     userSchema.watchHistory := [];
     userSchema.password := Bcrypt.hash "secret2";
     userSchema.refreshToken := Absent;
     userSchema.forgotPasswordOTP := Absent;
     userSchema.forgotPasswordOtpExpiry := Absent;
     userSchema.updateEmailOTP := Absent;
     userSchema.updateEmailOTPExpiry := Absent |}.

Definition alice_and_bob : Db := {| users := [alice; bob]; registrations := [] |}.

(** Alice with a live email-change OTP, next to Bob. *)
Definition alice_changing_and_bob : Db :=
  {| users := [User.set_updateEmail (Val 123456) (Val (now + 60000)) alice; bob];
     registrations := [] |}.

(** A request of Bob, who is logged in. *)
Definition bob_request (fields : list (string * JsVal)) : Request :=
  {| body := fields; body_refreshToken := None; cookies := [];
     authorization := None; updateemailtoken := None; user := 2%nat |}.

Definition login_alice : Request :=
  request [("usernameOrEmail", JStr "alice"); ("password", JStr "secret1")] [].



Definition change_password : Request :=
  request [("oldPassword", JStr "secret1"); ("newPassword", JStr "secret9");
           ("confirmNewPassword", JStr "secret9")] [].

Definition change_password_mistyped : Request :=
  request [("oldPassword", JStr "secret1"); ("newPassword", JStr "secret9");
           ("confirmNewPassword", JStr "secret8")] [].

Definition new_password : Request :=
  request [("newPassword", JStr "secret9")] [("verifiedToken", token_for "a@x.com")].

Definition change_email_c : Request :=
  request [("newEmail", JStr "c@x.com"); ("password", JStr "secret1")] [].

(** The confirmation of a change to the email Bob has. *)
Definition change_otp_to_b : Request :=
  request [("updateEmailOTP", JNum 123456)]
          [("updateEmailToken", token_for "b@x.com")].

Definition rename_alice : Request :=
  request [("fullName", JStr "Alice B"); ("username", JStr "alicia")] [].

Definition remove_bob_image : Request := bob_request [].

(** The clock reads [now] and [Math.random()] returns
    [9007189246741820 / 2^53]. *)
Definition world_high : Env :=
  {| Date_now := now; Math_random := (9007189246741820 # 9007199254740992)%Q;
     mail := None |}.



End Accounts.

(** * Properties *)

(** ** Equality tests *)

Lemma strict_eq_eq (a b : JsVal) : strict_eq a b = true <-> a = b.
Proof.
  destruct a, b; simpl; split; intros H; try discriminate; try reflexivity.
  - f_equal. now apply Bool.eqb_prop.
  - injection H as ->. apply Bool.eqb_reflx.
  - f_equal. now apply Z.eqb_eq.
  - injection H as ->. apply Z.eqb_refl.
  - f_equal. now apply String.eqb_eq.
  - injection H as ->. apply String.eqb_refl.
Qed.

Lemma payload_eqb_eq (p q : Jwt.Payload) : Jwt.payload_eqb p q = true <-> p = q.
Proof.
  destruct p, q; simpl; split; intros H; try discriminate.
  - f_equal. now apply strict_eq_eq.
  - injection H as ->. now apply strict_eq_eq.
  - repeat (apply andb_true_iff in H; destruct H as [H ?]).
    f_equal; try (now apply String.eqb_eq). now apply Nat.eqb_eq.
  - injection H as -> -> -> ->.
    now rewrite Nat.eqb_refl, !String.eqb_refl.
  - f_equal. now apply Nat.eqb_eq.
  - injection H as ->. apply Nat.eqb_refl.
Qed.

Lemma token_eqb_eq (a b : Jwt.Token) : Jwt.eqb a b = true <-> a = b.
Proof.
  destruct a, b; simpl; split; intros H; try discriminate.
  - repeat (apply andb_true_iff in H; destruct H as [H ?]).
    f_equal.
    + now apply payload_eqb_eq.
    + now apply String.eqb_eq.
    + now apply Z.eqb_eq.
    + now apply Z.eqb_eq.
  - injection H as -> -> -> ->.
    rewrite String.eqb_refl, !Z.eqb_refl.
    now rewrite (proj2 (payload_eqb_eq _ _) eq_refl).
  - f_equal. now apply String.eqb_eq.
  - injection H as ->. apply String.eqb_refl.
Qed.

Lemma differs_other (t : Jwt.Token) (stored : Stored Jwt.Token) :
  stored <> Val t -> differs t stored = true.
Proof.
  destruct stored as [| |t']; simpl; intros H; try reflexivity.
  destruct (Jwt.eqb t t') eqn:E; [|reflexivity].
  apply token_eqb_eq in E. now subst.
Qed.

Lemma present_truthy (o : option Jwt.Token) (t : Jwt.Token) :
  present o = Some t -> Jwt.truthy t = true.
Proof.
  destruct o as [t'|]; simpl; [|discriminate].
  destruct (Jwt.truthy t') eqn:E; [|discriminate].
  now intros [= <-].
Qed.

(** ** The monad *)

Lemma Ok_inj {A : Type} (a b : A) : Ok a = Ok b -> a = b.
Proof. now intros [= ->]. Qed.

Lemma bind_Ok {A B : Type} (m : M A) (k : A -> M B) db b db' :
  bind m k db = (Ok b, db') ->
  exists a db1, m db = (Ok a, db1) /\ k a db1 = (Ok b, db').
Proof.
  unfold bind. destruct (m db) as [[a|e] db1]; [|discriminate]. eauto.
Qed.

Lemma throw_if_Ok c e db x db' :
  throw_if c e db = (Ok x, db') -> c = false /\ db' = db.
Proof.
  unfold throw_if. destruct c; [discriminate|]. now intros [= _ <-].
Qed.

Lemma lift_Ok {A : Type} (r : Result A) db a db' :
  lift r db = (Ok a, db') -> r = Ok a /\ db' = db.
Proof. unfold lift. now intros [= -> <-]. Qed.

(** A wrapped operation succeeds only when the operation itself does:
    the handlers of the controller all rethrow. *)
Lemma try_catch_rethrow_Ok {A : Type} (m : M A) (f : Failure -> Failure) db a db' :
  try_catch m (fun error => throw (f error)) db = (Ok a, db') ->
  m db = (Ok a, db').
Proof.
  unfold try_catch. destruct (m db) as [[x|e] db1]; [easy|discriminate].
Qed.

Lemma try_catch_Ok {A : Type} (m : M A) (h : Failure -> M A) db a db' :
  try_catch m h db = (Ok a, db') ->
  m db = (Ok a, db')
  \/ exists e db1, m db = (Throw e, db1) /\ h e db1 = (Ok a, db').
Proof.
  unfold try_catch. destruct (m db) as [[x|e] db1]; [now left|].
  intros H. right. eauto.
Qed.

Lemma bind_Throw {A B : Type} (m : M A) (k : A -> M B) db e db' :
  bind m k db = (Throw e, db') ->
  m db = (Throw e, db')
  \/ exists a db1, m db = (Ok a, db1) /\ k a db1 = (Throw e, db').
Proof.
  unfold bind. destruct (m db) as [[a|e0] db1]; [|intros [= <- <-]; now left].
  intros H. right. eauto.
Qed.

(** ** The collections *)

Lemma find_hasId_id (i : nat) (l : list userSchema.doc) (u : userSchema.doc) :
  find (User.hasId i) l = Some u -> userSchema._id u = i.
Proof.
  intros H. apply find_some in H as [_ H]. now apply Nat.eqb_eq in H.
Qed.

Lemma find_replaceFirst (i : nat) (f : userSchema.doc -> userSchema.doc)
    (l : list userSchema.doc) :
  (forall v, userSchema._id (f v) = userSchema._id v) ->
  find (User.hasId i) (User.replaceFirst i f l)
  = option_map f (find (User.hasId i) l).
Proof.
  intros Hf. induction l as [|v r IH]; simpl; [reflexivity|].
  destruct (User.hasId i v) eqn:E; simpl.
  - unfold User.hasId in *. now rewrite Hf, E.
  - now rewrite E.
Qed.

Lemma find_replaceFirst_const (i : nat) (u' : userSchema.doc)
    (l : list userSchema.doc) (old : userSchema.doc) :
  userSchema._id u' = i ->
  find (User.hasId i) l = Some old ->
  find (User.hasId i) (User.replaceFirst i (fun _ => u') l) = Some u'.
Proof.
  intros Hid. induction l as [|v r IH]; simpl; [discriminate|].
  destruct (User.hasId i v) eqn:E; simpl.
  - intros _. unfold User.hasId. now rewrite Hid, Nat.eqb_refl.
  - now rewrite E.
Qed.

Lemma find_by_id_unique (l : list userSchema.doc) (u : userSchema.doc) :
  NoDup (map userSchema._id l) -> In u l ->
  find (User.hasId (userSchema._id u)) l = Some u.
Proof.
  induction l as [|v r IH]; simpl; [easy|].
  intros Hnd Hin. inversion Hnd as [|? ? Hnotin Hnd']; subst.
  unfold User.hasId at 1.
  destruct (Nat.eqb (userSchema._id v) (userSchema._id u)) eqn:E.
  - destruct Hin as [->|Hin]; [reflexivity|].
    apply Nat.eqb_eq in E. exfalso. apply Hnotin. rewrite E.
    now apply in_map.
  - destruct Hin as [->|Hin]; [now rewrite Nat.eqb_refl in E|]. now apply IH.
Qed.

Lemma emailMatches_email (q : JsVal) (d : registrationSchema.doc) :
  Registration.emailMatches q d = true ->
  registrationSchema.email d = ToString q.
Proof.
  unfold Registration.emailMatches.
  destruct q; try discriminate; intros H; now apply String.eqb_eq in H.
Qed.

(** With one registration per email, deleting the registration of an
    email leaves none for it. *)
Lemma find_removeFirst_email (q : JsVal) (g : registrationSchema.doc -> bool)
    (l : list registrationSchema.doc) :
  NoDup (map registrationSchema.email l) ->
  find (fun d => Registration.emailMatches q d && g d)
    (Registration.removeFirst (Registration.emailMatches q) l) = None.
Proof.
  induction l as [|v r IH]; simpl; [reflexivity|].
  intros Hnd. inversion Hnd as [|? ? Hnotin Hnd']; subst.
  destruct (Registration.emailMatches q v) eqn:E.
  - apply emailMatches_email in E.
    destruct (find _ r) as [d|] eqn:F; [|reflexivity].
    apply find_some in F as [Hin Hd]. apply andb_true_iff in Hd as [Hd _].
    apply emailMatches_email in Hd. exfalso. apply Hnotin.
    rewrite E, <- Hd. now apply in_map.
  - simpl. rewrite E. simpl. now apply IH.
Qed.

(** Saving a loaded document after assigning to paths other than
    [password], [email] and [username] replaces it in place. *)
Lemma save_plain (u x : userSchema.doc) db :
  find (User.hasId (userSchema._id u)) (users db) = Some u ->
  userSchema._id x = userSchema._id u ->
  userSchema.password x = userSchema.password u ->
  userSchema.email x = userSchema.email u ->
  userSchema.username x = userSchema.username u ->
  User.save x db
  = (Ok x, {| users := User.replaceFirst (userSchema._id u) (fun _ => x) (users db);
              registrations := registrations db |}).
Proof.
  intros Hf Hid Hpw Hem Hun. unfold User.save.
  rewrite Hid, Hf, Hpw, Hem, Hun, !String.eqb_refl. reflexivity.
Qed.

(** A successful save of a document whose password was not assigned to
    writes the document as it is. *)
Lemma save_Ok_unhashed (x old y : userSchema.doc) db db' :
  find (User.hasId (userSchema._id x)) (users db) = Some old ->
  userSchema.password x = userSchema.password old ->
  User.save x db = (Ok y, db') ->
  y = x
  /\ db' = {| users := User.replaceFirst (userSchema._id x) (fun _ => x) (users db);
              registrations := registrations db |}.
Proof.
  intros Hf Hpw. unfold User.save. rewrite Hf, Hpw, String.eqb_refl.
  destruct (_ || _); [discriminate|]. now intros [= <- <-].
Qed.

Lemma assign_email_id (v : JsVal) (u : userSchema.doc) :
  userSchema._id (assign_email v u) = userSchema._id u.
Proof. unfold assign_email. now destruct (User.castString v). Qed.

Lemma assign_email_password (v : JsVal) (u : userSchema.doc) :
  userSchema.password (assign_email v u) = userSchema.password u.
Proof. unfold assign_email. now destruct (User.castString v). Qed.

(** Two filters that find documents accepted by each other find the
    same document. *)
Lemma find_same (p q : userSchema.doc -> bool) (l : list userSchema.doc)
    (u old : userSchema.doc) :
  find p l = Some u -> find q l = Some old ->
  q u = true -> p old = true -> old = u.
Proof.
  induction l as [|v r IH]; simpl; [discriminate|].
  destruct (p v) eqn:Ep, (q v) eqn:Eq; intros Hu Ho Hqu Hpo.
  - congruence.
  - injection Hu as <-. congruence.
  - injection Ho as <-. congruence.
  - now apply IH.
Qed.

(** Replacing the first document a filter finds, itself the first with
    its [_id], by one the filter accepts as well leaves it the first one
    found. *)
Lemma find_replaceFirst_found (p : userSchema.doc -> bool)
    (l : list userSchema.doc) (u x : userSchema.doc) :
  find p l = Some u ->
  find (User.hasId (userSchema._id u)) l = Some u ->
  p x = true ->
  find p (User.replaceFirst (userSchema._id u) (fun _ => x) l) = Some x.
Proof.
  intros Hu Hi Hx. induction l as [|v r IH]; simpl in *; [discriminate|].
  destruct (User.hasId (userSchema._id u) v) eqn:Ei.
  - simpl. now rewrite Hx.
  - destruct (p v) eqn:Ep.
    + injection Hu as ->. unfold User.hasId in Ei.
      now rewrite Nat.eqb_refl in Ei.
    + simpl. rewrite Ep. now apply IH.
Qed.

(** A save that succeeds without an assignment to [email] found the
    document under the email it carries. *)
Lemma save_Ok_same_email (x old y : userSchema.doc) db db' :
  In x (users db) \/ (exists u, In u (users db)
                       /\ userSchema.email u = userSchema.email x) ->
  find (User.hasId (userSchema._id x)) (users db) = Some old ->
  User.save x db = (Ok y, db') ->
  userSchema.email old = userSchema.email x.
Proof.
  intros Hin Hf. unfold User.save. rewrite Hf.
  destruct (String.eqb (userSchema.email x) (userSchema.email old)) eqn:E.
  - intros _. apply String.eqb_eq in E. now symmetry.
  - cbn [negb andb].
    assert (Hex : existsb (fun v => String.eqb (userSchema.email v) (userSchema.email x))
                    (users db) = true).
    { apply existsb_exists. destruct Hin as [Hin|(u & Hin & Hu)].
      - exists x. split; [exact Hin|apply String.eqb_refl].
      - exists u. split; [exact Hin|]. rewrite Hu. apply String.eqb_refl. }
    rewrite Hex. simpl. discriminate.
Qed.

Lemma registration_freshId_gt (l : list registrationSchema.doc)
    (d : registrationSchema.doc) :
  In d l -> (registrationSchema._id d < Registration.freshId l)%nat.
Proof.
  unfold Registration.freshId. induction l as [|v r IH]; simpl; [easy|].
  intros [->|Hin]; [lia|]. specialize (IH Hin). lia.
Qed.

Lemma registration_replace_last (l : list registrationSchema.doc)
    (d d' : registrationSchema.doc) :
  (forall v, In v l -> registrationSchema._id v <> registrationSchema._id d') ->
  registrationSchema._id d = registrationSchema._id d' ->
  Registration.replaceFirst d' (l ++ [d]) = (l ++ [d'])%list.
Proof.
  intros Hl Hd. induction l as [|v r IH]; simpl.
  - now rewrite Hd, Nat.eqb_refl.
  - destruct (Nat.eqb _ _) eqn:E.
    + apply Nat.eqb_eq in E. exfalso. apply (Hl v); [now left|exact E].
    + f_equal. apply IH. intros x Hx. apply Hl. now right.
Qed.

(** ** Proof tokens across the workflows *)

(** Decoding the proof token neither reads nor writes the database. *)
Lemma decodeEmail_db env w t db db2 :
  decodeEmail env w t db2 = (fst (decodeEmail env w t db), db2).
Proof.
  unfold decodeEmail. destruct (present t) as [tok|]; [|reflexivity].
  unfold bind, lift. destruct (verifyToken env (Date_now w) tok) as [p|e]; [|reflexivity].
  unfold throw_if. destruct (negb (truthy (Jwt.data p))); reflexivity.
Qed.

Lemma decodeEmail_Ok env w t db email db' :
  decodeEmail env w t db = (Ok email, db') ->
  db' = db /\ forall db2, decodeEmail env w t db2 = (Ok email, db2).
Proof.
  intros H. rewrite (decodeEmail_db env w t db db) in H.
  injection H as H <-. split; [reflexivity|].
  intros db2. now rewrite (decodeEmail_db env w t db db2), H.
Qed.

Lemma missing_or_blank_truthy (v : JsVal) :
  missing_or_blank v = Ok false -> truthy v = true.
Proof.
  unfold missing_or_blank. destruct (truthy v); [reflexivity|discriminate].
Qed.

(** Before it expires, the token of [generateToken] passes the token
    check of every step, whichever step issued it. *)
Lemma decodeEmail_generateToken env w w' (email : JsVal) db :
  truthy email = true ->
  Date_now w' / 1000 < Date_now w / 1000 + JWT_EXPIRY env ->
  decodeEmail env w' (Some (generateToken env (Date_now w) email)) db
  = (Ok email, db).
Proof.
  intros He Hlt. unfold decodeEmail, generateToken, Jwt.sign. cbn [present Jwt.truthy].
  unfold bind, lift, verifyToken, Jwt.verify. rewrite String.eqb_refl.
  rewrite (proj2 (Z.leb_gt _ _) Hlt). cbn [Jwt.data throw_if]. now rewrite He.
Qed.

(** Every token [emailRegistration] returns is [generateToken] of the
    email of the request. *)
Lemma emailRegistration_token env w req db resp db' :
  emailRegistration env w req db = (Ok resp, db') ->
  truthy (field req "email") = true
  /\ data resp = DToken (generateToken env (Date_now w) (field req "email")).
Proof.
  unfold emailRegistration. intros H.
  apply bind_Ok in H as (blank & db1 & Hb & H). apply lift_Ok in Hb as [Hb ->].
  apply bind_Ok in H as ([] & db1 & Ht & H). apply throw_if_Ok in Ht as [-> ->].
  apply missing_or_blank_truthy in Hb. split; [exact Hb|].
  apply bind_Ok in H as ([] & db1 & _ & H).
  apply bind_Ok in H as (? & db2 & _ & H).
  apply bind_Ok in H as ([] & db3 & _ & H).
  apply bind_Ok in H as (? & db4 & _ & H).
  apply bind_Ok in H as ([reg|] & db5 & _ & H); [|discriminate].
  apply bind_Ok in H as ([] & db6 & _ & H).
  apply bind_Ok in H as ([] & db7 & _ & H).
  unfold ret in H. now injection H as <- _.
Qed.

Lemma refresh_wrong_secret env w req db p secret iat exp :
  present (or_token (body_refreshToken req) (cookie req "refreshToken"))
  = Some (Jwt.Signed p secret iat exp) ->
  secret <> REFRESH_TOKEN_SECRET env ->
  refreshAccessToken env w req db = (Throw (ApiError 401 "invalid signature"), db).
Proof.
  intros Hp Hs. unfold refreshAccessToken, try_catch, bind. rewrite Hp.
  unfold lift, Jwt.verify.
  destruct (String.eqb secret (REFRESH_TOKEN_SECRET env)) eqn:E; [|reflexivity].
  now apply String.eqb_eq in E.
Qed.

Lemma decodeEmail_wrong_secret env w db p secret iat exp :
  secret <> JWT_SECRET env ->
  decodeEmail env w (Some (Jwt.Signed p secret iat exp)) db
  = (Throw (JsonWebTokenError "invalid signature"), db).
Proof.
  intros Hs. unfold decodeEmail. cbn [present Jwt.truthy].
  unfold bind, lift, verifyToken, Jwt.verify.
  destruct (String.eqb secret (JWT_SECRET env)) eqn:E; [|reflexivity].
  now apply String.eqb_eq in E.
Qed.

(** Each of the five steps that take a proof token opens with
    [decodeEmail] on its own cookie (or header): a token that
    [decodeEmail] refuses is refused by the step, which writes nothing. *)
Lemma steps_abort_on_token_failure env w req db e :
  (decodeEmail env w (or_token (cookie req "emailToken") (authorization req)) db
   = (Throw e, db) ->
   verifyEmail env w req db = (Throw e, db))
  /\ (decodeEmail env w
        (or_token (cookie req "verifiedEmailToken") (authorization req)) db
      = (Throw e, db) ->
      registerUser env w req db = (Throw e, db))
  /\ (decodeEmail env w
        (or_token (cookie req "updateEmailToken") (updateemailtoken req)) db
      = (Throw e, db) ->
      verifyUpdateEmailOTP env w req db = (Throw e, db))
  /\ (decodeEmail env w
        (or_token (cookie req "forgotPassToken") (authorization req)) db
      = (Throw e, db) ->
      verifyForgotPasswordOTP env w req db = (Throw e, db))
  /\ (decodeEmail env w (or_token (cookie req "verifiedToken") (authorization req)) db
      = (Throw e, db) ->
      forgotPassword env w req db = (Throw e, db)).
Proof.
  repeat split; intros H.
  - unfold verifyEmail, bind. now rewrite H.
  - unfold registerUser, bind. now rewrite H.
  - unfold verifyUpdateEmailOTP, bind. now rewrite H.
  - unfold verifyForgotPasswordOTP, bind. now rewrite H.
  - unfold forgotPassword, bind. now rewrite H.
Qed.

(** C1, as amended: tokens are told apart by their secret alone.  The
    five proof tokens of the workflows are all issued by [generateToken]
    and checked by [verifyToken] under one secret, so until it expires a
    proof token passes the token check of every workflow step; in
    particular the token [emailRegistration] returns is accepted where
    [registerUser], [verifyUpdateEmailOTP], [verifyForgotPasswordOTP] and
    [forgotPassword] decode theirs.  Across the three families (proof
    tokens, access tokens, refresh tokens) a token is rejected whenever
    the secrets of the families differ. *)
Theorem C1_tokens_are_separated_by_secret_only env w w' req req' db u :
  Date_now w' / 1000 < Date_now w / 1000 + JWT_EXPIRY env ->
  JWT_SECRET env <> REFRESH_TOKEN_SECRET env ->
  ACCESS_TOKEN_SECRET env <> REFRESH_TOKEN_SECRET env ->
  ACCESS_TOKEN_SECRET env <> JWT_SECRET env ->
  (forall email db', truthy email = true ->
     decodeEmail env w' (Some (generateToken env (Date_now w) email)) db'
     = (Ok email, db'))
  /\ (forall resp db1, emailRegistration env w req db = (Ok resp, db1) ->
        exists token, data resp = DToken token
          /\ forall db', decodeEmail env w' (Some token) db'
                         = (Ok (field req "email"), db'))
  /\ (forall email,
        present (or_token (body_refreshToken req') (cookie req' "refreshToken"))
        = Some (generateToken env (Date_now w) email) ->
        refreshAccessToken env w' req' db
        = (Throw (ApiError 401 "invalid signature"), db))
  /\ (present (or_token (body_refreshToken req') (cookie req' "refreshToken"))
      = Some (User.generateAccessToken env (Date_now w) u) ->
      refreshAccessToken env w' req' db
      = (Throw (ApiError 401 "invalid signature"), db))
  /\ decodeEmail env w' (Some (User.generateAccessToken env (Date_now w) u)) db
     = (Throw (JsonWebTokenError "invalid signature"), db)
  /\ decodeEmail env w' (Some (User.generateRefreshToken env (Date_now w) u)) db
     = (Throw (JsonWebTokenError "invalid signature"), db).
Proof.
  intros Hlt Hjr Har Haj. repeat split.
  - intros email db' He. now apply decodeEmail_generateToken.
  - intros resp db1 H. apply emailRegistration_token in H as [He Hd].
    eexists. split; [exact Hd|]. intros db'. now apply decodeEmail_generateToken.
  - intros email Hp. now apply (refresh_wrong_secret _ _ _ _ _ _ _ _ Hp).
  - intros Hp. now apply (refresh_wrong_secret _ _ _ _ _ _ _ _ Hp).
  - now apply decodeEmail_wrong_secret.
  - apply decodeEmail_wrong_secret. congruence.
Qed.

(** ** The two well-formedness conditions are invariants *)

Lemma user_freshId_gt (l : list userSchema.doc) (u : userSchema.doc) :
  In u l -> (userSchema._id u < User.freshId l)%nat.
Proof.
  unfold User.freshId. induction l as [|v r IH]; simpl; [easy|].
  intros [->|Hin]; [lia|]. specialize (IH Hin). lia.
Qed.

Lemma map_id_replaceFirst (i : nat) (x : userSchema.doc) (l : list userSchema.doc) :
  userSchema._id x = i ->
  map userSchema._id (User.replaceFirst i (fun _ => x) l) = map userSchema._id l.
Proof.
  intros Hx. induction l as [|v r IH]; simpl; [reflexivity|].
  destruct (User.hasId i v) eqn:E; simpl.
  - f_equal. apply Nat.eqb_eq in E. congruence.
  - now rewrite IH.
Qed.

Lemma create_ids_unique fullName bio avatar coverImage email password username db :
  ids_unique db ->
  ids_unique (snd (User.create fullName bio avatar coverImage email password
                     username db)).
Proof.
  unfold ids_unique, User.create. intros Hnd.
  destruct (negb _); [exact Hnd|]. destruct (existsb _ _); [exact Hnd|].
  cbn [snd users]. rewrite map_app. cbn [map userSchema._id].
  apply NoDup_app; [exact Hnd|repeat constructor; intros []|].
  intros i Hi [<-|[]]. apply in_map_iff in Hi as (u & Hu & Hin).
  apply user_freshId_gt in Hin. lia.
Qed.

Lemma save_ids_unique (u : userSchema.doc) db :
  ids_unique db -> ids_unique (snd (User.save u db)).
Proof.
  unfold ids_unique, User.save. intros Hnd.
  destruct (find _ _) as [old|]; [|exact Hnd].
  destruct (_ || _); [exact Hnd|]. cbn [snd users].
  rewrite map_id_replaceFirst; [exact Hnd|].
  now destruct (String.eqb _ _).
Qed.

Lemma removeFirst_incl (p : registrationSchema.doc -> bool)
    (l : list registrationSchema.doc) (d : registrationSchema.doc) :
  In d (Registration.removeFirst p l) -> In d l.
Proof.
  induction l as [|v r IH]; simpl; [easy|].
  destruct (p v); simpl; intuition.
Qed.

Lemma removeFirst_NoDup (p : registrationSchema.doc -> bool)
    (l : list registrationSchema.doc) :
  NoDup (map registrationSchema.email l) ->
  NoDup (map registrationSchema.email (Registration.removeFirst p l)).
Proof.
  induction l as [|v r IH]; simpl; [easy|].
  intros Hnd. inversion Hnd as [|? ? Hnotin Hnd']; subst.
  destruct (p v); simpl; [exact Hnd'|].
  constructor; [|now apply IH].
  intros Hin. apply Hnotin. apply in_map_iff in Hin as (d & Hd & Hin).
  apply in_map_iff. exists d. split; [exact Hd|].
  now apply removeFirst_incl in Hin.
Qed.

Lemma removeFirst_email_gone (q : JsVal) (l : list registrationSchema.doc) :
  truthy q = true ->
  NoDup (map registrationSchema.email l) ->
  ~ In (ToString q)
      (map registrationSchema.email
         (Registration.removeFirst (Registration.emailMatches q) l)).
Proof.
  intros Hq Hnd Hin. apply in_map_iff in Hin as (d & Hd & Hin).
  pose proof (find_removeFirst_email q (fun _ => true) l Hnd) as Hf.
  apply (find_none _ _ Hf) in Hin. rewrite andb_true_r in Hin.
  unfold Registration.emailMatches in Hin. rewrite Hd, String.eqb_refl in Hin.
  destruct q; discriminate.
Qed.

(** [emailRegistration] keeps at most one registration per email,
    whether it succeeds or throws. *)
Lemma emailRegistration_one_registration_per_email env w req db :
  one_registration_per_email db ->
  one_registration_per_email (snd (emailRegistration env w req db)).
Proof.
  unfold one_registration_per_email. intros Hnd.
  unfold emailRegistration, bind, lift.
  destruct (missing_or_blank (field req "email")) as [blank|e] eqn:Eb; [|exact Hnd].
  destruct blank; [exact Hnd|]. cbn [throw_if ret].
  destruct (negb (RegExp.test emailPattern (field req "email"))); [exact Hnd|].
  cbn [throw_if ret User.findOne].
  destruct (find _ (users db)); [exact Hnd|].
  cbn [isSome throw_if ret try_catch Registration.findOneAndDelete
       Registration.create Registration.save_verificationOTP users registrations
       registrationSchema._id registrationSchema.email].
  assert (Hfinal :
    NoDup (map registrationSchema.email
             (Registration.removeFirst
                (Registration.emailMatches (field req "email")) (registrations db)
              ++ [pending w (field req "email") db]))).
  { rewrite map_app. apply NoDup_app.
    - now apply removeFirst_NoDup.
    - repeat constructor. intros [].
    - intros s Hs [<-|[]]. revert Hs. apply removeFirst_email_gone; [|exact Hnd].
      now apply missing_or_blank_truthy. }
  rewrite registration_replace_last;
    [|intros v Hv; simpl; apply registration_freshId_gt in Hv; lia|reflexivity].
  unfold sendMail. destruct (mail w); exact Hfinal.
Qed.

(** So does [verifyEmail]. *)
Lemma verifyEmail_one_registration_per_email env w req db :
  one_registration_per_email db ->
  one_registration_per_email (snd (verifyEmail env w req db)).
Proof.
  unfold one_registration_per_email. intros Hnd.
  unfold verifyEmail, bind.
  rewrite (decodeEmail_db env w _ db db).
  destruct (fst (decodeEmail env w _ db)) as [email|e]; [|exact Hnd].
  unfold Registration.findOne.
  destruct (find _ (registrations db)); [|exact Hnd].
  cbn [isSome negb throw_if ret try_catch Registration.findOneAndDelete snd
       registrations].
  now apply removeFirst_NoDup.
Qed.

(** ** Session tokens *)

(** Whatever goes wrong inside [refreshAccessToken] is answered 401. *)
Lemma refreshAccessToken_fails_401 env w req db e db' :
  refreshAccessToken env w req db = (Throw e, db') ->
  exists m, e = ApiError 401 m.
Proof.
  unfold refreshAccessToken, try_catch.
  destruct (_ db) as [[resp|e0] db0]; [discriminate|].
  unfold throw. intros [= <- _]. eauto.
Qed.

(** C7: a refresh token that verifies under the refresh secret at the
    time of the request, but is not the token stored on the user it
    names, is answered 401 and nothing is written: no new pair is issued
    or persisted. *)
Theorem C7_refresh_rejects_superseded_token env w req db t p :
  present (or_token (body_refreshToken req) (cookie req "refreshToken")) = Some t ->
  Jwt.verify t (REFRESH_TOKEN_SECRET env) (Date_now w) = Ok p ->
  (forall u, fst (User.findById (Jwt._id p) db) = Ok (Some u) ->
             userSchema.refreshToken u <> Val t) ->
  exists m,
    (m = "Invalid Refresh Token!" \/ m = "Refresh Token is expired or used.")
    /\ refreshAccessToken env w req db = (Throw (ApiError 401 m), db).
Proof.
  intros Ht Hv Hu.
  unfold refreshAccessToken, try_catch, bind.
  rewrite Ht. unfold lift. rewrite Hv.
  unfold User.findById in *. simpl in Hu.
  destruct (match Jwt._id p with Some i => _ | None => None end) as [u|] eqn:Eu.
  - rewrite (differs_other t _ (Hu u eq_refl)).
    eexists. split; [right; reflexivity|reflexivity].
  - eexists. split; [left; reflexivity|reflexivity].
Qed.

(** Where the [undefined] of the update is written (Mongoose 5),
    [logoutUser] answers 200 and leaves no refresh token on the user; a
    refresh that then presents the token [r] that was stored, at whatever
    time, is answered 401 and writes nothing. *)
Lemma logoutUser_clears_where_undefined_is_written mg env w req req' db u r :
  omitUndefined mg = false ->
  fst (User.findById (Some (user req)) db) = Ok (Some u) ->
  userSchema.refreshToken u = Val r ->
  or_token (body_refreshToken req') (cookie req' "refreshToken") = Some r ->
  (forall p, Jwt.verify r (REFRESH_TOKEN_SECRET env) (Date_now w) = Ok p ->
             Jwt._id p = Some (user req)) ->
  exists resp db1,
    logoutUser mg req db = (Ok resp, db1)
    /\ status resp = 200
    /\ (exists u1, fst (User.findById (Some (user req)) db1) = Ok (Some u1)
                   /\ userSchema.refreshToken u1 = Null)
    /\ exists m, refreshAccessToken env w req' db1 = (Throw (ApiError 401 m), db1).
Proof.
  intros Hmg Hu Hr Hreq Hnames.
  unfold logoutUser, bind, User.findByIdAndUpdate_set_refreshToken, ret.
  rewrite Hmg. do 2 eexists. split; [reflexivity|]. split; [reflexivity|].
  simpl in Hu. injection Hu as Hu.
  assert (Hfind : find (User.hasId (user req))
                    (User.replaceFirst (user req) (User.set_refreshToken Null) (users db))
                  = Some (User.set_refreshToken Null u)).
  { rewrite find_replaceFirst by reflexivity. now rewrite Hu. }
  split.
  - exists (User.set_refreshToken Null u). simpl. now rewrite Hfind.
  - unfold refreshAccessToken, try_catch, bind. rewrite Hreq. unfold present.
    destruct (Jwt.truthy r); [|eexists; reflexivity].
    unfold lift.
    destruct (Jwt.verify r (REFRESH_TOKEN_SECRET env) (Date_now w)) as [p|e] eqn:Ev;
      [|eexists; reflexivity].
    rewrite (Hnames p eq_refl). unfold User.findById. cbn [users].
    rewrite Hfind. eexists. reflexivity.
Qed.

(** When Mongoose drops the [undefined] of the update, [logoutUser]
    writes nothing: the stored refresh token stays as it is. *)
Lemma logoutUser_writes_nothing_when_undefined_is_dropped mg req db :
  omitUndefined mg = true ->
  snd (logoutUser mg req db) = db.
Proof.
  intros Hmg. unfold logoutUser, bind, User.findByIdAndUpdate_set_refreshToken.
  rewrite Hmg. now destruct db.
Qed.

(** So a refresh after such a logout is answered as it was before. *)
Lemma refresh_after_logout_where_undefined_is_dropped mg env w req req' db :
  omitUndefined mg = true ->
  refreshAccessToken env w req' (snd (logoutUser mg req db))
  = refreshAccessToken env w req' db.
Proof.
  intros Hmg. now rewrite logoutUser_writes_nothing_when_undefined_is_dropped.
Qed.

(** C4, as amended: with an identifier and a password given, [loginUser]
    answers 404 "Password is incorrect!" when the user found does not
    have that password, and 404 "User not found, ..." when the identifier
    is no user's email or username; in both cases nothing is written. *)
Theorem C4_login_failures_are_404 env w req db :
  truthy (field req "usernameOrEmail") = true ->
  truthy (field req "password") = true ->
  (forall u,
      fst (User.findOne (User.Or (User.ByEmail (field req "usernameOrEmail"))
                                 (User.ByUsername (field req "usernameOrEmail"))) db)
      = Ok (Some u) ->
      Bcrypt.compare (field req "password") (userSchema.password u) = Ok false ->
      loginUser env w req db = (Throw (ApiError 404 "Password is incorrect!"), db))
  /\ (fst (User.findOne (User.Or (User.ByEmail (field req "usernameOrEmail"))
                                 (User.ByUsername (field req "usernameOrEmail"))) db)
      = Ok None ->
      loginUser env w req db
      = (Throw (ApiError 404 "User not found, please check username or password!"), db)).
Proof.
  intros Hid Hpw. unfold loginUser, bind, throw_if. rewrite Hid, Hpw.
  unfold User.findOne. cbn [negb ret fst]. split.
  - intros u Hu Hc. apply Ok_inj in Hu. rewrite Hu.
    unfold User.isPasswordCorrect, lift. rewrite Hc. reflexivity.
  - intros Hu. apply Ok_inj in Hu. rewrite Hu. reflexivity.
Qed.

(** ** Completing a registration *)

Lemma some_blank_true (fields : list JsVal) :
  some_blank fields = Ok true ->
  exists v s, In v fields /\ v = JStr s /\ trim s = "".
Proof.
  induction fields as [|f rest IH]; simpl; [discriminate|].
  destruct (optional_trim f) as [t|e] eqn:Et; [|discriminate].
  destruct (strict_eq t (JStr "")) eqn:Eb.
  - intros _. apply strict_eq_eq in Eb. subst t.
    destruct f; simpl in Et; try discriminate.
    injection Et as Et. exists (JStr s), s. auto.
  - intros H. destruct (IH H) as (v & s & Hin & Hv & Hs).
    exists v, s. auto.
Qed.

Lemma some_blank_false (fields : list JsVal) :
  Forall omitted_or_filled fields -> some_blank fields = Ok false.
Proof.
  induction 1 as [|v rest Hv _ IH]; simpl; [reflexivity|].
  destruct Hv as [->|(s & -> & Hs)]; simpl; [exact IH|].
  destruct (String.eqb (trim s) "") eqn:E; [|exact IH].
  now apply String.eqb_eq in E.
Qed.

Lemma registerUser_all_fields_required env w req db db' :
  registerUser env w req db = (Throw (ApiError 400 "All fields are required!"), db') ->
  some_blank [field req "fullName"; field req "username"; field req "password"]
  = Ok true.
Proof.
  unfold registerUser. intros H.
  apply bind_Throw in H as [H|(email & db1 & _ & H)].
  { unfold decodeEmail in H. destruct (present _); [|discriminate].
    apply bind_Throw in H as [H|(p & db1 & _ & H)].
    - unfold lift, verifyToken, Jwt.verify in H.
      repeat match type of H with
             | context [match ?x with _ => _ end] => destruct x
             end; discriminate.
    - apply bind_Throw in H as [H|(? & ? & _ & H)]; [|discriminate].
      unfold throw_if in H. destruct (negb _); discriminate. }
  apply bind_Throw in H as [H|(blank & db2 & Hb & H)].
  { unfold lift in H. injection H as H _.
    cbn [some_blank] in H.
    repeat match type of H with
           | context [match optional_trim ?x with _ => _ end] =>
               let E := fresh in
               destruct (optional_trim x) eqn:E;
               [|destruct x; simpl in E; try discriminate; congruence]
           | context [if ?c then _ else _] => destruct c
           end; discriminate. }
  apply lift_Ok in Hb as [Hb ->].
  apply bind_Throw in H as [H|([] & db2 & _ & H)].
  { unfold throw_if in H. destruct blank; [exact Hb|discriminate]. }
  exfalso.
  apply bind_Throw in H as [H|([] & db3 & _ & H)].
  { unfold throw_if in H. destruct (negb _); discriminate. }
  apply bind_Throw in H as [H|(? & db4 & _ & H)]; [discriminate|].
  apply bind_Throw in H as [H|([] & db5 & _ & H)].
  { unfold throw_if in H. destruct (isSome _); discriminate. }
  apply bind_Throw in H as [H|(? & db6 & _ & H)]; [discriminate|].
  apply bind_Throw in H as [H|([] & db7 & _ & H)].
  { unfold throw_if in H. destruct (isSome _); discriminate. }
  apply bind_Throw in H as [H|(lowered & db8 & _ & H)].
  { unfold lift, method_toLowerCase in H. destruct (field req "username"); discriminate. }
  apply bind_Throw in H as [H|(u & db9 & _ & H)].
  { unfold User.create in H.
    repeat match type of H with
           | context [if ?c then _ else _] => destruct c
           end; discriminate. }
  apply bind_Throw in H as [H|(cu & db10 & _ & H)]; [discriminate|].
  destruct cu; discriminate.
Qed.

(** C9: [registerUser] answers "All fields are required!" only when one
    of [fullName], [username], [password] is a string that trims to the
    empty string; fields that are left out ([undefined]) pass the check. *)
Theorem C9_required_field_check_ignores_omitted_fields env w req db :
  (forall db',
     registerUser env w req db
     = (Throw (ApiError 400 "All fields are required!"), db') ->
     exists name s,
       In name ["fullName"; "username"; "password"]
       /\ field req name = JStr s /\ trim s = "")
  /\
  (Forall omitted_or_filled
     [field req "fullName"; field req "username"; field req "password"] ->
   some_blank [field req "fullName"; field req "username"; field req "password"]
   = Ok false
   /\ fst (registerUser env w req db)
      <> Throw (ApiError 400 "All fields are required!")).
Proof.
  split.
  - intros db' H. apply registerUser_all_fields_required in H.
    apply some_blank_true in H as (v & s & Hin & -> & Hs).
    simpl in Hin. destruct Hin as [H|[H|[H|[]]]].
    + exists "fullName", s. simpl. auto.
    + exists "username", s. simpl. auto.
    + exists "password", s. simpl. auto.
  - intros Hf. pose proof (some_blank_false _ Hf) as Hs. split; [exact Hs|].
    intros H. destruct (registerUser env w req db) as [r db'] eqn:E.
    simpl in H. subst r. apply registerUser_all_fields_required in E.
    rewrite Hs in E. discriminate.
Qed.

(** The second look-up of [registerUser] repeats the first, so its
    answer is never given. *)
Lemma registerUser_never_reports_username env w req db db' :
  registerUser env w req db
  <> (Throw (ApiError 409 "User with username already exists"), db').
Proof.
  unfold registerUser. intros H.
  apply bind_Throw in H as [H|(email & db1 & Hd & H)].
  { unfold decodeEmail in H. destruct (present _); [|discriminate].
    apply bind_Throw in H as [H|(p & db1 & _ & H)].
    - unfold lift, verifyToken, Jwt.verify in H.
      repeat match type of H with
             | context [match ?x with _ => _ end] => destruct x
             end; discriminate.
    - apply bind_Throw in H as [H|(? & ? & _ & H)]; [|discriminate].
      unfold throw_if in H. destruct (negb _); discriminate. }
  apply decodeEmail_Ok in Hd as [-> _].
  apply bind_Throw in H as [H|(blank & db2 & Hb & H)].
  { unfold lift in H. injection H as H _.
    cbn [some_blank] in H.
    repeat match type of H with
           | context [match optional_trim ?x with _ => _ end] =>
               let E := fresh in
               destruct (optional_trim x) eqn:E;
               [|destruct x; simpl in E; try discriminate; congruence]
           | context [if ?c then _ else _] => destruct c
           end; discriminate. }
  apply lift_Ok in Hb as [_ ->].
  apply bind_Throw in H as [H|([] & db2 & Ht & H)].
  { unfold throw_if in H. destruct blank; discriminate. }
  apply throw_if_Ok in Ht as [_ ->].
  apply bind_Throw in H as [H|([] & db3 & Ht & H)].
  { unfold throw_if in H. destruct (negb _); discriminate. }
  apply throw_if_Ok in Ht as [_ ->].
  apply bind_Throw in H as [H|(first & db4 & Hf & H)]; [discriminate|].
  unfold User.findOne in Hf. apply pair_equal_spec in Hf as [Hf <-].
  apply Ok_inj in Hf.
  apply bind_Throw in H as [H|([] & db5 & Ht & H)].
  { unfold throw_if in H. destruct (isSome _); discriminate. }
  apply throw_if_Ok in Ht as [Hnone ->].
  apply bind_Throw in H as [H|(second & db6 & Hs & H)]; [discriminate|].
  unfold User.findOne in Hs. apply pair_equal_spec in Hs as [Hs <-].
  apply Ok_inj in Hs. rewrite Hf in Hs. subst second.
  apply bind_Throw in H as [H|([] & db7 & _ & H)].
  { unfold throw_if in H. rewrite Hnone in H. discriminate. }
  apply bind_Throw in H as [H|(lowered & db8 & _ & H)].
  { unfold lift, method_toLowerCase in H. destruct (field req "username"); discriminate. }
  apply bind_Throw in H as [H|(u & db9 & _ & H)].
  { unfold User.create in H.
    repeat match type of H with
           | context [if ?c then _ else _] => destruct c
           end; discriminate. }
  apply bind_Throw in H as [H|(cu & db10 & _ & H)]; [discriminate|].
  destruct cu; discriminate.
Qed.

(** ** Failing mail *)

(** C5, as amended: when the mail cannot be sent, [emailRegistration] and
    [sendForgotPasswordOTP] answer 500 and issue no token, and what they
    wrote before the send stays: the new registration with its OTP has
    replaced the previous one of the email, the OTP and its expiry are
    set on the user. *)
Theorem C5_mail_failure_keeps_the_stored_otp env w req db m :
  mail w = Some m ->
  (missing_or_blank (field req "email") = Ok false ->
   RegExp.test emailPattern (field req "email") = true ->
   fst (User.findOne (User.ByEmail (field req "email")) db) = Ok None ->
   emailRegistration env w req db
   = (Throw (ApiError 500 ("Error while sending verification email: " ++ m)),
      {| users := users db;
         registrations :=
           (Registration.removeFirst
              (Registration.emailMatches (field req "email")) (registrations db)
            ++ [pending w (field req "email") db])%list |}))
  /\
  (forall u,
   ids_unique db ->
   missing_or_blank (field req "usernameOrEmail") = Ok false ->
   fst (User.findOne (User.Or (User.ByEmail (field req "usernameOrEmail"))
                              (User.ByUsername (field req "usernameOrEmail"))) db)
   = Ok (Some u) ->
   sendForgotPasswordOTP env w req db
   = (Throw (ApiError 500 ("Error while sending forgot password email: " ++ m)),
      {| users :=
           User.replaceFirst (userSchema._id u)
             (fun _ => User.set_forgotPassword (Val (randomOTP w))
                         (Val (Date_now w + 15 * 60 * 1000)) u)
             (users db);
         registrations := registrations db |})).
Proof.
  intros Hm. split.
  - intros Hb Ht Hu. unfold emailRegistration, bind, lift. rewrite Hb, Ht.
    unfold User.findOne in *. cbn [fst] in Hu. apply Ok_inj in Hu.
    cbn [negb throw_if ret]. rewrite Hu.
    cbn [negb throw_if ret isSome try_catch Registration.findOneAndDelete
         Registration.create Registration.save_verificationOTP
         users registrations].
    unfold sendMail. rewrite Hm.
    cbn [try_catch throw message_of registrationSchema._id registrationSchema.email].
    f_equal. f_equal. unfold pending.
    apply registration_replace_last; [|reflexivity].
    intros v Hv. simpl. apply registration_freshId_gt in Hv. lia.
  - intros u Hids Hb Hu. unfold sendForgotPasswordOTP, bind, lift. rewrite Hb.
    unfold User.findOne in *. cbn [fst] in Hu. apply Ok_inj in Hu.
    cbn [throw_if ret]. rewrite Hu.
    unfold try_catch.
    rewrite (save_plain u); try reflexivity.
    + unfold sendMail. rewrite Hm. reflexivity.
    + apply find_by_id_unique; [exact Hids|]. now apply find_some in Hu.
Qed.

(** ** One-time codes *)

(** C6, as amended: when the forgot-password OTP of the request matches
    the stored one and the stored expiry lies in the past,
    [verifyForgotPasswordOTP] answers 400 "OTP has expired." and writes
    nothing: the OTP and its expiry stay on the user as they were. *)
Theorem C6_expired_reset_otp_is_not_cleared env w req db email u expiry :
  fst (decodeEmail env w
         (or_token (cookie req "forgotPassToken") (authorization req)) db)
  = Ok email ->
  fst (User.findOne (User.ByEmail email) db) = Ok (Some u) ->
  strict_eq (toJs (userSchema.forgotPasswordOTP u)) (field req "forgotPasswordOTP")
  = true ->
  userSchema.forgotPasswordOtpExpiry u = Val expiry ->
  expiry < Date_now w ->
  verifyForgotPasswordOTP env w req db
  = (Throw (ApiError 400 "OTP has expired."), db).
Proof.
  intros Hd Hu Hotp Hx Hlt.
  unfold verifyForgotPasswordOTP, bind.
  rewrite (decodeEmail_db env w _ db db), Hd.
  unfold User.findOne in *. cbn [fst] in Hu. apply Ok_inj in Hu. rewrite Hu.
  rewrite Hotp, Hx. cbn [negb throw_if ret date_lt].
  now rewrite (proj2 (Z.ltb_lt _ _) Hlt).
Qed.

(** C10: [verifyUpdateEmailOTP] and [verifyForgotPasswordOTP] compare the
    stored number with the submitted value by [!==]; when the OTP of the
    request is a string, whatever its digits and whatever is stored, the
    step that reaches the comparison answers 400 "Invalid OTP." and writes
    nothing. *)
Theorem C10_string_otp_is_always_invalid env w req db email s u :
  (field req "updateEmailOTP" = JStr s ->
   fst (decodeEmail env w
          (or_token (cookie req "updateEmailToken") (updateemailtoken req)) db)
   = Ok email ->
   fst (User.findById (Some (user req)) db) = Ok (Some u) ->
   verifyUpdateEmailOTP env w req db = (Throw (ApiError 400 "Invalid OTP."), db))
  /\
  (field req "forgotPasswordOTP" = JStr s ->
   fst (decodeEmail env w
          (or_token (cookie req "forgotPassToken") (authorization req)) db)
   = Ok email ->
   fst (User.findOne (User.ByEmail email) db) = Ok (Some u) ->
   verifyForgotPasswordOTP env w req db = (Throw (ApiError 400 "Invalid OTP."), db)).
Proof.
  split; intros Hs Hd Hu.
  - unfold verifyUpdateEmailOTP, bind.
    rewrite (decodeEmail_db env w _ db db), Hd.
    unfold User.findById in *. cbn [fst] in Hu. apply Ok_inj in Hu. rewrite Hu, Hs.
    now destruct (userSchema.updateEmailOTP u).
  - unfold verifyForgotPasswordOTP, bind.
    rewrite (decodeEmail_db env w _ db db), Hd.
    unfold User.findOne in *. cbn [fst] in Hu. apply Ok_inj in Hu. rewrite Hu, Hs.
    now destruct (userSchema.forgotPasswordOTP u).
Qed.

Lemma verifyEmail_replay env w req db resp db' :
  one_registration_per_email db ->
  verifyEmail env w req db = (Ok resp, db') ->
  verifyEmail env w req db'
  = (Throw (ApiError 400 "Invalid or expired OTP."), db').
Proof.
  intros Hone H. unfold verifyEmail in H.
  apply bind_Ok in H as (email & db1 & Hd & H).
  apply decodeEmail_Ok in Hd as [-> Hd].
  apply bind_Ok in H as (reg & db1 & Hf & H).
  unfold Registration.findOne in Hf. injection Hf as Hf <-.
  apply bind_Ok in H as ([] & db1 & Ht & H).
  apply throw_if_Ok in Ht as [_ ->].
  apply bind_Ok in H as (del & db1 & Hdel & H).
  apply try_catch_rethrow_Ok in Hdel.
  unfold Registration.findOneAndDelete in Hdel. injection Hdel as _ <-.
  unfold ret in H. injection H as _ <-.
  unfold verifyEmail, bind. rewrite Hd.
  unfold Registration.findOne. cbn [registrations].
  rewrite find_removeFirst_email by exact Hone. reflexivity.
Qed.

Lemma verifyForgotPasswordOTP_replay env w req db resp db' :
  field req "forgotPasswordOTP" <> JNull ->
  verifyForgotPasswordOTP env w req db = (Ok resp, db') ->
  verifyForgotPasswordOTP env w req db'
  = (Throw (ApiError 400 "Invalid OTP."), db').
Proof.
  intros Hnull H. unfold verifyForgotPasswordOTP in H.
  apply bind_Ok in H as (email & db1 & Hd & H).
  apply decodeEmail_Ok in Hd as [-> Hd].
  apply bind_Ok in H as (ou & db1 & Hf & H).
  unfold User.findOne in Hf. apply pair_equal_spec in Hf as [Hf <-].
  apply Ok_inj in Hf.
  destruct ou as [u|]; [|discriminate].
  apply bind_Ok in H as ([] & db1 & Ht & H). apply throw_if_Ok in Ht as [_ ->].
  apply bind_Ok in H as ([] & db1 & Ht & H). apply throw_if_Ok in Ht as [_ ->].
  apply bind_Ok in H as (u' & db1 & Hs & H).
  apply try_catch_rethrow_Ok in Hs.
  pose proof (find_some _ _ Hf) as [Hin Hpu].
  remember (User.set_forgotPassword Null Null u) as x eqn:Ex.
  assert (Hxi : userSchema._id x = userSchema._id u) by now subst x.
  assert (Hxe : userSchema.email x = userSchema.email u) by now subst x.
  assert (Hxp : userSchema.password x = userSchema.password u) by now subst x.
  assert (Hxu : userSchema.username x = userSchema.username u) by now subst x.
  assert (Hxo : userSchema.forgotPasswordOTP x = Null) by now subst x.
  assert (Hpx : User.matchesFilter (User.ByEmail email) x = true)
    by (subst x; exact Hpu).
  clear Ex.
  assert (Hid : find (User.hasId (userSchema._id u)) (users db) = Some u).
  { destruct (find (User.hasId (userSchema._id u)) (users db)) as [old|] eqn:Eo.
    - f_equal. apply (find_same _ _ _ _ _ Hf Eo).
      + unfold User.hasId. apply Nat.eqb_refl.
      + assert (He : userSchema.email old = userSchema.email x).
        { apply (save_Ok_same_email x old u' db db1); [|now rewrite Hxi|exact Hs].
          right. exists u. now split. }
        simpl in Hpu |- *. now rewrite He, Hxe.
    - unfold User.save in Hs. rewrite Hxi, Eo in Hs. discriminate. }
  rewrite (save_plain u) in Hs by assumption.
  injection Hs as <- <-. unfold ret in H. injection H as _ <-.
  unfold verifyForgotPasswordOTP, bind. rewrite Hd.
  unfold User.findOne. cbn [users].
  rewrite (find_replaceFirst_found _ _ u) by assumption.
  rewrite Hxo. cbn [toJs].
  destruct (strict_eq JNull (field req "forgotPasswordOTP")) eqn:E; [|reflexivity].
  apply strict_eq_eq in E. now symmetry in E.
Qed.

Lemma verifyUpdateEmailOTP_replay env w req db resp db' :
  field req "updateEmailOTP" <> JNull ->
  verifyUpdateEmailOTP env w req db = (Ok resp, db') ->
  verifyUpdateEmailOTP env w req db'
  = (Throw (ApiError 400 "Invalid OTP."), db').
Proof.
  intros Hnull H. unfold verifyUpdateEmailOTP in H.
  apply bind_Ok in H as (newEmail & db1 & Hd & H).
  apply decodeEmail_Ok in Hd as [-> Hd].
  apply bind_Ok in H as (ou & db1 & Hf & H).
  unfold User.findById in Hf. apply pair_equal_spec in Hf as [Hf <-].
  apply Ok_inj in Hf.
  destruct ou as [u|]; [|discriminate].
  pose proof (find_hasId_id _ _ _ Hf) as Hid.
  apply bind_Ok in H as ([] & db1 & Ht & H). apply throw_if_Ok in Ht as [_ ->].
  apply bind_Ok in H as ([] & db1 & Ht & H). apply throw_if_Ok in Ht as [_ ->].
  remember (User.set_updateEmail Null Null (assign_email newEmail u)) as a eqn:Ea.
  assert (Ha : userSchema._id a = user req)
    by (subst a; simpl; now rewrite assign_email_id).
  assert (Hp : userSchema.password a = userSchema.password u)
    by (subst a; simpl; now rewrite assign_email_password).
  assert (Ho : userSchema.updateEmailOTP a = Null) by now subst a.
  clear Ea.
  apply bind_Ok in H as (u1 & db1 & Hs1 & H).
  apply try_catch_Ok in Hs1 as [Hs1|(e & db2 & _ & Hs1)].
  2:{ apply bind_Ok in Hs1 as (? & ? & _ & Hs1). discriminate. }
  apply (save_Ok_unhashed a u) in Hs1 as [-> ->];
    [|now rewrite Ha|exact Hp].
  apply bind_Ok in H as (u2 & db2 & Hs2 & H).
  apply try_catch_rethrow_Ok in Hs2.
  assert (Hf1 : find (User.hasId (user req))
                  (User.replaceFirst (user req) (fun _ => a) (users db)) = Some a)
    by (now apply (find_replaceFirst_const _ _ _ u)).
  apply (save_Ok_unhashed a a) in Hs2 as [-> ->];
    [|rewrite Ha; exact Hf1|reflexivity].
  unfold ret in H. injection H as _ <-.
  unfold verifyUpdateEmailOTP, bind. rewrite Hd.
  unfold User.findById. cbn [users]. rewrite Ha.
  rewrite (find_replaceFirst_const _ _ _ a) by (exact Ha || exact Hf1).
  rewrite Ho. cbn [toJs].
  destruct (strict_eq JNull (field req "updateEmailOTP")) eqn:E; [|reflexivity].
  apply strict_eq_eq in E. now symmetry in E.
Qed.

(** C8: an OTP that a confirming step has just consumed is refused when
    the same request is sent again: [verifyEmail] answers "Invalid or
    expired OTP." (the registration is gone), [verifyUpdateEmailOTP] and
    [verifyForgotPasswordOTP] answer "Invalid OTP." (the stored code is
    cleared).  The replay writes nothing. *)
Theorem C8_consumed_otp_is_not_accepted_twice env w req db resp db' :
  (one_registration_per_email db ->
   verifyEmail env w req db = (Ok resp, db') ->
   verifyEmail env w req db'
   = (Throw (ApiError 400 "Invalid or expired OTP."), db'))
  /\
  (field req "updateEmailOTP" <> JNull ->
   verifyUpdateEmailOTP env w req db = (Ok resp, db') ->
   verifyUpdateEmailOTP env w req db'
   = (Throw (ApiError 400 "Invalid OTP."), db'))
  /\
  (field req "forgotPasswordOTP" <> JNull ->
   verifyForgotPasswordOTP env w req db = (Ok resp, db') ->
   verifyForgotPasswordOTP env w req db'
   = (Throw (ApiError 400 "Invalid OTP."), db')).
Proof.
  split; [|split].
  - apply verifyEmail_replay.
  - apply verifyUpdateEmailOTP_replay.
  - apply verifyForgotPasswordOTP_replay.
Qed.

(** * Examples *)

Import Sample Requests.

(** ** The primitives on small inputs *)

Example trim_both_ends : trim "  a b  " = "a b".
Proof. reflexivity. Qed.

Example emailPattern_accepts : RegExp.test emailPattern (JStr "a@x.com") = true.
Proof. reflexivity. Qed.

Example emailPattern_needs_a_dot : RegExp.test emailPattern (JStr "a@x") = false.
Proof. reflexivity. Qed.

Example emailPattern_refuses_space :
  RegExp.test emailPattern (JStr "a b@x.com") = false.
Proof. reflexivity. Qed.

Example emailPattern_refuses_two_ats :
  RegExp.test emailPattern (JStr "a@b@x.com") = false.
Proof. reflexivity. Qed.

Example usernamePattern_accepts : RegExp.test usernamePattern (JStr "a-b_C9") = true.
Proof. reflexivity. Qed.

Example usernamePattern_refuses_space :
  RegExp.test usernamePattern (JStr "a b") = false.
Proof. reflexivity. Qed.

(** [test] converts its argument to a string first: [undefined] reads
    "undefined", which the pattern accepts. *)
Example usernamePattern_accepts_undefined :
  RegExp.test usernamePattern JUndefined = true.
Proof. reflexivity. Qed.

Example number_is_not_its_digits : strict_eq (JNum 123456) (JStr "123456") = false.
Proof. reflexivity. Qed.

Example randomOTP_sample : randomOTP world = 123456.
Proof. reflexivity. Qed.

(** The scenario of section 8: begin the registration of [b@x.com],
    confirm the OTP, complete the registration.  The registration is gone
    after the second step and the user is stored with a hashed password. *)
Example registration_end_to_end :
  let db1 := snd (emailRegistration env world register_email_b only_alice) in
  let db2 := snd (verifyEmail env world verify_b db1) in
  let db3 := snd (registerUser env world register_bob_with_first_token db2) in
  registrations db1
  = [ {| registrationSchema._id := 1%nat;
         registrationSchema.email := "b@x.com";
         registrationSchema.verificationOTP := Val 123456 |} ]
  /\ registrations db2 = []
  /\ map userSchema.username (users db3) = ["alice"; "bob"]
  /\ map userSchema.password (users db3)
     = [Bcrypt.hash "secret1"; Bcrypt.hash "secret2"].
Proof. vm_compute. repeat split. Qed.

(** C1, as stated, fails: the token [emailRegistration] returns for
    [b@x.com] is accepted by [registerUser], which creates the user
    although the OTP was never confirmed. *)
Lemma C1_registration_token_completes_registration :
  exists db1 resp db2,
    emailRegistration env world register_email_b only_alice
    = (Ok {| status := 200;
             cookie_set := [("emailToken", token_for "b@x.com")];
             cookie_cleared := [];
             data := DToken (token_for "b@x.com");
             message := "OTP sent successfuly. Please verify your email." |}, db1)
    /\ registerUser env world_later register_bob_with_first_token db1
       = (Ok resp, db2)
    /\ status resp = 201
    /\ map userSchema.email (users db2) = ["a@x.com"; "b@x.com"].
Proof. do 3 eexists. vm_compute. repeat split. Qed.

Lemma C1_witness :
  (forall db', decodeEmail env world_later (Some (token_for "b@x.com")) db'
               = (Ok (JStr "b@x.com"), db'))
  /\ refreshAccessToken env world_later (refresh_with (token_for "a@x.com"))
       alice_logged_in
     = (Throw (ApiError 401 "invalid signature"), alice_logged_in).
Proof.
  destruct (C1_tokens_are_separated_by_secret_only env world world_later
              register_email_b (refresh_with (token_for "a@x.com"))
              alice_logged_in alice) as (H1 & _ & H3 & _).
  - vm_compute. reflexivity.
  - discriminate.
  - discriminate.
  - discriminate.
  - split.
    + intros db'. apply (H1 (JStr "b@x.com")). reflexivity.
    + apply (H3 (JStr "a@x.com")). reflexivity.
Defined.

(** C2 fails on the code.  From release 6 on Mongoose drops the
    [undefined] of [$set: { refreshToken: undefined }], so [logoutUser]
    sends an empty update: Alice logs out and is answered 200, her
    refresh token stays stored, and nineteen minutes later a refresh that
    presents it is answered 200 with a new pair. *)
Theorem C2_logout_leaves_the_refresh_token_valid :
  logoutUser release_6 (request [] []) alice_logged_in
  = (Ok {| status := 200;
           cookie_set := [];
           cookie_cleared := ["accessToken"; "refreshToken"];
           data := DEmpty;
           message := "User logged out successfully!" |},
     alice_logged_in)
  /\ map userSchema.refreshToken (users alice_logged_in) = [Val alice_refresh]
  /\ exists resp db',
       refreshAccessToken env world_later (refresh_with alice_refresh)
         (snd (logoutUser release_6 (request [] []) alice_logged_in))
       = (Ok resp, db')
       /\ status resp = 200
       /\ lookup "refreshToken" (cookie_set resp)
          = Some (User.generateRefreshToken env (Date_now world_later) alice).
Proof.
  split; [reflexivity|]. split; [reflexivity|].
  do 2 eexists. split; [vm_compute; reflexivity|]. split; reflexivity.
Qed.

(** Under release 5 the same logout clears the token. *)
Example logout_under_release_5 :
  exists resp db1,
    logoutUser {| omitUndefined := false |} (request [] []) alice_logged_in
    = (Ok resp, db1)
    /\ status resp = 200
    /\ (exists u1, fst (User.findById (Some 1%nat) db1) = Ok (Some u1)
                   /\ userSchema.refreshToken u1 = Null)
    /\ exists m, refreshAccessToken env world_later (refresh_with alice_refresh) db1
                 = (Throw (ApiError 401 m), db1).
Proof.
  apply (logoutUser_clears_where_undefined_is_written {| omitUndefined := false |}
           env world_later (request [] []) (refresh_with alice_refresh)
           alice_logged_in (User.set_refreshToken (Val alice_refresh) alice)
           alice_refresh).
  - reflexivity.
  - reflexivity.
  - reflexivity.
  - reflexivity.
  - intros p. vm_compute. intros [= <-]. reflexivity.
Qed.

(** C3 fails on the code: Alice owns the username, the email of the
    token is unused; both look-ups of [registerUser] query the email, so
    the request reaches [User.create], and it is the unique index that
    stops it: a duplicate-key error, answered 500, instead of the 409 of
    "User with username already exists". *)
Theorem C3_taken_username_is_not_reported_as_conflict :
  registerUser env world register_as_alice only_alice = (Throw User.E11000, only_alice)
  /\ statusCode_of User.E11000 = 500
  /\ fst (User.findOne (User.ByUsername (JStr "alice")) only_alice) = Ok (Some alice).
Proof. vm_compute. repeat split. Qed.

(** C4, as stated, fails: a wrong password is answered 404, not 401. *)
Lemma C4_wrong_password_is_answered_404 :
  loginUser env world login_wrong_password only_alice
  = (Throw (ApiError 404 "Password is incorrect!"), only_alice)
  /\ statusCode_of (ApiError 404 "Password is incorrect!") <> 401.
Proof. split; [vm_compute; reflexivity|discriminate]. Qed.

Lemma C4_witness :
  loginUser env world login_wrong_password only_alice
  = (Throw (ApiError 404 "Password is incorrect!"), only_alice)
  /\ loginUser env world login_unknown only_alice
     = (Throw (ApiError 404 "User not found, please check username or password!"),
        only_alice).
Proof.
  split.
  - apply (proj1 (C4_login_failures_are_404 env world login_wrong_password
                    only_alice eq_refl eq_refl) alice); reflexivity.
  - apply (proj2 (C4_login_failures_are_404 env world login_unknown
                    only_alice eq_refl eq_refl)); reflexivity.
Defined.

(** C5, as stated, fails: the mail transport is down, the step is
    answered 500, and the new registration with its OTP stays stored;
    likewise the OTP and its expiry on the user. *)
Lemma C5_failed_send_leaves_the_otp_stored :
  emailRegistration env world_mail_down register_email_b only_alice
  = (Throw (ApiError 500
       "Error while sending verification email: connect ECONNREFUSED"),
     pending_b)
  /\ pending_b <> only_alice
  /\ snd (sendForgotPasswordOTP env world_mail_down forgot_alice only_alice)
     = {| users := [User.set_forgotPassword (Val 123456) (Val (now + 900000)) alice];
          registrations := [] |}.
Proof. split; [vm_compute; reflexivity|split; [discriminate|vm_compute; reflexivity]]. Qed.

Lemma C5_witness :
  emailRegistration env world_mail_down register_email_b only_alice
  = (Throw (ApiError 500
       "Error while sending verification email: connect ECONNREFUSED"),
     pending_b)
  /\ fst (sendForgotPasswordOTP env world_mail_down forgot_alice only_alice)
     = Throw (ApiError 500
         "Error while sending forgot password email: connect ECONNREFUSED").
Proof.
  destruct (C5_mail_failure_keeps_the_stored_otp env world_mail_down
              register_email_b only_alice "connect ECONNREFUSED" eq_refl)
    as [H1 _].
  destruct (C5_mail_failure_keeps_the_stored_otp env world_mail_down
              forgot_alice only_alice "connect ECONNREFUSED" eq_refl)
    as [_ H2].
  split.
  - rewrite H1; reflexivity.
  - rewrite (H2 alice).
    + reflexivity.
    + repeat constructor; simpl; intuition discriminate.
    + reflexivity.
    + reflexivity.
Defined.

(** C6, as stated, fails in its second half: the expired OTP is answered
    "OTP has expired." and it stays on the user with its expiry. *)
Lemma C6_expired_otp_stays_stored :
  verifyForgotPasswordOTP env world reset_otp_number alice_otp_expired
  = (Throw (ApiError 400 "OTP has expired."), alice_otp_expired)
  /\ map userSchema.forgotPasswordOTP (users alice_otp_expired) = [Val 123456]
  /\ map userSchema.forgotPasswordOtpExpiry (users alice_otp_expired)
     = [Val (now - 1000)].
Proof. vm_compute. repeat split. Qed.

Lemma C6_witness :
  verifyForgotPasswordOTP env world reset_otp_number alice_otp_expired
  = (Throw (ApiError 400 "OTP has expired."), alice_otp_expired).
Proof.
  apply (C6_expired_reset_otp_is_not_cleared env world reset_otp_number
           alice_otp_expired (JStr "a@x.com")
           (User.set_forgotPassword (Val 123456) (Val (now - 1000)) alice)
           (now - 1000)).
  - reflexivity.
  - reflexivity.
  - reflexivity.
  - reflexivity.
  - vm_compute. reflexivity.
Defined.

Lemma C7_witness :
  exists m,
    (m = "Invalid Refresh Token!" \/ m = "Refresh Token is expired or used.")
    /\ refreshAccessToken env world (refresh_with alice_older_refresh) alice_logged_in
       = (Throw (ApiError 401 m), alice_logged_in).
Proof.
  apply (C7_refresh_rejects_superseded_token env world
           (refresh_with alice_older_refresh) alice_logged_in
           alice_older_refresh (Jwt.PRefresh 1)).
  - reflexivity.
  - reflexivity.
  - intros u H. vm_compute in H. injection H as <-. discriminate.
Defined.

Lemma C8_witness :
  verifyEmail env world verify_b
    (snd (verifyEmail env world verify_b pending_b))
  = (Throw (ApiError 400 "Invalid or expired OTP."),
     snd (verifyEmail env world verify_b pending_b))
  /\ verifyUpdateEmailOTP env world change_otp_number
       (snd (verifyUpdateEmailOTP env world change_otp_number alice_otp_live))
     = (Throw (ApiError 400 "Invalid OTP."),
        snd (verifyUpdateEmailOTP env world change_otp_number alice_otp_live))
  /\ verifyForgotPasswordOTP env world reset_otp_number
       (snd (verifyForgotPasswordOTP env world reset_otp_number alice_otp_live))
     = (Throw (ApiError 400 "Invalid OTP."),
        snd (verifyForgotPasswordOTP env world reset_otp_number alice_otp_live)).
Proof.
  split; [|split].
  - destruct (verifyEmail env world verify_b pending_b) as [[resp|e] db'] eqn:E;
      [|vm_compute in E; discriminate].
    apply (proj1 (C8_consumed_otp_is_not_accepted_twice env world verify_b
                    pending_b resp db')).
    + repeat constructor; simpl; intuition discriminate.
    + exact E.
  - destruct (verifyUpdateEmailOTP env world change_otp_number alice_otp_live)
      as [[resp|e] db'] eqn:E; [|vm_compute in E; discriminate].
    apply (proj1 (proj2 (C8_consumed_otp_is_not_accepted_twice env world
                           change_otp_number alice_otp_live resp db'))).
    + discriminate.
    + exact E.
  - destruct (verifyForgotPasswordOTP env world reset_otp_number alice_otp_live)
      as [[resp|e] db'] eqn:E; [|vm_compute in E; discriminate].
    apply (proj2 (proj2 (C8_consumed_otp_is_not_accepted_twice env world
                           reset_otp_number alice_otp_live resp db'))).
    + discriminate.
    + exact E.
Defined.

Lemma C9_witness :
  (exists name s,
     In name ["fullName"; "username"; "password"]
     /\ field register_blank_name name = JStr s /\ trim s = "")
  /\ some_blank [field register_without_username "fullName";
                 field register_without_username "username";
                 field register_without_username "password"] = Ok false.
Proof.
  split.
  - apply (proj1 (C9_required_field_check_ignores_omitted_fields env world
                    register_blank_name only_alice) only_alice).
    vm_compute. reflexivity.
  - apply (proj2 (C9_required_field_check_ignores_omitted_fields env world
                    register_without_username only_alice)).
    apply Forall_cons; [|apply Forall_cons; [|apply Forall_cons; [|apply Forall_nil]]].
    + right. exists "Bob B". split; [reflexivity|discriminate].
    + left. reflexivity.
    + right. exists "secret2". split; [reflexivity|discriminate].
Defined.

Lemma C10_witness :
  verifyUpdateEmailOTP env world change_otp_string alice_otp_live
  = (Throw (ApiError 400 "Invalid OTP."), alice_otp_live)
  /\ verifyForgotPasswordOTP env world reset_otp_string alice_otp_live
     = (Throw (ApiError 400 "Invalid OTP."), alice_otp_live)
  /\ map userSchema.updateEmailOTP (users alice_otp_live) = [Val 123456]
  /\ map userSchema.forgotPasswordOTP (users alice_otp_live) = [Val 123456].
Proof.
  split; [|split; [|split; reflexivity]].
  - apply (proj1 (C10_string_otp_is_always_invalid env world change_otp_string
                    alice_otp_live (JStr "c@x.com") "123456"
                    (User.set_updateEmail (Val 123456) (Val (now + 60000))
                       (User.set_forgotPassword (Val 123456) (Val (now + 60000))
                          alice)))); reflexivity.
  - apply (proj2 (C10_string_otp_is_always_invalid env world reset_otp_string
                    alice_otp_live (JStr "a@x.com") "123456"
                    (User.set_updateEmail (Val 123456) (Val (now + 60000))
                       (User.set_forgotPassword (Val 123456) (Val (now + 60000))
                          alice)))); reflexivity.
Defined.

(** * Further properties *)

(** ** One-time codes and registrations *)

(** *** Rounding to a Number *)

Lemma roundTiesToEven_floor (q : Q) :
  Qfloor q <= roundTiesToEven q <= Qfloor q + 1.
Proof.
  unfold roundTiesToEven. destruct (_ ?= _)%Q; [destruct (Z.even _)| |]; lia.
Qed.

Lemma roundTiesToEven_nonneg (q : Q) : (0 <= q)%Q -> 0 <= roundTiesToEven q.
Proof.
  intros H. apply Z.le_trans with (Qfloor q); [|apply roundTiesToEven_floor].
  rewrite <- (Qfloor_Z 0). now apply Qfloor_resp_le.
Qed.

Lemma roundTiesToEven_le (q : Q) (k : Z) :
  (q <= inject_Z k)%Q -> roundTiesToEven q <= k.
Proof.
  intros H. pose proof (Qfloor_resp_le _ _ H) as Hf. rewrite Qfloor_Z in Hf.
  destruct (Z.eq_dec (Qfloor q) k) as [E|E];
    [|pose proof (roundTiesToEven_floor q); lia].
  assert (Hq : (q == inject_Z k)%Q).
  { apply Qle_antisym; [exact H|]. rewrite <- E. apply Qfloor_le. }
  unfold roundTiesToEven. rewrite E.
  assert (Hc : (q - inject_Z k ?= 1 # 2)%Q = Lt).
  { apply (proj1 (Qlt_alt _ _)). revert Hq. generalize (inject_Z k). intros z Hq. lra. }
  rewrite Hc. lia.
Qed.

Lemma roundTiesToEven_below_half (q : Q) (k : Z) :
  (q < inject_Z k - (1 # 2))%Q -> roundTiesToEven q <= k - 1.
Proof.
  intros H.
  assert (Hf : Qfloor q <= k - 1).
  { assert (Hf : (inject_Z (Qfloor q) < inject_Z k)%Q).
    { apply Qle_lt_trans with q; [apply Qfloor_le|].
      revert H. generalize (inject_Z k). intros z H. lra. }
    rewrite <- Zlt_Qlt in Hf. lia. }
  destruct (Z.eq_dec (Qfloor q) (k - 1)) as [E|E];
    [|pose proof (roundTiesToEven_floor q); lia].
  unfold roundTiesToEven. rewrite E.
  assert (Hc : (q - inject_Z (k - 1) ?= 1 # 2)%Q = Lt).
  { apply (proj1 (Qlt_alt _ _)). unfold Z.sub. rewrite inject_Z_plus.
    replace (inject_Z (- (1))) with (- (1))%Q by reflexivity.
    revert H. generalize (inject_Z k). intros z H. lra. }
  rewrite Hc. lia.
Qed.

Lemma binary64_round_nonneg (q : Q) :
  (0 <= q)%Q -> binary64_round q = binary64_round_pos q.
Proof.
  intros H. unfold binary64_round. apply Qle_bool_iff in H. now rewrite H.
Qed.

Lemma inject_pow2_pos (k : Z) : 0 <= k -> (0 < inject_Z (2 ^ k))%Q.
Proof.
  intros H. change 0%Q with (inject_Z 0). rewrite <- Zlt_Qlt.
  now apply Z.pow_pos_nonneg.
Qed.

(** The exponent is chosen so that the scaled value has at most 53 bits. *)
Lemma scaled_below (n : Q) :
  (0 <= n)%Q ->
  (n < inject_Z (2 ^ (Z.max 0 (Z.log2 (Qfloor n) - 52) + 53)))%Q.
Proof.
  intros H. set (s := Z.max 0 (Z.log2 (Qfloor n) - 52)).
  assert (H0 : 0 <= Qfloor n).
  { rewrite <- (Qfloor_Z 0). now apply Qfloor_resp_le. }
  assert (Hs : Qfloor n + 1 <= 2 ^ (s + 53)).
  { destruct (Z.eq_dec (Qfloor n) 0) as [E|E].
    - rewrite E. assert (0 < 2 ^ (s + 53)) by (apply Z.pow_pos_nonneg; lia). lia.
    - assert (Hlog : Qfloor n < 2 ^ Z.succ (Z.log2 (Qfloor n)))
        by (apply Z.log2_spec; lia).
      assert (2 ^ Z.succ (Z.log2 (Qfloor n)) <= 2 ^ (s + 53))
        by (apply Z.pow_le_mono_r; lia).
      lia. }
  apply Qlt_le_trans with (inject_Z (Qfloor n + 1)); [apply Qlt_floor|].
  now rewrite <- Zle_Qle.
Qed.

Lemma significand_bounds (n : Q) :
  (0 <= n)%Q ->
  let s := Z.max 0 (Z.log2 (Qfloor n) - 52) in
  0 <= roundTiesToEven (n / inject_Z (2 ^ s)) <= 2 ^ 53.
Proof.
  intros H s. assert (Hs : 0 <= s) by (unfold s; lia).
  pose proof (inject_pow2_pos s Hs) as Hp. split.
  - apply roundTiesToEven_nonneg. apply Qle_shift_div_l; [exact Hp|].
    now rewrite Qmult_0_l.
  - apply roundTiesToEven_le. apply Qlt_le_weak.
    apply Qlt_shift_div_r; [exact Hp|]. rewrite <- inject_Z_mult, <- Z.pow_add_r by lia.
    rewrite Z.add_comm. now apply scaled_below.
Qed.

(** A double below one is at most [1 - 2^-53]. *)
Lemma binary64_below_one (x : Q) :
  binary64 x -> (0 <= x)%Q -> (x < 1)%Q ->
  (x * inject_Z (2 ^ 1074) <= inject_Z (2 ^ 1074 - 2 ^ 1021))%Q.
Proof.
  unfold binary64. intros Hx H0 H1. rewrite (binary64_round_nonneg x H0) in Hx.
  unfold binary64_round_pos in Hx.
  set (n := (x * inject_Z (2 ^ 1074))%Q) in *.
  set (s := Z.max 0 (Z.log2 (Qfloor n) - 52)) in *.
  set (M := roundTiesToEven (n / inject_Z (2 ^ s))) in *.
  pose proof (inject_pow2_pos 1074 ltac:(lia)) as HP.
  assert (Hn : (n == inject_Z (M * 2 ^ s))%Q).
  { unfold n. rewrite <- Hx at 1. field. intros E. rewrite E in HP.
    now apply Qlt_irrefl in HP. }
  assert (HF : Qfloor n = M * 2 ^ s) by (rewrite Hn; apply Qfloor_Z).
  assert (Hlt : M * 2 ^ s < 2 ^ 1074).
  { rewrite Zlt_Qlt, <- Hn. unfold n.
    setoid_replace (inject_Z (2 ^ 1074)) with (1 * inject_Z (2 ^ 1074))%Q at 2
      by ring.
    now apply Qmult_lt_compat_r. }
  rewrite Hn, <- Zle_Qle.
  destruct (Z.le_gt_cases (M * 2 ^ s) (2 ^ 1073)) as [Hsmall|Hbig].
  - apply Z.le_trans with (2 ^ 1073); [exact Hsmall|].
    change (2 ^ 1074) with (2 * 2 ^ 1073).
    assert (2 ^ 1021 <= 2 ^ 1073) by (apply Z.pow_le_mono_r; lia). lia.
  - assert (Hlog : Z.log2 (M * 2 ^ s) = 1073).
    { apply Z.log2_unique; [lia|]. split; [lia|exact Hlt]. }
    assert (Es : s = 1021) by (unfold s; rewrite HF, Hlog; reflexivity).
    rewrite Es in *.
    assert (HM : M < 2 ^ 53).
    { apply Z.mul_lt_mono_pos_r with (2 ^ 1021); [now apply Z.pow_pos_nonneg|].
      now rewrite <- Z.pow_add_r by lia. }
    replace (2 ^ 1074 - 2 ^ 1021) with ((2 ^ 53 - 1) * 2 ^ 1021)
      by (rewrite Z.mul_sub_distr_r, <- Z.pow_add_r by lia; now rewrite Z.mul_1_l).
    apply Z.mul_le_mono_nonneg_r; [apply Z.pow_nonneg|]; lia.
Qed.

(** The product of a double below one with 900000, rounded, stays below
    900000: the largest product lies more than half a unit in the last
    place under it. *)
Lemma Number_mul_below (x : Q) :
  binary64 x -> (0 <= x)%Q -> (x < 1)%Q ->
  (0 <= Number_mul x (inject_Z 900000))%Q
  /\ (Number_mul x (inject_Z 900000) < inject_Z 900000)%Q.
Proof.
  intros Hx H0 H1. pose proof (binary64_below_one x Hx H0 H1) as Htop.
  unfold Number_mul.
  assert (Hp : (0 <= x * inject_Z 900000)%Q)
    by (apply Qmult_le_0_compat; [exact H0|discriminate]).
  rewrite (binary64_round_nonneg _ Hp). unfold binary64_round_pos.
  set (n := (x * inject_Z 900000 * inject_Z (2 ^ 1074))%Q).
  set (s := Z.max 0 (Z.log2 (Qfloor n) - 52)).
  set (M := roundTiesToEven (n / inject_Z (2 ^ s))).
  pose proof (inject_pow2_pos 1074 ltac:(lia)) as HP.
  assert (Hn0 : (0 <= n)%Q)
    by (apply Qmult_le_0_compat; [exact Hp|now apply Qlt_le_weak]).
  assert (Hs0 : 0 <= s) by (unfold s; lia).
  pose proof (significand_bounds n Hn0) as HM. cbn zeta in HM. fold s M in HM.
  assert (Hntop : (n <= inject_Z (900000 * (2 ^ 1074 - 2 ^ 1021)))%Q).
  { unfold n. rewrite inject_Z_mult.
    setoid_replace (x * inject_Z 900000 * inject_Z (2 ^ 1074))%Q
      with (inject_Z 900000 * (x * inject_Z (2 ^ 1074)))%Q by ring.
    apply Qmult_le_l; [reflexivity|exact Htop]. }
  assert (Hs : s <= 1041).
  { unfold s. apply Z.max_lub; [lia|].
    destruct (Z.eq_dec (Qfloor n) 0) as [E|E]; [rewrite E; simpl; lia|].
    assert (HF : 0 < Qfloor n).
    { assert (0 <= Qfloor n); [|lia]. rewrite <- (Qfloor_Z 0).
      now apply Qfloor_resp_le. }
    assert (Z.log2 (Qfloor n) < 1094); [|lia].
    apply Z.log2_lt_pow2; [exact HF|].
    rewrite Zlt_Qlt. apply Qle_lt_trans with n; [apply Qfloor_le|].
    apply Qle_lt_trans with (1 := Hntop). rewrite <- Zlt_Qlt.
    vm_compute. reflexivity. }
  split.
  - apply Qle_shift_div_l; [exact HP|]. rewrite Qmult_0_l.
    change 0%Q with (inject_Z 0). rewrite <- Zle_Qle.
    apply Z.mul_nonneg_nonneg; [lia|now apply Z.pow_nonneg].
  - apply Qlt_shift_div_r; [exact HP|]. rewrite <- inject_Z_mult, <- Zlt_Qlt.
    destruct (Z.eq_dec s 1041) as [E|E].
    + assert (HM' : M <= 900000 * 2 ^ 33 - 1).
      { apply roundTiesToEven_below_half. fold s. rewrite E.
        apply Qlt_shift_div_r; [now apply inject_pow2_pos|].
        apply Qle_lt_trans with (1 := Hntop).
        vm_compute. reflexivity. }
      rewrite E. apply Z.le_lt_trans with ((900000 * 2 ^ 33 - 1) * 2 ^ 1041).
      * apply Z.mul_le_mono_nonneg_r; [now apply Z.pow_nonneg|exact HM'].
      * vm_compute. reflexivity.
    + apply Z.le_lt_trans with (2 ^ 53 * 2 ^ 1040).
      * apply Z.mul_le_mono_nonneg; [lia|lia|now apply Z.pow_nonneg|].
        apply Z.pow_le_mono_r; lia.
      * vm_compute. reflexivity.
Qed.

(** X1: when [Math.random()] returns a Number in its range, zero
    included and one excluded, the code
    [Math.floor(Math.random() * 900000) + 100000] that the three issuing
    steps store and mail has exactly six digits, with the product rounded
    as binary64 rounds it. *)
Theorem X1_otp_has_six_digits (w : Env) :
  binary64 (Math_random w) ->
  unit_interval (Math_random w) ->
  100000 <= randomOTP w <= 999999.
Proof.
  intros Hx [H0 H1]. unfold randomOTP, Math_floor.
  destruct (Number_mul_below (Math_random w) Hx H0 H1) as [Hlo Hhi].
  set (r := Number_mul (Math_random w) (inject_Z 900000)) in *.
  assert (Hf0 : 0 <= Qfloor r).
  { rewrite <- (Qfloor_Z 0). now apply Qfloor_resp_le. }
  assert (Hf1 : Qfloor r < 900000).
  { rewrite Zlt_Qlt. apply Qle_lt_trans with r; [apply Qfloor_le|exact Hhi]. }
  lia.
Qed.

(** What [emailRegistration] does, case by case. *)
Lemma emailRegistration_cases env w req db r db' :
  emailRegistration env w req db = (r, db') ->
  (db' = db /\ exists e, r = Throw e)
  \/ (db' = registered w (field req "email") db
      /\ truthy (field req "email") = true
      /\ ((mail w = None
           /\ exists resp, r = Ok resp
                /\ data resp = DToken (generateToken env (Date_now w)
                                         (field req "email")))
          \/ (exists m, mail w = Some m
                /\ r = Throw (ApiError 500
                         ("Error while sending verification email: " ++ m))))).
Proof.
  unfold emailRegistration, bind, lift.
  destruct (missing_or_blank (field req "email")) as [blank|e] eqn:Eb;
    [|intros [= <- <-]; left; eauto].
  destruct blank; [intros [= <- <-]; left; eauto|]. cbn [throw_if ret].
  destruct (negb (RegExp.test emailPattern (field req "email")));
    [intros [= <- <-]; left; eauto|].
  cbn [throw_if ret User.findOne].
  destruct (find _ (users db)); [intros [= <- <-]; left; eauto|].
  cbn [isSome throw_if ret try_catch Registration.findOneAndDelete
       Registration.create Registration.save_verificationOTP users registrations
       registrationSchema._id registrationSchema.email].
  rewrite registration_replace_last;
    [|intros v Hv; simpl; apply registration_freshId_gt in Hv; lia|reflexivity].
  apply missing_or_blank_truthy in Eb.
  unfold sendMail. destruct (mail w) as [m|] eqn:Em.
  - intros [= <- <-]. right. split; [reflexivity|]. split; [exact Eb|].
    right. exists m. split; reflexivity.
  - intros [= <- <-]. right. split; [reflexivity|]. split; [exact Eb|].
    left. split; [reflexivity|]. eexists. split; reflexivity.
Qed.

Lemma find_app_last {A : Type} (p : A -> bool) (l : list A) (d : A) :
  find p l = None -> p d = true -> find p (l ++ [d]) = Some d.
Proof.
  induction l as [|v r IH]; simpl; intros Hl Hd; [now rewrite Hd|].
  destruct (p v); [discriminate|]. now apply IH.
Qed.

Lemma find_app_some {A : Type} (p : A -> bool) (l : list A) (d : A) :
  p d = true -> exists x, find p (l ++ [d]) = Some x.
Proof.
  intros Hd. induction l as [|v r IH]; simpl; [rewrite Hd; eauto|].
  destruct (p v); eauto.
Qed.

Lemma find_pointwise {A : Type} (p q : A -> bool) (l : list A) :
  (forall x, p x = q x) -> find p l = find q l.
Proof.
  intros H. induction l as [|v r IH]; simpl; [reflexivity|].
  now rewrite H, IH.
Qed.

Lemma pending_matches (w : Env) (email : JsVal) (db : Db) :
  truthy email = true ->
  Registration.emailMatches email (pending w email db) = true.
Proof.
  intros He. unfold Registration.emailMatches, pending. simpl.
  destruct email; try discriminate; apply String.eqb_refl.
Qed.

Lemma find_removeFirst_email_none (q : JsVal) (l : list registrationSchema.doc) :
  NoDup (map registrationSchema.email l) ->
  find (Registration.emailMatches q)
    (Registration.removeFirst (Registration.emailMatches q) l) = None.
Proof.
  intros Hnd. pose proof (find_removeFirst_email q (fun _ => true) l Hnd) as H.
  rewrite <- H. apply find_pointwise. intros d. now rewrite andb_true_r.
Qed.

(** X2: [emailRegistration] and [verifyEmail] keep at most one
    registration per email, whether they succeed or throw; and when
    [emailRegistration] succeeds the one registration of the email is the
    new one, with the OTP that was mailed. *)
Theorem X2_one_registration_per_email env w req db :
  one_registration_per_email db ->
  one_registration_per_email (snd (emailRegistration env w req db))
  /\ one_registration_per_email (snd (verifyEmail env w req db))
  /\ (forall resp db',
        emailRegistration env w req db = (Ok resp, db') ->
        find (Registration.emailMatches (field req "email")) (registrations db')
        = Some (pending w (field req "email") db)
        /\ registrationSchema.verificationOTP (pending w (field req "email") db)
           = Val (randomOTP w)).
Proof.
  intros Hone. split; [|split].
  - now apply emailRegistration_one_registration_per_email.
  - now apply verifyEmail_one_registration_per_email.
  - intros resp db' H.
    apply emailRegistration_cases in H as [[_ [e He]]|(-> & Ht & _)];
      [discriminate|].
    split; [|reflexivity]. cbn [registered registrations].
    apply find_app_last; [now apply find_removeFirst_email_none|].
    now apply pending_matches.
Qed.

(** X3: the two first steps of a registration compose.  When
    [emailRegistration] has succeeded, [verifyEmail] presented with the
    token it returned and the code it stored succeeds as long as the
    token has not expired: it returns a new token for the same email,
    leaves the users alone and, where there was at most one registration
    per email, leaves no registration for the email. *)
Theorem X3_registration_steps_compose env w w' req req' db resp db1 :
  emailRegistration env w req db = (Ok resp, db1) ->
  Date_now w' / 1000 < Date_now w / 1000 + JWT_EXPIRY env ->
  or_token (cookie req' "emailToken") (authorization req')
  = Some (generateToken env (Date_now w) (field req "email")) ->
  field req' "verificationOTP" = JNum (randomOTP w) ->
  exists resp' db2,
    data resp = DToken (generateToken env (Date_now w) (field req "email"))
    /\ verifyEmail env w' req' db1 = (Ok resp', db2)
    /\ data resp'
       = DVerified (field req "email")
           (generateToken env (Date_now w') (field req "email"))
    /\ users db2 = users db
    /\ (one_registration_per_email db ->
        find (Registration.emailMatches (field req "email")) (registrations db2)
        = None).
Proof.
  intros H Hlt Htok Hotp.
  pose proof (emailRegistration_one_registration_per_email env w req db) as Hinv.
  rewrite H in Hinv. cbn [snd] in Hinv.
  apply emailRegistration_cases in H as [[_ [e He]]|(-> & Ht & Hm)];
    [discriminate|].
  destruct Hm as [(Hm & resp0 & Hr & Hd)|(m & _ & Hr)]; [|discriminate].
  apply Ok_inj in Hr. subst resp0.
  unfold verifyEmail, bind. rewrite Htok.
  rewrite (decodeEmail_generateToken env w w' _ _ Ht Hlt).
  unfold Registration.findOne. rewrite Hotp.
  destruct (find_app_some
              (fun d => Registration.emailMatches (field req "email") d
                        && Registration.otpMatches (JNum (randomOTP w))
                             (registrationSchema.verificationOTP d))
              (Registration.removeFirst
                 (Registration.emailMatches (field req "email")) (registrations db))
              (pending w (field req "email") db)) as [x Hx].
  { rewrite pending_matches by exact Ht. simpl. apply Z.eqb_refl. }
  cbn [registered registrations]. rewrite Hx.
  cbn [isSome negb throw_if ret try_catch Registration.findOneAndDelete].
  do 2 eexists. split; [exact Hd|]. split; [reflexivity|].
  split; [reflexivity|]. split; [reflexivity|].
  intros Hone. cbn [registrations users registered].
  apply find_removeFirst_email_none. exact (Hinv Hone).
Qed.

(** *** Failing store calls *)

(** Over the store that answers every call the four handlers are the
    handlers above. *)
Lemma handlers_over_reliable env w req :
  emailRegistration_over reliable env w req = emailRegistration env w req
  /\ verifyEmail_over reliable env w req = verifyEmail env w req
  /\ verifyUpdateEmailOTP_over reliable env w req = verifyUpdateEmailOTP env w req
  /\ verifyForgotPasswordOTP_over reliable env w req
     = verifyForgotPasswordOTP env w req.
Proof. repeat split. Qed.


(** ** Completing a registration, continued *)

Lemma castString_Val (v : JsVal) (s : string) :
  User.castString v = Val s -> s = ToString v.
Proof. destruct v; simpl; intros H; try discriminate; now injection H. Qed.

Lemma isRequired_Val (v : Stored string) :
  User.isRequired v = true -> exists s, v = Val s /\ s <> "".
Proof.
  destruct v as [| |s]; simpl; try discriminate. intros H.
  exists s. split; [reflexivity|]. intros ->. discriminate.
Qed.

(** What [User.create] does: it throws and writes nothing, or appends one
    document that no unique index rules out. *)
Lemma create_cases fullName bio avatar coverImage email password username db r db' :
  User.create fullName bio avatar coverImage email password username db = (r, db') ->
  (db' = db /\ exists e, r = Throw e)
  \/ exists u,
       r = Ok u
       /\ db' = {| users := (users db ++ [u])%list; registrations := registrations db |}
       /\ userSchema._id u = User.freshId (users db)
       /\ userSchema.username u = userSchema.lowercase_trim username
       /\ userSchema.email u = userSchema.lowercase_trim (ToString email)
       /\ userSchema.password u = Bcrypt.hash (ToString password)
       /\ User.castString password = Val (ToString password)
       /\ userSchema.refreshToken u = Absent
       /\ (forall v, In v (users db) ->
             userSchema.email v <> userSchema.email u
             /\ userSchema.username v <> userSchema.username u).
Proof.
  unfold User.create.
  destruct (negb _) eqn:Ev; [intros [= <- <-]; left; eauto|].
  apply negb_false_iff in Ev.
  repeat (apply andb_true_iff in Ev; destruct Ev as [Ev ?]).
  match goal with |- context [existsb ?f ?l] => destruct (existsb f l) eqn:Ex end;
    [intros [= <- <-]; left; eauto|].
  intros [= <- <-]. right. eexists. split; [reflexivity|].
  split; [reflexivity|]. cbn.
  match goal with
  | H : User.isRequired (User.castString password) = true |- _ =>
      apply isRequired_Val in H as (pw & Hpw & Hne);
      pose proof (castString_Val _ _ Hpw) as Hs; rewrite Hpw
  end.
  match goal with
  | H : User.isRequired (match User.castString email with _ => _ end) = true |- _ =>
      apply isRequired_Val in H as (em & Hem & _);
      destruct (User.castString email) as [| |e0] eqn:Ece; try discriminate;
      pose proof (castString_Val _ _ Ece) as Hse; injection Hem as <-
  end.
  cbn. subst. repeat split; try reflexivity; try assumption.
  - intros Heq.
    assert (Hf := existsb_exists
                    (fun v0 => (String.eqb (userSchema.email v0)
                                  (userSchema.lowercase_trim (ToString email))
                                || String.eqb (userSchema.username v0)
                                     (userSchema.lowercase_trim username))%bool)
                    (users db)).
    cbn in Ex. rewrite Ex in Hf.
    assert (Hex : false = true); [|discriminate].
    apply Hf. exists v. split; [assumption|].
    rewrite Heq, String.eqb_refl. reflexivity.
  - intros Heq.
    assert (Hf := existsb_exists
                    (fun v0 => (String.eqb (userSchema.email v0)
                                  (userSchema.lowercase_trim (ToString email))
                                || String.eqb (userSchema.username v0)
                                     (userSchema.lowercase_trim username))%bool)
                    (users db)).
    cbn in Ex. rewrite Ex in Hf.
    assert (Hex : false = true); [|discriminate].
    apply Hf. exists v. split; [assumption|].
    rewrite Heq, String.eqb_refl. apply orb_true_r.
Qed.

Lemma find_fresh_last (l : list userSchema.doc) (u : userSchema.doc) :
  userSchema._id u = User.freshId l ->
  find (User.hasId (userSchema._id u)) (l ++ [u]) = Some u.
Proof.
  intros Hu. apply find_app_last.
  - destruct (find _ l) as [v|] eqn:F; [|reflexivity].
    apply find_some in F as [Hin Hv]. apply Nat.eqb_eq in Hv.
    apply user_freshId_gt in Hin. lia.
  - unfold User.hasId. apply Nat.eqb_refl.
Qed.

(** What [registerUser] does: it throws and writes nothing, or answers
    201 and has appended the user it returns. *)
Lemma registerUser_cases env w req db r db' :
  registerUser env w req db = (r, db') ->
  (db' = db /\ exists e, r = Throw e)
  \/ exists email name u,
       fst (decodeEmail env w
              (or_token (cookie req "verifiedEmailToken") (authorization req)) db)
       = Ok email
       /\ field req "username" = JStr name
       /\ db' = {| users := (users db ++ [u])%list;
                   registrations := registrations db |}
       /\ r = Ok {| status := 201;
                    cookie_set := [];
                    cookie_cleared := ["verifiedEmailToken"];
                    data := DSelected (userSchema.select u);
                    message := "User registered successfully!" |}
       /\ userSchema._id u = User.freshId (users db)
       /\ userSchema.username u = userSchema.lowercase_trim (toLowerCase name)
       /\ userSchema.email u = userSchema.lowercase_trim (ToString email)
       /\ userSchema.password u = Bcrypt.hash (ToString (field req "password"))
       /\ (exists pw, field req "password" = JStr pw)
       /\ userSchema.refreshToken u = Absent
       /\ (forall v, In v (users db) ->
             userSchema.email v <> userSchema.email u
             /\ userSchema.username v <> userSchema.username u).
Proof.
  unfold registerUser, bind.
  rewrite (decodeEmail_db env w _ db db).
  destruct (fst (decodeEmail env w _ db)) as [email|e] eqn:Ed;
    [|intros [= <- <-]; left; eauto].
  unfold lift.
  destruct (some_blank _) as [blank|e] eqn:Eb;
    [|intros [= <- <-]; left; eauto].
  destruct blank; [intros [= <- <-]; left; eauto|]. cbn [throw_if ret].
  destruct (negb (RegExp.test usernamePattern (field req "username")));
    [intros [= <- <-]; left; eauto|].
  cbn [throw_if ret User.findOne].
  destruct (find _ (users db)) eqn:Ef; [intros [= <- <-]; left; eauto|].
  cbn [isSome throw_if ret]. rewrite Ef. cbn [isSome throw_if ret].
  destruct (method_toLowerCase (field req "username")) as [lowered|e] eqn:El;
    [|intros [= <- <-]; left; eauto].
  destruct (User.create _ _ _ _ _ _ _ db) as [rc dbc] eqn:Ec.
  apply create_cases in Ec.
  destruct Ec as [Ec|Ec].
  { destruct Ec as (-> & e & ->). intros [= <- <-]. left. eauto. }
  destruct Ec as (u & -> & -> & Hid & Hun & Hem & Hpw & Hne & Hrt & Hnew).
  unfold User.findById. cbn [users].
  rewrite find_fresh_last by exact Hid.
  intros [= <- <-]. right.
  destruct (field req "username") as [| | | |name] eqn:En; try discriminate.
  injection El as <-.
  exists email, name, u. repeat split; try assumption; try reflexivity;
    try (now apply Hnew).
  cbn [some_blank] in Eb.
  destruct (field req "fullName"); simpl in Eb; try discriminate;
    try (destruct (String.eqb (trim _) ""); [discriminate|]);
    (destruct (field req "password") as [| | | |pw]; simpl in Eb, Hne;
     try discriminate; eauto;
     destruct (String.eqb (trim _) ""); discriminate).
Qed.

(** X5: a successful [registerUser] answers 201 and has added exactly one
    user, the one it returns without password and refresh token: the
    stored password is the digest of the password of the request, which
    [isPasswordCorrect] accepts; the username is the requested one in
    lower case; no refresh token is stored.  The registrations are left
    alone. *)
Theorem X5_registerUser_adds_one_hashed_user env w req db resp db' :
  registerUser env w req db = (Ok resp, db') ->
  exists u name,
    users db' = (users db ++ [u])%list
    /\ registrations db' = registrations db
    /\ status resp = 201
    /\ data resp = DSelected (userSchema.select u)
    /\ field req "username" = JStr name
    /\ userSchema.username u = userSchema.lowercase_trim (toLowerCase name)
    /\ userSchema.password u = Bcrypt.hash (ToString (field req "password"))
    /\ fst (User.isPasswordCorrect u (field req "password") db') = Ok true
    /\ userSchema.refreshToken u = Absent.
Proof.
  intros H. apply registerUser_cases in H.
  destruct H as [(_ & e & He)|H]; [discriminate|].
  destruct H as (email & name & u & _ & Hn & -> & Hr & _ & Hun & _ & Hpw & (pw & Hp) & Hrt & _).
  apply Ok_inj in Hr. subst resp.
  exists u, name. repeat split; try assumption; try reflexivity.
  unfold User.isPasswordCorrect, lift. cbn [fst].
  rewrite Hp in *. simpl. rewrite Hpw. simpl. now rewrite String.eqb_refl.
Qed.


(** ** Sessions, continued *)

Lemma replaceFirst_found (i : nat) (f : userSchema.doc -> userSchema.doc)
    (l : list userSchema.doc) (u0 : userSchema.doc) :
  find (User.hasId i) l = Some u0 ->
  User.replaceFirst i (fun _ => f u0) l = User.replaceFirst i f l.
Proof.
  induction l as [|v r IH]; simpl; [reflexivity|].
  destruct (User.hasId i v); [now intros [= ->]|].
  intros H. now rewrite IH.
Qed.

(** For a user that exists, [generateAccessAndRefreshTokens] signs the
    pair for it and stores the refresh token on it. *)
Lemma generateAccessAndRefreshTokens_found env w userId db u0 :
  find (User.hasId userId) (users db) = Some u0 ->
  generateAccessAndRefreshTokens env w userId db
  = (Ok (User.generateAccessToken env (Date_now w) u0,
         User.generateRefreshToken env (Date_now w) u0),
     signed_in userId (User.generateRefreshToken env (Date_now w) u0) db).
Proof.
  intros Hf. pose proof (find_hasId_id _ _ _ Hf) as Hid.
  unfold generateAccessAndRefreshTokens, try_catch, bind, User.findById.
  rewrite Hf.
  rewrite (save_plain u0); try reflexivity; [|now rewrite Hid].
  unfold ret, signed_in. rewrite Hid. now rewrite replaceFirst_found.
Qed.

(** For a user that does not exist it answers 500: the 404 it throws is
    caught by its own [catch]. *)
Lemma generateAccessAndRefreshTokens_missing env w userId db :
  find (User.hasId userId) (users db) = None ->
  generateAccessAndRefreshTokens env w userId db
  = (Throw (ApiError 500
       "Something went wrong while generating access and refresh tokens"), db).
Proof.
  intros H.
  unfold generateAccessAndRefreshTokens, try_catch, bind, User.findById.
  now rewrite H.
Qed.

(** What [loginUser] does. *)
Lemma loginUser_cases env w req db r db' :
  loginUser env w req db = (r, db') ->
  (db' = db /\ exists e, r = Throw e)
  \/ exists u u0,
       fst (User.findOne
              (User.Or (User.ByEmail (field req "usernameOrEmail"))
                       (User.ByUsername (field req "usernameOrEmail"))) db)
       = Ok (Some u)
       /\ Bcrypt.compare (field req "password") (userSchema.password u) = Ok true
       /\ find (User.hasId (userSchema._id u)) (users db) = Some u0
       /\ db' = signed_in (userSchema._id u)
                  (User.generateRefreshToken env (Date_now w) u0) db
       /\ r = Ok {| status := 200;
                    cookie_set :=
                      [("accessToken", User.generateAccessToken env (Date_now w) u0);
                       ("refreshToken", User.generateRefreshToken env (Date_now w) u0)];
                    cookie_cleared := [];
                    data :=
                      DLogin
                        (Some (userSchema.select
                                 (User.set_refreshToken
                                    (Val (User.generateRefreshToken env (Date_now w) u0))
                                    u0)))
                        (User.generateAccessToken env (Date_now w) u0)
                        (User.generateRefreshToken env (Date_now w) u0);
                    message := "User logged in successfully." |}.
Proof.
  unfold loginUser, bind.
  destruct (negb (truthy (field req "usernameOrEmail")));
    [intros [= <- <-]; left; eauto|]. cbn [throw_if ret].
  destruct (negb (truthy (field req "password")));
    [intros [= <- <-]; left; eauto|]. cbn [throw_if ret User.findOne fst].
  destruct (find _ (users db)) as [u|] eqn:Ef; [|intros [= <- <-]; left; eauto].
  unfold User.isPasswordCorrect, lift.
  destruct (Bcrypt.compare _ _) as [ok|e] eqn:Ec; [|intros [= <- <-]; left; eauto].
  destruct ok; [|intros [= <- <-]; left; eauto]. cbn [negb throw_if ret].
  pose proof (find_some _ _ Ef) as [Hin _].
  destruct (find (User.hasId (userSchema._id u)) (users db)) as [u0|] eqn:E0.
  2:{ exfalso. apply (find_none _ _ E0) in Hin. unfold User.hasId in Hin.
      now rewrite Nat.eqb_refl in Hin. }
  rewrite (generateAccessAndRefreshTokens_found env w _ db u0 E0).
  unfold User.findById, signed_in. cbn [users fst snd].
  rewrite find_replaceFirst by reflexivity. rewrite E0. cbn [option_map].
  intros [= <- <-]. right. exists u, u0. repeat split; assumption.
Qed.

Lemma signed_in_passwords (i : nat) (r : Jwt.Token) (db : Db) :
  map userSchema.password (users (signed_in i r db))
  = map userSchema.password (users db)
  /\ map userSchema.email (users (signed_in i r db))
     = map userSchema.email (users db)
  /\ map userSchema.username (users (signed_in i r db))
     = map userSchema.username (users db).
Proof.
  unfold signed_in. cbn [users].
  induction (users db) as [|v l IH]; simpl; [auto|].
  destruct (User.hasId i v); simpl; [auto|].
  destruct IH as (-> & -> & ->). auto.
Qed.

(** X7: [generateAccessAndRefreshTokens] fails exactly when no user has
    the given id, and then always with status 500: the 404 "User not
    found" it throws is caught by its own [catch] and never reaches the
    caller.  A failure writes nothing. *)
Theorem X7_token_generation_fails_only_without_user env w userId db :
  (fst (User.findById (Some userId) db) = Ok None ->
   generateAccessAndRefreshTokens env w userId db
   = (Throw (ApiError 500
        "Something went wrong while generating access and refresh tokens"), db))
  /\ (forall e db',
        generateAccessAndRefreshTokens env w userId db = (Throw e, db') ->
        fst (User.findById (Some userId) db) = Ok None
        /\ e = ApiError 500
                 "Something went wrong while generating access and refresh tokens"
        /\ db' = db).
Proof.
  unfold User.findById. cbn [fst]. split.
  - intros H. apply Ok_inj in H.
    now apply generateAccessAndRefreshTokens_missing.
  - intros e db' H.
    destruct (find (User.hasId userId) (users db)) as [u0|] eqn:Ef.
    + rewrite (generateAccessAndRefreshTokens_found env w _ db u0 Ef) in H.
      discriminate.
    + rewrite (generateAccessAndRefreshTokens_missing env w _ db Ef) in H.
      injection H as <- <-. auto.
Qed.

(** X8: a successful [loginUser] found a user by the identifier whose
    stored digest accepts the password; it answers with a refresh token
    that names this user and is signed at the time of the request, stores
    exactly this token on the user, and leaves every password, email and
    username as it was: the [pre("save")] hook does not hash again. *)
Theorem X8_login_stores_the_token_it_returns env w req db resp db' :
  loginUser env w req db = (Ok resp, db') ->
  exists u a r,
    fst (User.findOne
           (User.Or (User.ByEmail (field req "usernameOrEmail"))
                    (User.ByUsername (field req "usernameOrEmail"))) db)
    = Ok (Some u)
    /\ fst (User.isPasswordCorrect u (field req "password") db) = Ok true
    /\ cookie_set resp = [("accessToken", a); ("refreshToken", r)]
    /\ r = Jwt.sign (Jwt.PRefresh (userSchema._id u)) (REFRESH_TOKEN_SECRET env)
             (REFRESH_TOKEN_EXPIRY env) (Date_now w)
    /\ db' = signed_in (userSchema._id u) r db
    /\ (exists u', fst (User.findById (Some (userSchema._id u)) db') = Ok (Some u')
                   /\ userSchema.refreshToken u' = Val r)
    /\ map userSchema.password (users db') = map userSchema.password (users db)
    /\ map userSchema.email (users db') = map userSchema.email (users db)
    /\ map userSchema.username (users db') = map userSchema.username (users db).
Proof.
  intros H. apply loginUser_cases in H.
  destruct H as [(_ & e & He)|(u & u0 & Hu & Hc & H0 & -> & Hr)]; [discriminate|].
  apply Ok_inj in Hr. subst resp.
  pose proof (find_hasId_id _ _ _ H0) as Hid.
  exists u, (User.generateAccessToken env (Date_now w) u0),
    (User.generateRefreshToken env (Date_now w) u0).
  split; [exact Hu|]. split; [exact Hc|]. split; [reflexivity|].
  split; [unfold User.generateRefreshToken; now rewrite Hid|].
  split; [reflexivity|]. split.
  - eexists. unfold User.findById, signed_in. cbn [fst users].
    rewrite find_replaceFirst by reflexivity. rewrite H0. split; reflexivity.
  - apply signed_in_passwords.
Qed.


(** What [refreshAccessToken] does. *)
Lemma refreshAccessToken_cases env w req db r db' :
  refreshAccessToken env w req db = (r, db') ->
  (db' = db /\ exists m, r = Throw (ApiError 401 m))
  \/ exists t p u0,
       present (or_token (body_refreshToken req) (cookie req "refreshToken")) = Some t
       /\ Jwt.verify t (REFRESH_TOKEN_SECRET env) (Date_now w) = Ok p
       /\ fst (User.findById (Jwt._id p) db) = Ok (Some u0)
       /\ userSchema.refreshToken u0 = Val t
       /\ db' = signed_in (userSchema._id u0)
                  (User.generateRefreshToken env (Date_now w) u0) db
       /\ r = Ok {| status := 200;
                    cookie_set :=
                      [("accessToken", User.generateAccessToken env (Date_now w) u0);
                       ("refreshToken", User.generateRefreshToken env (Date_now w) u0)];
                    cookie_cleared := [];
                    data := DTokens (User.generateAccessToken env (Date_now w) u0)
                              (User.generateRefreshToken env (Date_now w) u0);
                    message := "Access token refreshed successfully" |}.
Proof.
  unfold refreshAccessToken, try_catch, bind.
  destruct (present _) as [t|] eqn:Ep; [|intros [= <- <-]; left; eauto].
  unfold lift.
  destruct (Jwt.verify t _ _) as [p|e] eqn:Ev; [|intros [= <- <-]; left; eauto].
  unfold User.findById. cbn [fst].
  destruct (match Jwt._id p with Some i => _ | None => None end) as [u0|] eqn:Eu;
    [|intros [= <- <-]; left; eauto].
  destruct (differs t (userSchema.refreshToken u0)) eqn:Ed;
    [intros [= <- <-]; left; eauto|]. cbn [throw_if ret].
  assert (Hst : userSchema.refreshToken u0 = Val t).
  { unfold differs in Ed. destruct (userSchema.refreshToken u0) as [| |t'];
      try discriminate. apply negb_false_iff in Ed. apply token_eqb_eq in Ed.
    now subst. }
  assert (H0 : find (User.hasId (userSchema._id u0)) (users db) = Some u0).
  { destruct (Jwt._id p) as [i|]; [|discriminate].
    pose proof (find_hasId_id _ _ _ Eu) as <-. exact Eu. }
  rewrite (generateAccessAndRefreshTokens_found env w _ db u0 H0).
  unfold ret. cbn [fst snd]. intros [= <- <-]. right.
  exists t, p, u0. split; [reflexivity|]. split; [exact Ev|].
  split; [now rewrite Eu|]. split; [exact Hst|]. split; reflexivity.
Qed.

(** X10: whatever goes wrong in [refreshAccessToken] is answered 401,
    and a refresh that fails writes nothing. *)
Theorem X10_refresh_failure_is_401_and_writes_nothing env w req db e db' :
  refreshAccessToken env w req db = (Throw e, db') ->
  db' = db /\ statusCode_of e = 401 /\ exists m, e = ApiError 401 m.
Proof.
  intros H. apply refreshAccessToken_cases in H.
  destruct H as [(-> & m & Hm)|(t & p & u0 & _ & _ & _ & _ & _ & Hr)];
    [|discriminate].
  injection Hm as ->. split; [reflexivity|]. split; [reflexivity|]. eauto.
Qed.




(** X12: refreshing rotates.  After a successful refresh with a token
    that was signed in an earlier second, presenting that token again, at
    any time, is answered 401 and writes nothing. *)
Theorem X12_refreshed_token_is_spent env w w2 req req2 db resp db1 p0 s iat exp :
  present (or_token (body_refreshToken req) (cookie req "refreshToken"))
  = Some (Jwt.Signed p0 s iat exp) ->
  iat < Date_now w / 1000 ->
  refreshAccessToken env w req db = (Ok resp, db1) ->
  or_token (body_refreshToken req2) (cookie req2 "refreshToken")
  = Some (Jwt.Signed p0 s iat exp) ->
  exists m, refreshAccessToken env w2 req2 db1 = (Throw (ApiError 401 m), db1).
Proof.
  intros Hp Hiat H Hreq2. apply refreshAccessToken_cases in H.
  destruct H as [(_ & m & Hm)|(t & p & u0 & Ht & Hv & Hu & Hst & -> & _)];
    [discriminate|].
  rewrite Hp in Ht. injection Ht as <-.
  unfold refreshAccessToken, try_catch, bind. rewrite Hreq2.
  cbn [present Jwt.truthy]. unfold lift.
  destruct (Jwt.verify (Jwt.Signed p0 s iat exp) (REFRESH_TOKEN_SECRET env)
              (Date_now w2)) as [p'|e] eqn:Ev2; [|eexists; reflexivity].
  assert (p' = p).
  { unfold Jwt.verify in Hv, Ev2.
    destruct (String.eqb s (REFRESH_TOKEN_SECRET env)); [|discriminate].
    destruct (exp <=? Date_now w / 1000); [discriminate|].
    destruct (exp <=? Date_now w2 / 1000); [discriminate|]. congruence. }
  subst p'. unfold User.findById in *. cbn [fst] in Hu. apply Ok_inj in Hu.
  destruct (Jwt._id p) as [i|]; [|discriminate].
  pose proof (find_hasId_id _ _ _ Hu) as Hid. subst i.
  unfold signed_in. cbn [users].
  rewrite find_replaceFirst by reflexivity. rewrite Hu. cbn [option_map].
  cbn [userSchema.refreshToken User.set_refreshToken differs
       User.generateRefreshToken Jwt.sign Jwt.eqb].
  replace (iat =? Date_now w / 1000) with false by (symmetry; apply Z.eqb_neq; lia).
  rewrite !andb_false_r. cbn [andb negb throw_if throw]. eexists. reflexivity.
Qed.

(** ** Passwords *)

Lemma save_password_found (p : string) (u : userSchema.doc) db :
  find (User.hasId (userSchema._id u)) (users db) = Some u ->
  User.save (User.set_password p u) db
  = (Ok (with_password p u),
     {| users := User.replaceFirst (userSchema._id u)
                   (fun _ => with_password p u) (users db);
        registrations := registrations db |}).
Proof.
  intros Hf. unfold User.save, with_password.
  cbn [userSchema._id userSchema.password userSchema.email userSchema.username
       User.set_password].
  rewrite Hf, !String.eqb_refl. reflexivity.
Qed.

Lemma hash_accepts (p : string) : Bcrypt.compare (JStr p) (Bcrypt.hash p) = Ok true.
Proof. simpl. now rewrite String.eqb_refl. Qed.

Lemma with_password_accepts (p : string) (u : userSchema.doc) :
  p <> userSchema.password u ->
  userSchema.password (with_password p u) = Bcrypt.hash p.
Proof.
  intros Hne. unfold with_password.
  destruct (String.eqb p (userSchema.password u)) eqn:E; [|reflexivity].
  now apply String.eqb_eq in E.
Qed.

Lemma with_password_rest (p : string) (u : userSchema.doc) :
  userSchema._id (with_password p u) = userSchema._id u
  /\ userSchema.email (with_password p u) = userSchema.email u
  /\ userSchema.username (with_password p u) = userSchema.username u
  /\ userSchema.refreshToken (with_password p u) = userSchema.refreshToken u
  /\ userSchema.forgotPasswordOTP (with_password p u) = userSchema.forgotPasswordOTP u
  /\ userSchema.updateEmailOTP (with_password p u) = userSchema.updateEmailOTP u.
Proof. unfold with_password. destruct (String.eqb _ _); repeat split. Qed.

(** What [changeCurrentPassword] does. *)
Lemma changeCurrentPassword_cases req db r db' :
  changeCurrentPassword req db = (r, db') ->
  (db' = db /\ exists e, r = Throw e)
  \/ exists u p,
       fst (User.findById (Some (user req)) db) = Ok (Some u)
       /\ field req "newPassword" = field req "confirmNewPassword"
       /\ Bcrypt.compare (field req "oldPassword") (userSchema.password u) = Ok true
       /\ User.castString (field req "newPassword") = Val p
       /\ db' = {| users := User.replaceFirst (user req)
                              (fun _ => with_password p u) (users db);
                   registrations := registrations db |}
       /\ r = Ok {| status := 200; cookie_set := []; cookie_cleared := [];
                    data := DEmpty;
                    message := "Password changed successfully." |}.
Proof.
  unfold changeCurrentPassword, bind.
  destruct (strict_eq (field req "newPassword") (field req "confirmNewPassword"))
    eqn:Eq; [|intros [= <- <-]; left; eauto].
  apply strict_eq_eq in Eq. cbn [negb throw_if ret User.findById].
  destruct (find _ (users db)) as [u|] eqn:Ef; [|intros [= <- <-]; left; eauto].
  pose proof (find_hasId_id _ _ _ Ef) as Hid.
  unfold User.isPasswordCorrect, lift.
  destruct (Bcrypt.compare _ _) as [ok|e] eqn:Ec; [|intros [= <- <-]; left; eauto].
  destruct ok; [|intros [= <- <-]; left; eauto]. cbn [negb throw_if ret].
  unfold save_password.
  destruct (User.castString (field req "newPassword")) as [| |p] eqn:Ecs;
    try (intros [= <- <-]; left; eauto).
  rewrite save_password_found by (now rewrite Hid).
  unfold ret. intros [= <- <-]. right. exists u, p.
  split; [unfold User.findById; cbn [fst]; now rewrite Ef|].
  split; [exact Eq|]. split; [exact Ec|].
  split; [reflexivity|]. split; [now rewrite Hid|reflexivity].
Qed.

(** X13: [changeCurrentPassword] writes nothing when it throws; it
    answers 400 when the confirmation differs from the new password, and
    400 when the stored digest does not accept the old password. *)
Theorem X13_changeCurrentPassword_failures req db :
  (forall e db', changeCurrentPassword req db = (Throw e, db') -> db' = db)
  /\ (strict_eq (field req "newPassword") (field req "confirmNewPassword") = false ->
      changeCurrentPassword req db
      = (Throw (ApiError 400 "New password and confirmation password do not match."),
         db))
  /\ (forall u,
        field req "newPassword" = field req "confirmNewPassword" ->
        fst (User.findById (Some (user req)) db) = Ok (Some u) ->
        fst (User.isPasswordCorrect u (field req "oldPassword") db) = Ok false ->
        changeCurrentPassword req db
        = (Throw (ApiError 400 "Invalid old password."), db)).
Proof.
  split; [|split].
  - intros e db' H. apply changeCurrentPassword_cases in H.
    destruct H as [(-> & _)|(u & p & _ & _ & _ & _ & _ & Hr)];
      [reflexivity|discriminate].
  - intros H. unfold changeCurrentPassword, bind. now rewrite H.
  - intros u Heq Hu Hc. unfold changeCurrentPassword, bind.
    rewrite (proj2 (strict_eq_eq _ _) Heq). cbn [negb throw_if ret].
    unfold User.findById in *. cbn [fst] in Hu. apply Ok_inj in Hu. rewrite Hu.
    unfold User.isPasswordCorrect, lift in *. cbn [fst] in Hc. now rewrite Hc.
Qed.

(** X14: a successful [changeCurrentPassword] had the old password
    accepted; afterwards the user's digest accepts the new password (as
    long as the new password is not the text of the old digest), and the
    refresh token stored on the user is the one that was stored before:
    the open sessions stay valid.  Email, username and the OTP fields are
    untouched as well. *)
Theorem X14_changeCurrentPassword_keeps_the_session req db resp db' u :
  fst (User.findById (Some (user req)) db) = Ok (Some u) ->
  ToString (field req "newPassword") <> userSchema.password u ->
  changeCurrentPassword req db = (Ok resp, db') ->
  fst (User.isPasswordCorrect u (field req "oldPassword") db) = Ok true
  /\ exists u',
       fst (User.findById (Some (user req)) db') = Ok (Some u')
       /\ userSchema.password u' = Bcrypt.hash (ToString (field req "newPassword"))
       /\ userSchema.refreshToken u' = userSchema.refreshToken u
       /\ userSchema.email u' = userSchema.email u
       /\ userSchema.username u' = userSchema.username u
       /\ userSchema.forgotPasswordOTP u' = userSchema.forgotPasswordOTP u
       /\ userSchema.updateEmailOTP u' = userSchema.updateEmailOTP u.
Proof.
  intros Hu Hne H. apply changeCurrentPassword_cases in H.
  destruct H as [(_ & e & He)|(u0 & p & Hu0 & _ & Hc & Hcs & -> & _)];
    [discriminate|].
  rewrite Hu in Hu0. injection Hu0 as <-.
  apply castString_Val in Hcs. subst p.
  split; [exact Hc|].
  exists (with_password (ToString (field req "newPassword")) u).
  unfold User.findById in *. cbn [fst users] in *. apply Ok_inj in Hu.
  pose proof (find_hasId_id _ _ _ Hu) as Hid.
  pose proof (with_password_rest (ToString (field req "newPassword")) u)
    as (Hi & He & Hun & Hrt & Hfo & Huo).
  rewrite (find_replaceFirst_const _ _ _ u) by (congruence || exact Hu).
  repeat split; try assumption. now apply with_password_accepts.
Qed.

(** A save that succeeds on a document found by its email, without an
    assignment to the email, found the same document by its [_id]. *)
Lemma save_Ok_found_by_email (q : JsVal) (u x y : userSchema.doc) db db' :
  find (User.matchesFilter (User.ByEmail q)) (users db) = Some u ->
  userSchema._id x = userSchema._id u ->
  userSchema.email x = userSchema.email u ->
  User.save x db = (Ok y, db') ->
  find (User.hasId (userSchema._id u)) (users db) = Some u.
Proof.
  intros Hf Hi He Hs. pose proof (find_some _ _ Hf) as [Hin Hpu].
  destruct (find (User.hasId (userSchema._id u)) (users db)) as [old|] eqn:Eo.
  - f_equal. apply (find_same _ _ _ _ _ Hf Eo).
    + unfold User.hasId. apply Nat.eqb_refl.
    + assert (Heo : userSchema.email old = userSchema.email x).
      { apply (save_Ok_same_email x old y db db'); [|now rewrite Hi|exact Hs].
        right. exists u. now split. }
      simpl in Hpu |- *. now rewrite Heo, He.
  - unfold User.save in Hs. rewrite Hi, Eo in Hs. discriminate.
Qed.

(** X15: a successful [forgotPassword] leaves the user of the token with
    a digest that accepts the new password (as long as the new password
    is not the text of the old digest); it asks for no OTP and no old
    password, and it keeps the stored refresh token, so the open sessions
    stay valid. *)
Theorem X15_forgotPassword_sets_the_password env w req db resp db' :
  forgotPassword env w req db = (Ok resp, db') ->
  exists email u p,
    fst (decodeEmail env w
           (or_token (cookie req "verifiedToken") (authorization req)) db)
    = Ok email
    /\ fst (User.findOne (User.ByEmail email) db) = Ok (Some u)
    /\ field req "newPassword" = JStr p
    /\ db' = {| users := User.replaceFirst (userSchema._id u)
                           (fun _ => with_password p u) (users db);
                registrations := registrations db |}
    /\ fst (User.findOne (User.ByEmail email) db') = Ok (Some (with_password p u))
    /\ userSchema.refreshToken (with_password p u) = userSchema.refreshToken u
    /\ (p <> userSchema.password u ->
        fst (User.isPasswordCorrect (with_password p u) (JStr p) db') = Ok true).
Proof.
  intros H. unfold forgotPassword in H.
  apply bind_Ok in H as (email & db1 & Hd & H).
  pose proof Hd as Hd0. apply decodeEmail_Ok in Hd as [-> _].
  apply bind_Ok in H as (blank & db1 & Hb & H). apply lift_Ok in Hb as [Hb ->].
  apply bind_Ok in H as ([] & db1 & Ht & H). apply throw_if_Ok in Ht as [-> ->].
  apply bind_Ok in H as (ou & db1 & Hf & H).
  unfold User.findOne in Hf. apply pair_equal_spec in Hf as [Hf <-].
  apply Ok_inj in Hf. destruct ou as [u|]; [|discriminate].
  apply bind_Ok in H as (y & db1 & Hs & H). apply try_catch_rethrow_Ok in Hs.
  unfold ret in H. injection H as _ <-.
  assert (Hp : exists p, field req "newPassword" = JStr p).
  { unfold missing_or_blank in Hb.
    destruct (field req "newPassword"); simpl in Hb; try discriminate; eauto;
      destruct (negb _); discriminate. }
  destruct Hp as [p Hp]. rewrite Hp in Hs. cbn [ToString] in Hs.
  pose proof (save_Ok_found_by_email email u (User.set_password p u) y db db1
                Hf eq_refl eq_refl Hs) as Hid.
  rewrite (save_password_found p u db Hid) in Hs. injection Hs as _ <-.
  pose proof (with_password_rest p u) as (Hi & He & _ & Hrt & _).
  exists email, u, p. split; [now rewrite Hd0|].
  split; [unfold User.findOne; cbn [fst]; now rewrite Hf|].
  split; [exact Hp|]. split; [reflexivity|]. split; [|split; [exact Hrt|]].
  - unfold User.findOne. cbn [fst users]. f_equal.
    apply find_replaceFirst_found; [exact Hf|exact Hid|].
    apply find_some in Hf as [_ Hpu]. simpl in Hpu |- *. now rewrite He.
  - intros Hne. unfold User.isPasswordCorrect, lift. cbn [fst].
    rewrite (with_password_accepts p u Hne). apply hash_accepts.
Qed.

(** ** The reset and email-change workflows *)

(** A save that succeeds wrote over a document with the same email and
    username, when some stored document carries both. *)
Lemma save_Ok_same_keys (x old y u : userSchema.doc) db db' :
  In u (users db) ->
  userSchema.email u = userSchema.email x ->
  userSchema.username u = userSchema.username x ->
  find (User.hasId (userSchema._id x)) (users db) = Some old ->
  User.save x db = (Ok y, db') ->
  userSchema.email old = userSchema.email x
  /\ userSchema.username old = userSchema.username x.
Proof.
  intros Hin He Hun Hf. unfold User.save. rewrite Hf.
  assert (Hex1 : existsb (fun v => String.eqb (userSchema.email v) (userSchema.email x))
                   (users db) = true).
  { apply existsb_exists. exists u. split; [exact Hin|]. rewrite He.
    apply String.eqb_refl. }
  assert (Hex2 : existsb (fun v => String.eqb (userSchema.username v)
                                     (userSchema.username x)) (users db) = true).
  { apply existsb_exists. exists u. split; [exact Hin|]. rewrite Hun.
    apply String.eqb_refl. }
  rewrite Hex1, Hex2, !andb_true_r.
  destruct (String.eqb (userSchema.email x) (userSchema.email old)) eqn:E1;
    [|discriminate].
  destruct (String.eqb (userSchema.username x) (userSchema.username old)) eqn:E2;
    [|discriminate].
  apply String.eqb_eq in E1, E2. intros _. split; congruence.
Qed.

(** What a successful [sendForgotPasswordOTP] has done. *)
Lemma sendForgotPasswordOTP_Ok env w req db resp db1 :
  sendForgotPasswordOTP env w req db = (Ok resp, db1) ->
  exists u,
    fst (User.findOne (User.Or (User.ByEmail (field req "usernameOrEmail"))
                               (User.ByUsername (field req "usernameOrEmail"))) db)
    = Ok (Some u)
    /\ find (User.hasId (userSchema._id u)) (users db) = Some u
    /\ db1 = {| users :=
                  User.replaceFirst (userSchema._id u)
                    (fun _ => User.set_forgotPassword (Val (randomOTP w))
                                (Val (Date_now w + 15 * 60 * 1000)) u)
                    (users db);
                registrations := registrations db |}
    /\ resp = {| status := 200;
                 cookie_set :=
                   [("forgotPassToken",
                     generateToken env (Date_now w) (JStr (userSchema.email u)))];
                 cookie_cleared := [];
                 data := DForgot (userSchema.email u)
                           (generateToken env (Date_now w)
                              (JStr (userSchema.email u)));
                 message := "Forgot password OTP sent successfully." |}.
Proof.
  intros H. unfold sendForgotPasswordOTP in H.
  apply bind_Ok in H as (blank & db0 & Hb & H). apply lift_Ok in Hb as [Hb ->].
  apply bind_Ok in H as ([] & db0 & Ht & H). apply throw_if_Ok in Ht as [-> ->].
  apply bind_Ok in H as (ou & db0 & Hf & H).
  unfold User.findOne in Hf. apply pair_equal_spec in Hf as [Hf <-].
  apply Ok_inj in Hf. destruct ou as [u|]; [|discriminate].
  apply bind_Ok in H as (y & db0 & Hs & H). apply try_catch_rethrow_Ok in Hs.
  apply bind_Ok in H as ([] & db2 & Hm & H). apply try_catch_rethrow_Ok in Hm.
  unfold sendMail in Hm. destruct (mail w); [discriminate|].
  unfold ret in Hm. injection Hm as <-. unfold ret in H. injection H as <- <-.
  pose proof (find_some _ _ Hf) as [Hin Hpu].
  assert (Hid : find (User.hasId (userSchema._id u)) (users db) = Some u).
  { destruct (find (User.hasId (userSchema._id u)) (users db)) as [old|] eqn:Eo.
    - f_equal. apply (find_same _ _ _ _ _ Hf Eo).
      + unfold User.hasId. apply Nat.eqb_refl.
      + destruct (save_Ok_same_keys
                    (User.set_forgotPassword (Val (randomOTP w))
                       (Val (Date_now w + 15 * 60 * 1000)) u)
                    old y u db db0 Hin eq_refl eq_refl Eo Hs)
          as [He Hun].
        cbn in He, Hun. cbn in Hpu |- *. now rewrite He, Hun.
    - unfold User.save in Hs. cbn [userSchema._id User.set_forgotPassword] in Hs.
      rewrite Eo in Hs. discriminate. }
  rewrite (save_plain u) in Hs by (exact Hid || reflexivity).
  injection Hs as <- <-.
  exists u. split; [unfold User.findOne; cbn [fst]; now rewrite Hf|].
  split; [exact Hid|]. split; reflexivity.
Qed.

(** X16: the two first steps of a password reset compose.  After a
    successful [sendForgotPasswordOTP] the user carries the code with an
    expiry fifteen minutes ahead; [verifyForgotPasswordOTP], presented
    with the token that was returned and the code as a number, succeeds as
    long as neither the token nor the code has expired, returns a token
    for the same email and leaves the user with both OTP fields [null]. *)
Theorem X16_reset_steps_compose env w w' req req' db resp db1 u :
  sendForgotPasswordOTP env w req db = (Ok resp, db1) ->
  fst (User.findOne (User.Or (User.ByEmail (field req "usernameOrEmail"))
                             (User.ByUsername (field req "usernameOrEmail"))) db)
  = Ok (Some u) ->
  fst (User.findOne (User.ByEmail (JStr (userSchema.email u))) db) = Ok (Some u) ->
  userSchema.email u <> "" ->
  Date_now w' / 1000 < Date_now w / 1000 + JWT_EXPIRY env ->
  Date_now w' <= Date_now w + 15 * 60 * 1000 ->
  or_token (cookie req' "forgotPassToken") (authorization req')
  = lookup "forgotPassToken" (cookie_set resp) ->
  field req' "forgotPasswordOTP" = JNum (randomOTP w) ->
  (exists u1, fst (User.findById (Some (userSchema._id u)) db1) = Ok (Some u1)
              /\ userSchema.forgotPasswordOTP u1 = Val (randomOTP w)
              /\ userSchema.forgotPasswordOtpExpiry u1
                 = Val (Date_now w + 15 * 60 * 1000))
  /\ exists resp' db2 u2,
       verifyForgotPasswordOTP env w' req' db1 = (Ok resp', db2)
       /\ data resp'
          = DToken (generateToken env (Date_now w') (JStr (userSchema.email u)))
       /\ fst (User.findById (Some (userSchema._id u)) db2) = Ok (Some u2)
       /\ userSchema.forgotPasswordOTP u2 = Null
       /\ userSchema.forgotPasswordOtpExpiry u2 = Null.
Proof.
  intros H Hu Hself Hne Htok Hexp Hreq Hotp.
  apply sendForgotPasswordOTP_Ok in H as (u0 & Hu0 & Hid & -> & ->).
  rewrite Hu in Hu0. injection Hu0 as <-.
  set (x := User.set_forgotPassword (Val (randomOTP w))
              (Val (Date_now w + 15 * 60 * 1000)) u) in *.
  assert (Hx : find (User.hasId (userSchema._id u))
                 (User.replaceFirst (userSchema._id u) (fun _ => x) (users db))
               = Some x)
    by (now apply (find_replaceFirst_const _ _ _ u)).
  split.
  { exists x. unfold User.findById. cbn [fst users]. rewrite Hx. repeat split. }
  cbn [cookie_set lookup] in Hreq. rewrite String.eqb_refl in Hreq.
  unfold User.findOne in Hself. cbn [fst] in Hself. apply Ok_inj in Hself.
  assert (Hte : truthy (JStr (userSchema.email u)) = true).
  { simpl. destruct (String.eqb (userSchema.email u) "") eqn:E; [|reflexivity].
    now apply String.eqb_eq in E. }
  unfold verifyForgotPasswordOTP, bind. rewrite Hreq.
  rewrite (decodeEmail_generateToken env w w' _ _ Hte Htok).
  unfold User.findOne. cbn [users].
  rewrite (find_replaceFirst_found _ _ u x Hself Hid)
    by (apply find_some in Hself as [_ Hp]; exact Hp).
  rewrite Hotp.
  replace (userSchema.forgotPasswordOTP x) with (Val (randomOTP w)) by reflexivity.
  replace (userSchema.forgotPasswordOtpExpiry x)
    with (Val (Date_now w + 15 * 60 * 1000)) by reflexivity.
  cbn [toJs strict_eq]. rewrite Z.eqb_refl. cbn [negb throw_if ret date_lt].
  replace (Date_now w + 15 * 60 * 1000 <? Date_now w')
    with false by (symmetry; apply Z.ltb_ge; lia).
  cbn [throw_if ret]. unfold try_catch.
  rewrite (save_plain x); try reflexivity; [|exact Hx].
  cbn [ret]. do 2 eexists. exists (User.set_forgotPassword Null Null x).
  split; [reflexivity|]. split; [reflexivity|].
  unfold User.findById. cbn [fst users].
  change (userSchema._id x) with (userSchema._id u).
  rewrite (find_replaceFirst_const _ _ _ x) by (reflexivity || exact Hx).
  repeat split.
Qed.

Lemma emailPattern_truthy (v : JsVal) :
  RegExp.test emailPattern v = true ->
  truthy v = true /\ User.castString v = Val (ToString v).
Proof.
  destruct v as [| |b|n|s]; try (vm_compute; discriminate).
  - destruct b; vm_compute; discriminate.
  - intros H. split; [|reflexivity]. simpl.
    destruct (n =? 0) eqn:E; [|reflexivity].
    apply Z.eqb_eq in E. subst n. vm_compute in H. discriminate.
  - intros H. split; [|reflexivity]. simpl.
    destruct (String.eqb s "") eqn:E; [|reflexivity].
    apply String.eqb_eq in E. subst s. vm_compute in H. discriminate.
Qed.

Lemma in_replaceFirst (i : nat) (x v : userSchema.doc) (l : list userSchema.doc) :
  In v (User.replaceFirst i (fun _ => x) l) -> v = x \/ In v l.
Proof.
  induction l as [|a r IH]; simpl; [easy|].
  destruct (User.hasId i a); simpl; intuition.
Qed.

(** What a successful [updateEmail] has done. *)
Lemma updateEmail_Ok env w req db resp db1 :
  updateEmail env w req db = (Ok resp, db1) ->
  exists u,
    RegExp.test emailPattern (field req "newEmail") = true
    /\ find (User.matchesFilter (User.ByEmail (field req "newEmail"))) (users db)
       = None
    /\ find (User.hasId (user req)) (users db) = Some u
    /\ Bcrypt.compare (field req "password") (userSchema.password u) = Ok true
    /\ db1 = {| users :=
                  User.replaceFirst (user req)
                    (fun _ => User.set_updateEmail (Val (randomOTP w))
                                (Val (Date_now w + 20 * 60 * 1000)) u)
                    (users db);
                registrations := registrations db |}
    /\ cookie_set resp
       = [("updateEmailToken",
           generateToken env (Date_now w) (field req "newEmail"))].
Proof.
  intros H. unfold updateEmail in H.
  apply bind_Ok in H as ([] & db0 & Ht & H). apply throw_if_Ok in Ht as [_ ->].
  apply bind_Ok in H as ([] & db0 & Ht & H). apply throw_if_Ok in Ht as [Hp ->].
  apply negb_false_iff in Hp.
  apply bind_Ok in H as (ex & db0 & Hf & H).
  unfold User.findOne in Hf. apply pair_equal_spec in Hf as [Hf <-].
  apply Ok_inj in Hf.
  apply bind_Ok in H as ([] & db0 & Ht & H). apply throw_if_Ok in Ht as [Hn ->].
  destruct ex; [discriminate|].
  apply bind_Ok in H as (ou & db0 & Hu & H).
  unfold User.findById in Hu. apply pair_equal_spec in Hu as [Hu <-].
  apply Ok_inj in Hu. destruct ou as [u|]; [|discriminate].
  pose proof (find_hasId_id _ _ _ Hu) as Hid.
  apply bind_Ok in H as (ok & db0 & Hc & H).
  unfold User.isPasswordCorrect in Hc. apply lift_Ok in Hc as [Hc ->].
  apply bind_Ok in H as ([] & db0 & Ht & H). apply throw_if_Ok in Ht as [Hok ->].
  apply negb_false_iff in Hok. subst ok.
  apply bind_Ok in H as ([] & db0 & Ht & H). apply throw_if_Ok in Ht as [_ ->].
  apply bind_Ok in H as (y & db0 & Hs & H). apply try_catch_rethrow_Ok in Hs.
  assert (Hu' : find (User.hasId (userSchema._id u)) (users db) = Some u)
    by (now rewrite Hid).
  rewrite (save_plain u _ db Hu') in Hs by reflexivity.
  injection Hs as <- <-.
  apply bind_Ok in H as ([] & db2 & Hm & H). apply try_catch_rethrow_Ok in Hm.
  unfold sendMail in Hm. destruct (mail w); [discriminate|].
  unfold ret in Hm. injection Hm as <-. unfold ret in H. injection H as <- <-.
  exists u. rewrite Hid. repeat split; assumption.
Qed.

(** X17: the two steps of an email change compose.  After a successful
    [updateEmail], [verifyUpdateEmailOTP] by the same user, presented
    with the token that was returned and the code as a number, succeeds as
    long as neither the token nor the code (twenty minutes) has expired:
    the user's email becomes the new one, trimmed and in lower case, and
    both OTP fields become [null]. *)
Theorem X17_email_change_steps_compose env w w' req req' db resp db1 :
  updateEmail env w req db = (Ok resp, db1) ->
  user req' = user req ->
  or_token (cookie req' "updateEmailToken") (updateemailtoken req')
  = lookup "updateEmailToken" (cookie_set resp) ->
  field req' "updateEmailOTP" = JNum (randomOTP w) ->
  Date_now w' / 1000 < Date_now w / 1000 + JWT_EXPIRY env ->
  Date_now w' <= Date_now w + 20 * 60 * 1000 ->
  exists resp' db2 u2,
    verifyUpdateEmailOTP env w' req' db1 = (Ok resp', db2)
    /\ data resp' = DUser u2
    /\ fst (User.findById (Some (user req)) db2) = Ok (Some u2)
    /\ userSchema.email u2
       = userSchema.lowercase_trim (ToString (field req "newEmail"))
    /\ userSchema.updateEmailOTP u2 = Null
    /\ userSchema.updateEmailOTPExpiry u2 = Null.
Proof.
  intros H Huser Hreq Hotp Htok Hexp.
  apply updateEmail_Ok in H as (u & Hpat & Hfree & Hu & _ & -> & Hck).
  rewrite Hck in Hreq. cbn [lookup] in Hreq. rewrite String.eqb_refl in Hreq.
  destruct (emailPattern_truthy _ Hpat) as [Htr Hcs].
  pose proof (find_hasId_id _ _ _ Hu) as Hid.
  set (x := User.set_updateEmail (Val (randomOTP w))
              (Val (Date_now w + 20 * 60 * 1000)) u) in *.
  set (l1 := User.replaceFirst (user req) (fun _ => x) (users db)).
  assert (Hx : find (User.hasId (user req)) l1 = Some x)
    by (now apply (find_replaceFirst_const _ _ _ u)).
  set (ne := userSchema.lowercase_trim (ToString (field req "newEmail"))).
  set (a := User.set_updateEmail Null Null (User.set_email ne x)).
  assert (Ha : User.set_updateEmail Null Null (assign_email (field req "newEmail") x) = a).
  { unfold assign_email. now rewrite Hcs. }
  assert (Hnodup : existsb (fun v => String.eqb (userSchema.email v) ne) l1
                   && negb (String.eqb ne (userSchema.email x)) = false).
  { destruct (String.eqb ne (userSchema.email x)) eqn:E; [apply andb_false_r|].
    rewrite andb_true_r. destruct (existsb _ l1) eqn:Ex; [|reflexivity].
    apply existsb_exists in Ex as (v & Hin & Hv). apply String.eqb_eq in Hv.
    apply in_replaceFirst in Hin as [->|Hin].
    - rewrite Hv, String.eqb_refl in E. discriminate.
    - apply (find_none _ _ Hfree) in Hin. simpl in Hin.
      unfold User.castForQuery in Hin. rewrite Hcs in Hin. fold ne in Hin.
      rewrite Hv, String.eqb_refl in Hin. discriminate. }
  assert (Hs1 : User.save a {| users := l1; registrations := registrations db |}
                = (Ok a, {| users := User.replaceFirst (user req) (fun _ => a) l1;
                            registrations := registrations db |})).
  { unfold User.save. cbn [users registrations].
    replace (userSchema._id a) with (user req) by (symmetry; exact Hid).
    rewrite Hx.
    replace (userSchema.password a) with (userSchema.password x) by reflexivity.
    replace (userSchema.username a) with (userSchema.username x) by reflexivity.
    replace (userSchema.email a) with ne by reflexivity.
    rewrite !String.eqb_refl. cbn [negb andb orb].
    rewrite andb_comm, Hnodup. reflexivity. }
  assert (Ha1 : find (User.hasId (user req))
                  (User.replaceFirst (user req) (fun _ => a) l1) = Some a)
    by (now apply (find_replaceFirst_const _ _ _ x)).
  unfold verifyUpdateEmailOTP, bind. rewrite Hreq.
  rewrite (decodeEmail_generateToken env w w' _ _ Htr Htok).
  unfold User.findById. rewrite Huser. cbn [users]. fold l1. rewrite Hx.
  rewrite Hotp.
  replace (userSchema.updateEmailOTP x) with (Val (randomOTP w)) by reflexivity.
  replace (userSchema.updateEmailOTPExpiry x)
    with (Val (Date_now w + 20 * 60 * 1000)) by reflexivity.
  cbn [toJs strict_eq]. rewrite Z.eqb_refl. cbn [negb throw_if ret date_lt].
  replace (Date_now w + 20 * 60 * 1000 <? Date_now w')
    with false by (symmetry; apply Z.ltb_ge; lia).
  cbn [throw_if ret]. rewrite Ha. unfold try_catch. rewrite Hs1.
  rewrite (save_plain a a); try reflexivity;
    [|cbn [users]; replace (userSchema._id a) with (user req)
        by (symmetry; exact Hid); exact Ha1].
  cbn [ret]. do 2 eexists. exists a. split; [reflexivity|].
  split; [reflexivity|]. split; [|repeat split].
  unfold User.findById. cbn [fst users].
  change (userSchema._id a) with (userSchema._id u). rewrite Hid.
  rewrite (find_replaceFirst_const _ _ _ a) by (exact Ha1 || exact Hid).
  reflexivity.
Qed.

(** X18: when the new email has been taken in the meantime,
    [verifyUpdateEmailOTP] fails on the unique index; the [save] in its
    [catch] block writes the same assignment and fails the same way, so
    the raw duplicate-key error is what is thrown (status 500), the
    "Error while saving user" answer is never given, and the OTP stays on
    the user. *)
Theorem X18_email_change_to_taken_email env w req db newEmail u v :
  fst (decodeEmail env w
         (or_token (cookie req "updateEmailToken") (updateemailtoken req)) db)
  = Ok newEmail ->
  fst (User.findById (Some (user req)) db) = Ok (Some u) ->
  strict_eq (toJs (userSchema.updateEmailOTP u)) (field req "updateEmailOTP") = true ->
  date_lt (userSchema.updateEmailOTPExpiry u) (Date_now w) = false ->
  fst (User.findOne (User.ByEmail newEmail) db) = Ok (Some v) ->
  userSchema.email v <> userSchema.email u ->
  verifyUpdateEmailOTP env w req db = (Throw User.E11000, db)
  /\ statusCode_of User.E11000 = 500.
Proof.
  intros Hd Hu Hotp Hexp Hv Hne. split; [|reflexivity].
  unfold User.findById, User.findOne in *. cbn [fst] in Hu, Hv.
  apply Ok_inj in Hu, Hv. pose proof (find_some _ _ Hv) as [Hin Hq].
  simpl in Hq. unfold User.castForQuery in Hq.
  destruct (User.castString newEmail) as [| |s] eqn:Ecs; try discriminate.
  apply String.eqb_eq in Hq.
  pose proof (find_hasId_id _ _ _ Hu) as Hid.
  set (a := User.set_updateEmail Null Null (assign_email newEmail u)).
  assert (Hs : User.save a db = (Throw User.E11000, db)).
  { unfold User.save.
    replace (userSchema._id a) with (user req)
      by (unfold a; simpl; rewrite assign_email_id; now symmetry).
    rewrite Hu.
    replace (userSchema.password a) with (userSchema.password u)
      by (unfold a; simpl; now rewrite assign_email_password).
    rewrite String.eqb_refl.
    replace (userSchema.email a) with (userSchema.lowercase_trim s)
      by (unfold a, assign_email; now rewrite Ecs).
    rewrite <- Hq.
    replace (String.eqb (userSchema.email v) (userSchema.email u)) with false
      by (symmetry; now apply String.eqb_neq).
    replace (existsb (fun v0 => String.eqb (userSchema.email v0) (userSchema.email v))
               (users db)) with true; [reflexivity|].
    symmetry. apply existsb_exists. exists v. split; [exact Hin|].
    apply String.eqb_refl. }
  unfold verifyUpdateEmailOTP, bind.
  rewrite (decodeEmail_db env w _ db db), Hd. unfold User.findById. rewrite Hu.
  rewrite Hotp, Hexp. cbn [negb throw_if ret]. fold a.
  unfold try_catch at 1. rewrite Hs. now rewrite Hs.
Qed.


Lemma save_Throw (x : userSchema.doc) db e db' :
  User.save x db = (Throw e, db') -> db' = db.
Proof.
  unfold User.save. destruct (find _ _); [|now intros [= _ <-]].
  destruct (_ || _); [now intros [= _ <-]|discriminate].
Qed.


(** ** Account details *)

Lemma trim_first_not_white (c : ascii) (r : string) :
  isWhiteSpace c = false -> trim (String c r) <> "".
Proof.
  intros Hc. unfold trim. cbn [trimStart]. rewrite Hc. cbn [trimEnd].
  destruct (trimEnd r); [rewrite Hc|]; discriminate.
Qed.

Lemma trim_number_not_blank (n : Z) : trim (ToString (JNum n)) <> "".
Proof.
  cbn [ToString]. destruct (Z.to_int n) as [d|d]; cbn [NilZero.string_of_int].
  - unfold NilZero.string_of_uint.
    destruct d; simpl; now apply trim_first_not_white.
  - now apply trim_first_not_white.
Qed.

Lemma blank_ToString (v : JsVal) :
  negb (truthy (JStr (trim (ToString v)))) = true <-> blank_string v.
Proof.
  cbn [truthy]. rewrite negb_involutive, String.eqb_eq. unfold blank_string.
  split.
  - destruct v as [| |[|]|n|s]; try discriminate.
    + intros H. now apply trim_number_not_blank in H.
    + intros H. now exists s.
  - now intros (s & -> & H).
Qed.

(** What [updateAccountDetails] does: it throws and has written nothing,
    or it has written the user with at most [fullName], [bio] and
    [username] assigned. *)
Lemma updateAccountDetails_cases req db r db' :
  updateAccountDetails req db = (r, db') ->
  (exists e, r = Throw e /\ db' = db)
  \/ exists u y,
       find (User.hasId (user req)) (users db) = Some u
       /\ y = set_fullName (userSchema.fullName y)
                (set_bio (userSchema.bio y)
                   (set_username (userSchema.username y) u))
       /\ r = Ok {| status := 200;
                    cookie_set := [];
                    cookie_cleared := [];
                    data := DSelected (userSchema.select y);
                    message := "Account updated successfully." |}
       /\ db' = {| users := User.replaceFirst (user req) (fun _ => y) (users db);
                   registrations := registrations db |}.
Proof.
  unfold updateAccountDetails, bind.
  destruct (_ || _); [intros [= <- <-]; left; eauto|]. cbn [throw_if ret].
  unfold User.findById.
  destruct (find _ (users db)) as [u|] eqn:Ef; [|intros [= <- <-]; left; eauto].
  pose proof (find_hasId_id _ _ _ Ef) as Hid.
  assert (Hsave : forall x,
            userSchema._id x = userSchema._id u ->
            userSchema.password x = userSchema.password u ->
            x = set_fullName (userSchema.fullName x)
                  (set_bio (userSchema.bio x)
                     (set_username (userSchema.username x) u)) ->
            (let (r0, db0) := User.save x db in
             match r0 with
             | Ok a => ret {| status := 200; cookie_set := []; cookie_cleared := [];
                              data := DSelected (userSchema.select a);
                              message := "Account updated successfully." |} db0
             | Throw e => (Throw e, db0)
             end) = (r, db') ->
            (exists e, r = Throw e /\ db' = db)
            \/ exists u0 y,
                 Some u = Some u0
                 /\ y = set_fullName (userSchema.fullName y)
                          (set_bio (userSchema.bio y)
                             (set_username (userSchema.username y) u0))
                 /\ r = Ok {| status := 200; cookie_set := []; cookie_cleared := [];
                              data := DSelected (userSchema.select y);
                              message := "Account updated successfully." |}
                 /\ db' = {| users := User.replaceFirst (user req) (fun _ => y)
                                         (users db);
                             registrations := registrations db |}).
  { intros x Hx Hpw Hshape.
    destruct (User.save x db) as [[y|e] db0] eqn:Es.
    - rewrite <- Hid, <- Hx in Ef.
      destruct (save_Ok_unhashed x u y db db0 Ef Hpw Es) as [-> ->].
      intros [= <- <-]. right. exists u, x. rewrite Hx, Hid. auto.
    - apply save_Throw in Es. subst db0. intros [= <- <-]. left. eauto. }
  destruct (truthy (field req "fullName") && _);
    [destruct (method_trim (field req "fullName")) as [t1|e1];
       cbn [lift ret]; [|intros [= <- <-]; left; eauto]|cbn [ret]];
  (destruct (truthy (field req "bio") && _);
    [destruct (method_trim (field req "bio")) as [t2|e2];
       cbn [lift ret]; [|intros [= <- <-]; left; eauto]|cbn [ret]]);
  (destruct (truthy (field req "username") && _);
    [unfold User.findOne; destruct (find (User.matchesFilter _) (users db));
       cbn [isSome throw_if throw ret]; [intros [= <- <-]; left; eauto|]
    |cbn [ret]]);
  (apply Hsave; [reflexivity|reflexivity|now destruct u]).
Qed.

(** X20: the "required" test of [updateAccountDetails] looks at
    [String(v).trim()], so it fires exactly when [fullName] or [username]
    is a string of white space only: a field left out reads "undefined"
    and passes. *)
Theorem X20_account_required_check req db :
  fst (updateAccountDetails req db)
  = Throw (ApiError 400 "Full name and username are required.")
  <-> blank_string (field req "fullName") \/ blank_string (field req "username").
Proof.
  rewrite <- !blank_ToString, <- orb_true_iff.
  unfold updateAccountDetails, bind.
  destruct (_ || _) eqn:Ec; [now split|]. split; [|discriminate].
  cbn [throw_if ret]. unfold User.findById.
  destruct (find _ (users db)) as [u|];
    [|cbn [fst throw]; repeat destruct (truthy _); discriminate].
  assert (Hsave : forall x,
            fst (let (r0, db0) := User.save x db in
                 match r0 with
                 | Ok a => ret {| status := 200; cookie_set := [];
                                  cookie_cleared := [];
                                  data := DSelected (userSchema.select a);
                                  message := "Account updated successfully." |} db0
                 | Throw e => (Throw e, db0)
                 end)
            = Throw (ApiError 400 "Full name and username are required.") ->
            false = true).
  { intros x. unfold User.save. destruct (find _ _); [|cbn; discriminate].
    match goal with |- context [if ?c then _ else _] => destruct c end;
      cbn; discriminate. }
  destruct (truthy (field req "fullName") && _);
    [destruct (field req "fullName") as [| |?|?|?];
       cbn [method_trim lift ret fst]; try discriminate|cbn [ret]];
  (destruct (truthy (field req "bio") && _);
    [destruct (field req "bio") as [| |?|?|?];
       cbn [method_trim lift ret fst]; try discriminate|cbn [ret]]);
  (destruct (truthy (field req "username") && _);
    [unfold User.findOne; destruct (find (User.matchesFilter _) (users db));
       cbn [isSome throw_if throw ret fst]; [discriminate|]
    |cbn [ret]]);
  apply Hsave.
Qed.

(** X21: [updateAccountDetails] writes once, at its end: when it throws
    (a taken username included) nothing has been written; when it
    answers, the caller's document differs from what was stored in
    [fullName], [bio] and [username] at most, the answer carries that
    document without password and refresh token, and no other document
    has changed. *)
Theorem X21_account_update_is_all_or_nothing req db r db' :
  updateAccountDetails req db = (r, db') ->
  (exists e, r = Throw e /\ db' = db)
  \/ exists u y resp,
       r = Ok resp
       /\ data resp = DSelected (userSchema.select y)
       /\ fst (User.findById (Some (user req)) db) = Ok (Some u)
       /\ fst (User.findById (Some (user req)) db') = Ok (Some y)
       /\ y = set_fullName (userSchema.fullName y)
                (set_bio (userSchema.bio y)
                   (set_username (userSchema.username y) u))
       /\ registrations db' = registrations db
       /\ forall i, i <> user req ->
            fst (User.findById (Some i) db') = fst (User.findById (Some i) db).
Proof.
  intros H. apply updateAccountDetails_cases in H as [H|(u & y & Hu & Hy & -> & ->)];
    [now left|right].
  exists u, y. eexists. split; [reflexivity|]. cbn [data].
  pose proof (find_hasId_id _ _ _ Hu) as Hid.
  assert (Hyid : userSchema._id y = user req) by (rewrite Hy; exact Hid).
  unfold User.findById. cbn [fst users registrations].
  repeat split; try assumption.
  - now rewrite Hu.
  - now rewrite (find_replaceFirst_const _ y _ u Hyid Hu).
  - intros i Hi. f_equal. clear Hu.
    induction (users db) as [|v l IH]; [reflexivity|]. cbn [User.replaceFirst].
    destruct (User.hasId (user req) v) eqn:E; cbn [find].
    + unfold User.hasId in *. apply Nat.eqb_eq in E. rewrite Hyid, E.
      apply Nat.eqb_neq in Hi. rewrite Nat.eqb_sym in Hi. now rewrite Hi.
    + now rewrite IH.
Qed.

(** ** Profile images *)

(** X22: for a user who exists, [removeUserAvatar] and
    [removeUserCoverImage] always answer; after the two, in either order,
    the stored user is the one from before with both paths empty and
    nothing else changed, and that is what the second answer shows. *)
Theorem X22_image_removals_compose req db u :
  fst (User.findById (Some (user req)) db) = Ok (Some u) ->
  let cleared := set_coverImage "" (set_avatar "" u) in
  (exists resp1 db1 resp2 db2,
     removeUserAvatar req db = (Ok resp1, db1)
     /\ removeUserCoverImage req db1 = (Ok resp2, db2)
     /\ data resp2 = DSelected (userSchema.select cleared)
     /\ fst (User.findById (Some (user req)) db2) = Ok (Some cleared))
  /\ (exists resp1 db1 resp2 db2,
        removeUserCoverImage req db = (Ok resp1, db1)
        /\ removeUserAvatar req db1 = (Ok resp2, db2)
        /\ data resp2 = DSelected (userSchema.select cleared)
        /\ fst (User.findById (Some (user req)) db2) = Ok (Some cleared)).
Proof.
  unfold User.findById. cbn [fst]. intros Hu. apply Ok_inj in Hu.
  pose proof (find_hasId_id _ _ _ Hu) as Hid. cbn zeta.
  assert (Hstep : forall (f : userSchema.doc -> userSchema.doc) x d,
            find (User.hasId (user req)) (users d) = Some x ->
            userSchema._id x = user req ->
            (forall v, userSchema._id (f v) = userSchema._id v
                       /\ userSchema.password (f v) = userSchema.password v
                       /\ userSchema.email (f v) = userSchema.email v
                       /\ userSchema.username (f v) = userSchema.username v) ->
            User.save (f x) d
            = (Ok (f x),
               {| users := User.replaceFirst (user req) (fun _ => f x) (users d);
                  registrations := registrations d |})
            /\ find (User.hasId (user req))
                 (User.replaceFirst (user req) (fun _ => f x) (users d))
               = Some (f x)).
  { intros f x d Hx Hxid Hf. destruct (Hf x) as (H1 & H2 & H3 & H4). split.
    - rewrite <- Hxid in Hx. rewrite (save_plain x (f x) d Hx H1 H2 H3 H4).
      now rewrite Hxid.
    - apply (find_replaceFirst_const _ _ _ x); [congruence|exact Hx]. }
  split.
  - destruct (Hstep (set_avatar "") u db Hu Hid) as [S1 F1]; [now intros v|].
    destruct (Hstep (set_coverImage "") (set_avatar "" u)
                {| users := User.replaceFirst (user req) (fun _ => set_avatar "" u)
                              (users db);
                   registrations := registrations db |} F1 Hid) as [S2 F2];
      [now intros v|].
    do 4 eexists. split; [|split; [|split]].
    + unfold removeUserAvatar, bind, User.findById. rewrite Hu, S1. reflexivity.
    + unfold removeUserCoverImage, bind, User.findById. cbn [users].
      rewrite F1, S2. reflexivity.
    + reflexivity.
    + cbn [users] in F2. cbn [users fst]. now rewrite F2.
  - destruct (Hstep (set_coverImage "") u db Hu Hid) as [S1 F1]; [now intros v|].
    destruct (Hstep (set_avatar "") (set_coverImage "" u)
                {| users := User.replaceFirst (user req)
                              (fun _ => set_coverImage "" u) (users db);
                   registrations := registrations db |} F1 Hid) as [S2 F2];
      [now intros v|].
    do 4 eexists. split; [|split; [|split]].
    + unfold removeUserCoverImage, bind, User.findById. rewrite Hu, S1. reflexivity.
    + unfold removeUserAvatar, bind, User.findById. cbn [users].
      rewrite F1, S2. reflexivity.
    + now destruct u.
    + cbn [users] in F2. cbn [users fst]. rewrite F2. now destruct u.
Qed.

(** ** The unique keys of [users] *)

Lemma keeps_ret {A : Type} (a : A) : keeps_keys (ret a).
Proof. now intros db H. Qed.

Lemma keeps_throw {A : Type} (e : Failure) : keeps_keys (@throw A e).
Proof. now intros db H. Qed.

Lemma keeps_lift {A : Type} (r : Result A) : keeps_keys (lift r).
Proof. now intros db H. Qed.

Lemma keeps_throw_if (c : bool) (e : Failure) : keeps_keys (throw_if c e).
Proof. now destruct c; intros db H. Qed.

Lemma keeps_bind {A B : Type} (m : M A) (k : A -> M B) :
  keeps_keys m -> (forall a, keeps_keys (k a)) -> keeps_keys (bind m k).
Proof.
  intros Hm Hk db H. unfold bind. specialize (Hm db H).
  destruct (m db) as [[a|e] db1]; cbn [snd] in *; [now apply Hk|exact Hm].
Qed.

Lemma keeps_try_catch {A : Type} (m : M A) (h : Failure -> M A) :
  keeps_keys m -> (forall e, keeps_keys (h e)) -> keeps_keys (try_catch m h).
Proof.
  intros Hm Hh db H. unfold try_catch. specialize (Hm db H).
  destruct (m db) as [[a|e] db1]; cbn [snd] in *; [exact Hm|now apply Hh].
Qed.

Lemma keeps_findOne (f : User.Filter) : keeps_keys (User.findOne f).
Proof. now intros db H. Qed.

Lemma keeps_findById (i : option nat) : keeps_keys (User.findById i).
Proof. now intros db H. Qed.

Lemma keeps_isPasswordCorrect (u : userSchema.doc) (p : JsVal) :
  keeps_keys (User.isPasswordCorrect u p).
Proof. now intros db H. Qed.

Lemma keeps_sendMail (w : Env) : keeps_keys (sendMail w).
Proof. unfold sendMail. now destruct (mail w); intros db H. Qed.

Lemma keeps_decodeEmail env w t : keeps_keys (decodeEmail env w t).
Proof.
  intros db H. now rewrite (surjective_pairing (decodeEmail env w t db)),
    (decodeEmail_db env w t db db), <- surjective_pairing.
Qed.

Lemma keeps_registrations {A : Type} (m : M A) :
  (forall db, users (snd (m db)) = users db) -> keeps_keys m.
Proof.
  intros Hm db H. unfold keys_unique, ids_unique, emails_unique, usernames_unique in *.
  now rewrite Hm.
Qed.

(** Writing over the document with identifier [i] keeps a key unique
    when the new document has the key of the old one, or a key that no
    stored document has. *)
Lemma replaceFirst_key_unique {K : Type} (key : userSchema.doc -> K) (i : nat)
    (y old : userSchema.doc) (l : list userSchema.doc) :
  find (User.hasId i) l = Some old ->
  NoDup (map key l) ->
  key y = key old \/ ~ In (key y) (map key l) ->
  NoDup (map key (User.replaceFirst i (fun _ => y) l)).
Proof.
  induction l as [|v r IH]; cbn [find User.replaceFirst]; [discriminate|].
  intros Hf Hnd Hy. inversion Hnd as [|? ? Hv Hr]; subst.
  destruct (User.hasId i v) eqn:E; cbn [map].
  - injection Hf as <-. constructor; [|exact Hr].
    destruct Hy as [->|Hy]; [exact Hv|]. intros Hin. apply Hy. now right.
  - constructor.
    + intros Hin. apply in_map_iff in Hin as (x & Hx & Hin).
      apply in_replaceFirst in Hin as [->|Hin].
      * destruct Hy as [Hy|Hy].
        -- apply Hv. rewrite <- Hx, Hy. apply in_map.
           now apply find_some in Hf.
        -- apply Hy. left. now symmetry.
      * apply Hv. rewrite <- Hx. now apply in_map.
    + apply IH; [exact Hf|exact Hr|].
      destruct Hy as [Hy|Hy]; [now left|right]. intros Hin. apply Hy. now right.
Qed.

Lemma existsb_key_false (key : userSchema.doc -> string) (s : string)
    (l : list userSchema.doc) :
  existsb (fun v => String.eqb (key v) s) l = false -> ~ In s (map key l).
Proof.
  intros Hex Hin. apply in_map_iff in Hin as (v & <- & Hin).
  assert (existsb (fun x => String.eqb (key x) (key v)) l = true).
  { apply existsb_exists. exists v. split; [exact Hin|apply String.eqb_refl]. }
  congruence.
Qed.

Lemma keeps_save (x : userSchema.doc) : keeps_keys (User.save x).
Proof.
  intros db (Hi & He & Hu).
  pose proof (save_ids_unique x db Hi) as Hi'. split; [exact Hi'|clear Hi'].
  unfold emails_unique, usernames_unique, User.save in *.
  destruct (find _ (users db)) as [old|] eqn:Ef; [|now split].
  destruct (_ && _ || _) eqn:Ed; [now split|]. cbn [snd users].
  apply orb_false_elim in Ed as [Ee Eu].
  set (y := if String.eqb _ _ then x else _).
  assert (Hye : userSchema.email y = userSchema.email x)
    by (unfold y; now destruct (String.eqb (userSchema.password x) _)).
  assert (Hyu : userSchema.username y = userSchema.username x)
    by (unfold y; now destruct (String.eqb (userSchema.password x) _)).
  split.
  - apply (replaceFirst_key_unique _ _ _ old); [exact Ef|exact He|]. rewrite Hye.
    apply andb_false_elim in Ee as [Ee|Ee].
    + left. apply negb_false_iff in Ee. now apply String.eqb_eq.
    + right. now apply existsb_key_false.
  - apply (replaceFirst_key_unique _ _ _ old); [exact Ef|exact Hu|]. rewrite Hyu.
    apply andb_false_elim in Eu as [Eu|Eu].
    + left. apply negb_false_iff in Eu. now apply String.eqb_eq.
    + right. now apply existsb_key_false.
Qed.

Lemma map_replaceFirst_same {K : Type} (key : userSchema.doc -> K) (i : nat)
    (f : userSchema.doc -> userSchema.doc) (l : list userSchema.doc) :
  (forall v, key (f v) = key v) ->
  map key (User.replaceFirst i f l) = map key l.
Proof.
  intros Hf. induction l as [|v r IH]; cbn [User.replaceFirst map]; [reflexivity|].
  destruct (User.hasId i v); cbn [map]; [now rewrite Hf|now rewrite IH].
Qed.

Lemma keeps_set_refreshToken mg i v :
  keeps_keys (User.findByIdAndUpdate_set_refreshToken mg i v).
Proof.
  intros db H. unfold User.findByIdAndUpdate_set_refreshToken. cbn [snd].
  unfold keys_unique, ids_unique, emails_unique, usernames_unique in *.
  cbn [users]. destruct v; [destruct (omitUndefined mg); [exact H|]| |];
    now rewrite !map_replaceFirst_same.
Qed.

Lemma keeps_registerUser env w req : keeps_keys (registerUser env w req).
Proof.
  intros db (Hi & He & Hu).
  destruct (registerUser env w req db) as [r db'] eqn:E. cbn [snd].
  apply registerUser_cases in E.
  destruct E as [(-> & _)|E]; [now repeat split|].
  destruct E as (email & name & u & Hd & _ & -> & _ & Hid & _ & _ & _ & _ & _ & Hnew).
  unfold keys_unique, ids_unique, emails_unique, usernames_unique in *. cbn [users].
  rewrite !map_app. cbn [map]. repeat split.
  - apply NoDup_app; [exact Hi|repeat constructor; intros []|].
    intros i Hin [<-|[]]. apply in_map_iff in Hin as (v & Hv & Hin).
    apply user_freshId_gt in Hin. lia.
  - apply NoDup_app; [exact He|repeat constructor; intros []|].
    intros s Hin [<-|[]]. apply in_map_iff in Hin as (v & Hv & Hin).
    destruct (Hnew v Hin) as [A _]. congruence.
  - apply NoDup_app; [exact Hu|repeat constructor; intros []|].
    intros s Hin [<-|[]]. apply in_map_iff in Hin as (v & Hv & Hin).
    destruct (Hnew v Hin) as [_ B]. congruence.
Qed.

Ltac keeps_keys_step :=
  match goal with
  | |- keeps_keys (bind _ _) => apply keeps_bind; [|intro]
  | |- keeps_keys (try_catch _ _) => apply keeps_try_catch; [|intro]
  | |- keeps_keys (throw_if _ _) => apply keeps_throw_if
  | |- keeps_keys (throw _) => apply keeps_throw
  | |- keeps_keys (ret _) => apply keeps_ret
  | |- keeps_keys (lift _) => apply keeps_lift
  | |- keeps_keys (sendMail _) => apply keeps_sendMail
  | |- keeps_keys (decodeEmail _ _ _) => apply keeps_decodeEmail
  | |- keeps_keys (User.findOne _) => apply keeps_findOne
  | |- keeps_keys (User.findById _) => apply keeps_findById
  | |- keeps_keys (User.isPasswordCorrect _ _) => apply keeps_isPasswordCorrect
  | |- keeps_keys (User.save _) => apply keeps_save
  | |- keeps_keys (User.findByIdAndUpdate_set_refreshToken _ _ _) =>
      apply keeps_set_refreshToken
  | |- keeps_keys (Registration.findOne _ _) => now apply keeps_registrations
  | |- keeps_keys (Registration.findOneAndDelete _) => now apply keeps_registrations
  | |- keeps_keys (Registration.create _) => now apply keeps_registrations
  | |- keeps_keys (Registration.save_verificationOTP _ _) =>
      now apply keeps_registrations
  | |- keeps_keys (match ?x with _ => _ end) => destruct x
  end.

Lemma keeps_generateAccessAndRefreshTokens env w i :
  keeps_keys (generateAccessAndRefreshTokens env w i).
Proof. unfold generateAccessAndRefreshTokens. repeat keeps_keys_step. Qed.

Lemma keeps_save_password v u : keeps_keys (save_password v u).
Proof. unfold save_password. repeat keeps_keys_step. Qed.

(** X23: every handler keeps [_id], [email] and [username] unique among
    the users, whether it answers or throws. *)
Theorem X23_handlers_keep_keys_unique mg env w req db (h : M Response) :
  In h (handlers mg env w req) ->
  ids_unique db -> emails_unique db -> usernames_unique db ->
  ids_unique (snd (h db)) /\ emails_unique (snd (h db))
  /\ usernames_unique (snd (h db)).
Proof.
  intros Hin Hi He Hu. assert (Hk : keeps_keys h); [|now apply Hk].
  clear db Hi He Hu. cbn [handlers In] in Hin.
  repeat (destruct Hin as [<-|Hin]); [..|destruct Hin].
  - unfold emailRegistration. repeat keeps_keys_step.
  - unfold verifyEmail. repeat keeps_keys_step.
  - apply keeps_registerUser.
  - unfold loginUser. repeat keeps_keys_step.
    apply keeps_generateAccessAndRefreshTokens.
  - unfold logoutUser. repeat keeps_keys_step.
  - unfold refreshAccessToken. repeat keeps_keys_step.
    apply keeps_generateAccessAndRefreshTokens.
  - unfold changeCurrentPassword. repeat keeps_keys_step. apply keeps_save_password.
  - unfold updateAccountDetails. repeat keeps_keys_step.
  - unfold updateEmail. repeat keeps_keys_step.
  - unfold verifyUpdateEmailOTP. repeat keeps_keys_step.
  - unfold removeUserAvatar. repeat keeps_keys_step.
  - unfold removeUserCoverImage. repeat keeps_keys_step.
  - unfold sendForgotPasswordOTP. repeat keeps_keys_step.
  - unfold verifyForgotPasswordOTP. repeat keeps_keys_step.
  - unfold forgotPassword. repeat keeps_keys_step.
Qed.

(** ** Examples of the further properties *)

Import Accounts.

Lemma X1_witness : 100000 <= randomOTP world <= 999999.
Proof.
  apply (X1_otp_has_six_digits world).
  - vm_compute. reflexivity.
  - split; [unfold Qle|unfold Qlt]; simpl; lia.
Defined.

(** The product is rounded: at this value of [Math.random()] the exact
    product lies just under 899999 and the Number is 899999. *)
Example randomOTP_rounds_the_product :
  binary64 (Math_random world_high)
  /\ randomOTP world_high = 999999
  /\ Qfloor (Math_random world_high * inject_Z 900000) + 100000 = 999998.
Proof. split; [vm_compute; reflexivity|]. split; vm_compute; reflexivity. Qed.

Lemma X2_witness :
  one_registration_per_email (snd (emailRegistration env world register_email_b pending_b))
  /\ find (Registration.emailMatches (JStr "b@x.com"))
       (registrations (snd (emailRegistration env world register_email_b pending_b)))
     = Some (pending world (JStr "b@x.com") pending_b).
Proof.
  destruct (X2_one_registration_per_email env world register_email_b pending_b)
    as (H1 & _ & H3).
  - repeat constructor; simpl; intuition discriminate.
  - split; [exact H1|].
    destruct (emailRegistration env world register_email_b pending_b)
      as [[resp|e] db'] eqn:E; [|vm_compute in E; discriminate].
    exact (proj1 (H3 resp db' eq_refl)).
Defined.

Lemma X3_witness :
  exists resp' db2,
    verifyEmail env world_later verify_b
      (snd (emailRegistration env world register_email_b only_alice))
    = (Ok resp', db2)
    /\ users db2 = users only_alice.
Proof.
  destruct (emailRegistration env world register_email_b only_alice)
    as [[resp|e] db1] eqn:E; [|vm_compute in E; discriminate].
  destruct (X3_registration_steps_compose env world world_later register_email_b
              verify_b only_alice resp db1 E)
    as (resp' & db2 & _ & H & _ & Hu & _).
  - vm_compute. reflexivity.
  - reflexivity.
  - reflexivity.
  - exists resp', db2. split; [exact H|exact Hu].
Defined.


Lemma X5_witness :
  exists u,
    users (snd (registerUser env world register_bob_with_first_token only_alice))
    = [alice; u]
    /\ userSchema.password u = Bcrypt.hash "secret2".
Proof.
  destruct (registerUser env world register_bob_with_first_token only_alice)
    as [[resp|e] db'] eqn:E; [|vm_compute in E; discriminate].
  destruct (X5_registerUser_adds_one_hashed_user env world
              register_bob_with_first_token only_alice resp db' E)
    as (u & name & Hu & _ & _ & _ & _ & _ & Hp & _).
  exists u. split; [exact Hu|exact Hp].
Defined.


Lemma X7_witness :
  generateAccessAndRefreshTokens env world 2 only_alice
  = (Throw (ApiError 500
       "Something went wrong while generating access and refresh tokens"),
     only_alice).
Proof.
  apply (proj1 (X7_token_generation_fails_only_without_user env world 2%nat
                  only_alice)).
  reflexivity.
Defined.

Lemma X8_witness :
  exists u',
    fst (User.findById (Some 1%nat) (snd (loginUser env world login_alice only_alice)))
    = Ok (Some u')
    /\ userSchema.refreshToken u' = Val alice_refresh.
Proof.
  destruct (loginUser env world login_alice only_alice)
    as [[resp|e] db'] eqn:E; [|vm_compute in E; discriminate].
  destruct (X8_login_stores_the_token_it_returns env world login_alice only_alice
              resp db' E)
    as (u & a & r & Hu & _ & _ & Hr & _ & (u' & Hf & Ht) & _).
  vm_compute in Hu. injection Hu as <-.
  exists u'. split; [exact Hf|]. rewrite Ht, Hr. reflexivity.
Defined.


Lemma X10_witness :
  snd (refreshAccessToken env world (refresh_with alice_older_refresh) alice_logged_in)
  = alice_logged_in.
Proof.
  destruct (refreshAccessToken env world (refresh_with alice_older_refresh)
              alice_logged_in) as [[resp|e] db'] eqn:E;
    [vm_compute in E; discriminate|].
  exact (proj1 (X10_refresh_failure_is_401_and_writes_nothing env world
                  (refresh_with alice_older_refresh) alice_logged_in e db' E)).
Defined.


Lemma X12_witness :
  exists m,
    refreshAccessToken env world_later (refresh_with alice_refresh)
      (snd (refreshAccessToken env world_later (refresh_with alice_refresh)
              alice_logged_in))
    = (Throw (ApiError 401 m),
       snd (refreshAccessToken env world_later (refresh_with alice_refresh)
              alice_logged_in)).
Proof.
  destruct (refreshAccessToken env world_later (refresh_with alice_refresh)
              alice_logged_in) as [[resp|e] db1] eqn:E;
    [|vm_compute in E; discriminate].
  apply (X12_refreshed_token_is_spent env world_later world_later
           (refresh_with alice_refresh) (refresh_with alice_refresh)
           alice_logged_in resp db1 (Jwt.PRefresh 1) "refresh-secret"
           1700000000 1700864000).
  - reflexivity.
  - vm_compute. reflexivity.
  - exact E.
  - reflexivity.
Defined.

Lemma X13_witness :
  changeCurrentPassword change_password_mistyped only_alice
  = (Throw (ApiError 400 "New password and confirmation password do not match."),
     only_alice).
Proof.
  apply (proj1 (proj2 (X13_changeCurrentPassword_failures change_password_mistyped
                         only_alice))).
  reflexivity.
Defined.

Lemma X14_witness :
  exists u',
    fst (User.findById (Some 1%nat)
           (snd (changeCurrentPassword change_password alice_logged_in)))
    = Ok (Some u')
    /\ userSchema.password u' = Bcrypt.hash "secret9"
    /\ userSchema.refreshToken u' = Val alice_refresh.
Proof.
  destruct (changeCurrentPassword change_password alice_logged_in)
    as [[resp|e] db'] eqn:E; [|vm_compute in E; discriminate].
  destruct (X14_changeCurrentPassword_keeps_the_session change_password
              alice_logged_in resp db'
              (User.set_refreshToken (Val alice_refresh) alice))
    as (_ & u' & Hf & Hp & Ht & _).
  - reflexivity.
  - discriminate.
  - exact E.
  - exists u'. split; [exact Hf|]. split; [exact Hp|exact Ht].
Defined.

Lemma X15_witness :
  exists u,
    fst (User.findOne (User.ByEmail (JStr "a@x.com"))
           (snd (forgotPassword env world new_password only_alice)))
    = Ok (Some u)
    /\ userSchema.password u = Bcrypt.hash "secret9".
Proof.
  destruct (forgotPassword env world new_password only_alice)
    as [[resp|e] db'] eqn:E; [|vm_compute in E; discriminate].
  destruct (X15_forgotPassword_sets_the_password env world new_password only_alice
              resp db' E)
    as (email & u & p & He & Hu & Hp & _ & Hf & _).
  vm_compute in He. injection He as <-.
  vm_compute in Hu. injection Hu as <-.
  vm_compute in Hp. injection Hp as <-.
  eexists. split; [exact Hf|]. reflexivity.
Defined.

Lemma X16_witness :
  exists resp' db2,
    verifyForgotPasswordOTP env world reset_otp_number
      (snd (sendForgotPasswordOTP env world forgot_alice only_alice))
    = (Ok resp', db2)
    /\ data resp' = DToken (token_for "a@x.com").
Proof.
  destruct (sendForgotPasswordOTP env world forgot_alice only_alice)
    as [[resp|e] db1] eqn:E; [|vm_compute in E; discriminate].
  destruct (X16_reset_steps_compose env world world forgot_alice reset_otp_number
              only_alice resp db1 alice E)
    as (_ & resp' & db2 & u2 & H & Hd & _).
  - reflexivity.
  - reflexivity.
  - discriminate.
  - vm_compute. reflexivity.
  - vm_compute. discriminate.
  - vm_compute in E. injection E as <- <-. reflexivity.
  - reflexivity.
  - exists resp', db2. split; [exact H|exact Hd].
Defined.

Lemma X17_witness :
  exists resp' db2 u2,
    verifyUpdateEmailOTP env world_later change_otp_number
      (snd (updateEmail env world change_email_c only_alice))
    = (Ok resp', db2)
    /\ fst (User.findById (Some 1%nat) db2) = Ok (Some u2)
    /\ userSchema.email u2 = "c@x.com".
Proof.
  destruct (updateEmail env world change_email_c only_alice)
    as [[resp|e] db1] eqn:E; [|vm_compute in E; discriminate].
  destruct (X17_email_change_steps_compose env world world_later change_email_c
              change_otp_number only_alice resp db1 E)
    as (resp' & db2 & u2 & H & _ & Hf & He & _).
  - reflexivity.
  - vm_compute in E. injection E as <- <-. reflexivity.
  - reflexivity.
  - vm_compute. reflexivity.
  - vm_compute. discriminate.
  - exists resp', db2, u2. split; [exact H|]. split; [exact Hf|exact He].
Defined.

Lemma X18_witness :
  verifyUpdateEmailOTP env world change_otp_to_b alice_changing_and_bob
  = (Throw User.E11000, alice_changing_and_bob).
Proof.
  apply (proj1 (X18_email_change_to_taken_email env world change_otp_to_b
                  alice_changing_and_bob (JStr "b@x.com")
                  (User.set_updateEmail (Val 123456) (Val (now + 60000)) alice)
                  bob eq_refl eq_refl eq_refl eq_refl eq_refl
                  ltac:(discriminate))).
Defined.


Lemma X21_witness :
  exists y,
    fst (User.findById (Some 1%nat)
           (snd (updateAccountDetails rename_alice alice_and_bob)))
    = Ok (Some y)
    /\ y = set_fullName (userSchema.fullName y)
             (set_bio (userSchema.bio y) (set_username (userSchema.username y) alice))
    /\ fst (User.findById (Some 2%nat)
              (snd (updateAccountDetails rename_alice alice_and_bob)))
       = Ok (Some bob).
Proof.
  destruct (updateAccountDetails rename_alice alice_and_bob)
    as [r db'] eqn:E.
  destruct (X21_account_update_is_all_or_nothing rename_alice alice_and_bob r db' E)
    as [(e & -> & _)|(u & y & resp & _ & _ & Hu & Hy & Hshape & _ & Hrest)].
  - vm_compute in E. discriminate.
  - vm_compute in Hu. injection Hu as <-.
    exists y. split; [exact Hy|]. split; [exact Hshape|].
    cbn [snd]. rewrite (Hrest 2%nat); [reflexivity|discriminate].
Defined.

Lemma X22_witness :
  exists resp1 db1 resp2 db2,
    removeUserAvatar remove_bob_image alice_and_bob = (Ok resp1, db1)
    /\ removeUserCoverImage remove_bob_image db1 = (Ok resp2, db2)
    /\ data resp2
       = DSelected (userSchema.select (set_coverImage "" (set_avatar "" bob)))
    /\ fst (User.findById (Some 2%nat) db2)
       = Ok (Some (set_coverImage "" (set_avatar "" bob))).
Proof.
  apply (proj1 (X22_image_removals_compose remove_bob_image alice_and_bob bob
                  eq_refl)).
Defined.

Lemma X23_witness :
  ids_unique (snd (updateAccountDetails rename_alice alice_and_bob))
  /\ emails_unique (snd (updateAccountDetails rename_alice alice_and_bob))
  /\ usernames_unique (snd (updateAccountDetails rename_alice alice_and_bob)).
Proof.
  apply (X23_handlers_keep_keys_unique {| omitUndefined := false |} env world
           rename_alice alice_and_bob (updateAccountDetails rename_alice)).
  - do 7 right. left. reflexivity.
  - repeat constructor; simpl; intuition discriminate.
  - repeat constructor; simpl; intuition discriminate.
  - repeat constructor; simpl; intuition discriminate.
Defined.
